(** * PlymouthThemeGenerator: a shallow embedding of [generate.py]

    The script is a straight-line pipeline with effects: it reads the file
    system, prints progress lines, ends the process through [sys.exit], lets
    Python exceptions escape, and writes files.  The embedding threads a
    [world] (file system and chronological trace of effects) through a small
    state-and-exit monad.

    Modelling decisions, all visible in the definitions below:
    - Python values are the ones [json.load] can produce ([value]); a dict
      is a finite map from strings.
    - A Python [float] is an IEEE-754 binary64 number ([spec_float] with
      precision 53 and maximal exponent 1024); [/] and [int()] are the
      binary64 division and the truncation toward zero.
    - The file system maps a path, as spelled, to a directory or a file.
      The working directory and the root are always there and are not
      entries of the map. Symbolic links, permissions and alternative
      spellings of one path are outside the model.
    - The external video tool is a parameter of the development: which
      frames it emits for a given input cannot be read off [generate.py]. *)

From Stdlib Require Import ZArith QArith Qround Qpower String Ascii List SpecFloat Lia.
From stdpp Require Import gmap strings list pretty.

Set Warnings "-register-all".
Local Open Scope Z_scope.

(** ** Python values *)

Abbreviation float := spec_float.

Inductive value :=
| VNone
| VBool (b : bool)
| VInt (z : Z)
| VFloat (f : float)
| VStr (s : string)
| VList (l : list value)
| VDict (d : gmap string value).

Abbreviation dict := (gmap string value).

Inductive exn :=
| KeyError (key : string)
| TypeError
| ValueError
| OverflowError
| ZeroDivisionError
| FileNotFoundError
| IsADirectoryError
| NotADirectoryError
| FileExistsError
| JSONDecodeError
| FfmpegError.

(** Characters that a Rocq string literal cannot spell. *)
Definition nl : string := String (ascii_of_nat 10) EmptyString.
Definition dq : string := String (ascii_of_nat 34) EmptyString.

(** ** binary64 arithmetic as Python uses it *)

Module Float.

Definition prec : Z := 53.
Definition emax : Z := 1024.

Definition div : float -> float -> float := SFdiv prec emax.
Definition mul : float -> float -> float := SFmul prec emax.

Definition is_zero (f : float) : bool :=
  match f with S754_zero _ => true | _ => false end.

Definition is_finite (f : float) : bool :=
  match f with S754_zero _ | S754_finite _ _ _ => true | _ => false end.

(** [0 < f < inf] *)
Definition is_positive (f : float) : bool :=
  match f with S754_finite false _ _ => true | _ => false end.

(** [0 <= f < inf], either zero included *)
Definition is_nonneg (f : float) : bool :=
  match f with S754_zero _ | S754_finite false _ _ => true | _ => false end.

(** [float(n)] for an [int]: round to nearest even, [OverflowError] when
    the integer is too large for a double. *)
Definition of_int (n : Z) : exn + float :=
  match binary_normalize prec emax n 0 false with
  | S754_infinity _ => inl OverflowError
  | f => inr f
  end.

(** [int(f)]: truncation toward zero. *)
Definition to_int (f : float) : exn + Z :=
  match f with
  | S754_zero _ => inr 0
  | S754_infinity _ => inl OverflowError
  | S754_nan => inl ValueError
  | S754_finite s m e =>
      inr (cond_Zopp s
             (match e with
              | Z0 => Zpos m
              | Zpos p => Zpos m * 2 ^ Zpos p
              | Zneg p => Zpos m / 2 ^ Zpos p
              end))
  end.

(** The rational number a finite float denotes (0 for the others). *)
Definition to_Q (f : float) : Q :=
  match f with
  | S754_finite s m e => inject_Z (cond_Zopp s (Zpos m)) * (2 # 1) ^ e
  | _ => 0%Q
  end.

(** [n / t] with [n : int] and [t : float]. *)
Definition int_truediv (n : Z) (t : float) : exn + float :=
  match of_int n with
  | inl e => inl e
  | inr x => if is_zero t then inl ZeroDivisionError else inr (div x t)
  end.

End Float.

(** ** Vocabulary for rounding *)

(** [m] is the integer part of [a / b], and [l] places the rest with
    respect to one half. *)
Definition located (a b m : Z) (l : location) : Prop :=
  m = a / b
  /\ match l with
     | loc_Exact => a mod b = 0
     | loc_Inexact Lt => 0 < 2 * (a mod b) < b
     | loc_Inexact Eq => 2 * (a mod b) = b
     | loc_Inexact Gt => b < 2 * (a mod b)
     end.

(** ** What the program leaves to its environment *)

(** First stream of the probe's answer, after [float()] and [int()]. *)
Record stream := Stream {
  duration : float;
  width : Z;
  height : Z;
  nb_frames : Z;
}.

Inductive content :=
| Text (s : string)      (* text that is not a JSON document *)
| Json (v : value)       (* a text file that [json.load] reads as [v] *)
| Video (s : stream)     (* a clip: its first stream carries all four *)
| Image.                 (* a still image: its first stream has no duration *)

Inductive node :=
| Dir
| File (c : content).

Inductive event :=
| Print (line : string)
| MakeDirs (path : string)
| OpenFile (path : string)                      (* created or truncated *)
| WriteFile (path : string) (text : string)     (* written and closed *)
| RunFfmpeg (video : string) (pattern : string) (frames : list string).

Record world := World {
  fs : gmap string node;
  trace : list event;
}.

(** ** Outcomes and the monad *)

Inductive result (A : Type) :=
| Ok (a : A) (w : world)             (* the call returned *)
| SysExit (code : Z) (w : world)     (* [sys.exit(code)] *)
| Uncaught (e : exn) (w : world)     (* an exception nobody handles *)
| Unmodelled.                        (* behaviour outside the model *)
Arguments Ok {A} a w.
Arguments SysExit {A} code w.
Arguments Uncaught {A} e w.
Arguments Unmodelled {A}.

Definition M (A : Type) : Type := world -> result A.

Definition ret {A} (a : A) : M A := fun w => Ok a w.

Definition bind {A B} (m : M A) (k : A -> M B) : M B :=
  fun w =>
    match m w with
    | Ok a w' => k a w'
    | SysExit c w' => SysExit c w'
    | Uncaught e w' => Uncaught e w'
    | Unmodelled => Unmodelled
    end.

Notation "x <- m ;; k" := (bind m (fun x => k))
  (at level 100, m at next level, right associativity).
Notation "m ;;; k" := (bind m (fun _ => k))
  (at level 100, right associativity).

Definition sys_exit {A} (code : Z) : M A := fun w => SysExit code w.
Definition raise {A} (e : exn) : M A := fun w => Uncaught e w.
Definition unmodelled {A} : M A := fun _ => Unmodelled.

Definition lift {A} (r : exn + A) : M A :=
  match r with inl e => raise e | inr a => ret a end.

Definition emit (e : event) : M unit :=
  fun w => Ok tt {| fs := fs w; trace := trace w ++ [e] |}.

Definition print (line : string) : M unit := emit (Print line).

Definition get_fs : M (gmap string node) := fun w => Ok (fs w) w.

Definition put_fs (f : gmap string node) : M unit :=
  fun w => Ok tt {| fs := f; trace := trace w |}.

(** The world a run stops in, and the status the parent process sees:
    [sys.exit(c)] gives the low eight bits of [c], a traceback gives 1. *)
Definition final_world {A} (r : result A) : option world :=
  match r with
  | Ok _ w | SysExit _ w | Uncaught _ w => Some w
  | Unmodelled => None
  end.

Definition exit_status {A} (r : result A) : option Z :=
  match r with
  | Ok _ _ => Some 0
  | SysExit c _ => Some (c mod 256)
  | Uncaught _ _ => Some 1
  | Unmodelled => None
  end.

(** ** Strings and paths *)

Definition contains_char (c : ascii) (s : string) : bool :=
  bool_decide (c ∈ list_ascii_of_string s).

(** The directory part of a path: everything before its last separator,
    [None] for a bare name. *)
Fixpoint parent_dir (p : string) : option string :=
  match p with
  | EmptyString => None
  | String c rest =>
      match parent_dir rest with
      | Some d => Some (String c d)
      | None => if Ascii.eqb c "/" then Some EmptyString else None
      end
  end.

(** The non-empty prefixes of a path that stop right before a separator,
    shortest first: the intermediate directories [os.makedirs] walks. *)
Fixpoint ancestors (p : string) : list string :=
  match p with
  | EmptyString => []
  | String c rest =>
      (match rest with
       | String "/" _ => [String c EmptyString]
       | _ => []
       end) ++ map (String c) (ancestors rest)
  end.

Fixpoint last_char (s : string) : option ascii :=
  match s with
  | EmptyString => None
  | String c EmptyString => Some c
  | String _ rest => last_char rest
  end.

Fixpoint string_repeat (s : string) (n : nat) : string :=
  match n with
  | O => EmptyString
  | S n' => s +:+ string_repeat s n'
  end.

(** ** The file system calls the script makes *)

Abbreviation filesystem := (gmap string node).

Definition path_exists (f : filesystem) (p : string) : bool :=
  match f !! p with Some _ => true | None => false end.

Definition path_isfile (f : filesystem) (p : string) : bool :=
  match f !! p with Some (File _) => true | _ => false end.

Definition path_isdir (f : filesystem) (p : string) : bool :=
  match f !! p with Some Dir => true | _ => false end.

(** Whether [open(p, "w")] can create or truncate [p], and the error if not. *)
Definition check_writable (f : filesystem) (p : string) : exn + unit :=
  match f !! p with
  | Some Dir => inl IsADirectoryError
  | _ =>
      match parent_dir p with
      | None | Some EmptyString => inr tt
      | Some d =>
          match f !! d with
          | Some Dir => inr tt
          | Some (File _) => inl NotADirectoryError
          | None => inl FileNotFoundError
          end
      end
  end.

Definition fs_write (f : filesystem) (p : string) (c : content)
  : exn + filesystem :=
  match check_writable f p with
  | inl e => inl e
  | inr _ => inr (<[p := File c]> f)
  end.

(** [open(p, "r")]: the content of a regular file, or the error. *)
Definition fs_read (f : filesystem) (p : string) : exn + content :=
  match f !! p with
  | Some (File c) => inr c
  | Some Dir => inl IsADirectoryError
  | None =>
      match parent_dir p with
      | Some d =>
          match f !! d with
          | Some (File _) => inl NotADirectoryError
          | _ => inl FileNotFoundError
          end
      | None => inl FileNotFoundError
      end
  end.

(** [mkdir] of one intermediate directory, tolerated when it is there. *)
Definition mkdir_parent (r : exn + filesystem) (d : string)
  : exn + filesystem :=
  match r with
  | inl e => inl e
  | inr f =>
      match f !! d with
      | None => inr (<[d := Dir]> f)
      | Some Dir => inr f
      | Some (File _) => inl NotADirectoryError
      end
  end.

(** [os.makedirs(p)]: the intermediate directories, then the leaf, which
    must not exist. *)
Definition fs_makedirs (f : filesystem) (p : string) : exn + filesystem :=
  match p with
  | EmptyString => inl FileNotFoundError
  | _ =>
      match fold_left mkdir_parent (ancestors p) (inr f) with
      | inl e => inl e
      | inr f' =>
          match f' !! p with
          | None => inr (<[p := Dir]> f')
          | Some _ => inl FileExistsError
          end
      end
  end.

(** ** [getopt.getopt(args, shortopts)] with no long options *)

Abbreviation opt_pair := (string * string)%type.

Fixpoint short_has_arg (opt : ascii) (shortopts : string) : option bool :=
  match shortopts with
  | EmptyString => None
  | String c rest =>
      if Ascii.eqb opt c && negb (Ascii.eqb c ":")
      then Some (match rest with String ":" _ => true | _ => false end)
      else short_has_arg opt rest
  end.

(** One cluster of short options.  The second component names the option
    that still waits for its argument in the next word. *)
Fixpoint do_shorts (shortopts optstring : string)
  : option (list opt_pair * option string) :=
  match optstring with
  | EmptyString => Some ([], None)
  | String opt rest =>
      let name := String "-" (String opt EmptyString) in
      match short_has_arg opt shortopts with
      | None => None
      | Some true =>
          match rest with
          | EmptyString => Some ([], Some name)
          | _ => Some ([(name, rest)], None)
          end
      | Some false =>
          match do_shorts shortopts rest with
          | None => None
          | Some (l, pending) => Some ((name, EmptyString) :: l, pending)
          end
      end
  end.

Definition more_opts (l : list opt_pair)
    (r : option (list opt_pair * list string))
  : option (list opt_pair * list string) :=
  match r with
  | None => None
  | Some (opts, args) => Some (l ++ opts, args)
  end.

(** [None] stands for [GetoptError]. *)
Fixpoint getopt (shortopts : string) (args : list string)
  : option (list opt_pair * list string) :=
  match args with
  | [] => Some ([], [])
  | a :: rest =>
      match a with
      | String "-" (String c s) =>
          if Ascii.eqb c "-" then
            match s with
            | EmptyString => Some ([], rest)     (* the word [--] *)
            | _ => None                          (* a long option *)
            end
          else
            match do_shorts shortopts (String c s) with
            | None => None
            | Some (l, None) => more_opts l (getopt shortopts rest)
            | Some (l, Some o) =>
                match rest with
                | [] => None
                | x :: rest' => more_opts (l ++ [(o, x)]) (getopt shortopts rest')
                end
            end
      | _ => Some ([], args)
      end
  end.

(** ** The program *)

(** What the program takes from outside itself: [str()] of the values whose
    text the model does not spell out (floats, lists and dicts); the video
    tool, as the number of images it emits for a probed stream, a scale
    width and a rate, [None] when it exits with an error; and the number the
    tool gives the first image of a sequence. *)
Class External := {
  py_repr : value -> string;
  encoder : stream -> Z -> value -> option nat;
  start_number : Z;
}.

Section Generate.

Context `{External}.

(** What an f-string makes of a value. *)
Definition py_str (v : value) : string :=
  match v with
  | VStr s => s
  | VInt z => pretty z
  | VBool true => "True"
  | VBool false => "False"
  | VNone => "None"
  | _ => py_repr v
  end.

(** [d[k]] on a dict, and on any value. *)
Definition getitem (d : dict) (k : string) : M value :=
  match d !! k with
  | Some v => ret v
  | None => raise (KeyError k)
  end.

Definition subscript (v : value) (k : string) : M value :=
  match v with
  | VDict d => getitem d k
  | _ => raise TypeError
  end.

(** A value handed to [os.path.exists] and its kin: a [str] names a path,
    an [int] would name a file descriptor (not modelled), anything else is
    refused by the library. *)
Definition as_path (v : value) : M string :=
  match v with
  | VStr s => ret s
  | VInt _ | VBool _ => unmodelled
  | _ => raise TypeError
  end.

Definition makedirs (p : string) : M unit :=
  f <- get_fs ;;
  match fs_makedirs f p with
  | inl e => raise e
  | inr f' => put_fs f' ;;; emit (MakeDirs p)
  end.

(** [open(p, "w")] and, later, [write] followed by [close].  Opening is
    where the file system can refuse; once the file is open, writing the
    text and closing succeed (a device that fails in the middle of a write
    is outside the model).  What is computed between the two, such as the
    lookups inside an f-string, is part of the caller. *)
Definition open_w (p : string) : M unit :=
  f <- get_fs ;;
  match fs_write f p (Text EmptyString) with
  | inl e => raise e
  | inr f' => put_fs f' ;;; emit (OpenFile p)
  end.

Definition write_close (p : string) (text : string) : M unit :=
  f <- get_fs ;;
  put_fs (<[p := File (Text text)]> f) ;;; emit (WriteFile p text).

(** generate.py, lines 14-33 *)
Definition prepare_build_directory (path : value) : M unit :=
  p <- as_path path ;;
  f <- get_fs ;;
  if path_exists f p then
    if path_isfile f p then
      print ("The specified build path '" +:+ p +:+ "' is a file") ;;;
      sys_exit (-1)
    else
      print ("Using existing output directory '" +:+ p +:+ "'")
  else
    makedirs p ;;;
    print ("Created output directory '" +:+ p +:+ "'").

(** generate.py, lines 36-49 *)
Definition check_file_exists (path : string) : M unit :=
  f <- get_fs ;;
  if negb (path_exists f path && path_isfile f path) then
    print ("The file '" +:+ path
           +:+ "' doesn't exists or is not a valid file") ;;;
    sys_exit (-1)
  else
    print ("File '" +:+ path +:+ "' available").

(** generate.py, lines 52-73 *)
Definition check_input_assets (configuration : dict) : M unit :=
  source_dir <- getitem configuration "source" ;;
  src <- as_path source_dir ;;
  f <- get_fs ;;
  if negb (path_exists f src) || path_isfile f src then
    print ("Invalid assets directory '" +:+ src +:+ "'") ;;;
    sys_exit (-1)
  else
    animation <- getitem configuration "animation" ;;
    check_file_exists (src +:+ "/" +:+ py_str animation) ;;;
    dialog <- getitem configuration "dialog" ;;
    x <- subscript dialog "box" ;;
    check_file_exists (src +:+ "/" +:+ py_str x) ;;;
    x <- subscript dialog "entry" ;;
    check_file_exists (src +:+ "/" +:+ py_str x) ;;;
    x <- subscript dialog "bullet" ;;
    check_file_exists (src +:+ "/" +:+ py_str x) ;;;
    x <- subscript dialog "lock" ;;
    check_file_exists (src +:+ "/" +:+ py_str x) ;;;
    progression <- getitem configuration "progression" ;;
    x <- subscript progression "box" ;;
    check_file_exists (src +:+ "/" +:+ py_str x) ;;;
    x <- subscript progression "bar" ;;
    check_file_exists (src +:+ "/" +:+ py_str x).

(** [ffmpeg.probe(video_path)] with the lookups and conversions of lines
    96-99.  The tool fails on what is no media file; it answers for a
    still image, whose first stream has no [duration] for line 96 to
    find.  Of a clip the model keeps the answers whose first stream
    carries all four fields as numbers: an answer without streams, or with
    a stream that lacks [nb_frames], [width] or [height] or spells one of
    them unreadably, is no [content] of this file system. *)
Definition probe (video_path : string) : M stream :=
  f <- get_fs ;;
  match f !! video_path with
  | Some (File (Video s)) => ret s
  | Some (File Image) => raise (KeyError "duration")
  | _ => raise FfmpegError
  end.

(** [n * v] with [n : int]. *)
Definition py_mul_int (n : Z) (v : value) : exn + value :=
  match v with
  | VInt k => inr (VInt (n * k))
  | VBool b => inr (VInt (n * (if b then 1 else 0)))
  | VFloat x =>
      match Float.of_int n with
      | inl e => inl e
      | inr y => inr (VFloat (Float.mul y x))
      end
  | VStr s => inr (VStr (string_repeat s (Z.to_nat n)))
  | VList l => inr (VList (mjoin (replicate (Z.to_nat n) l)))
  | VNone | VDict _ => inl TypeError
  end.

(** The image the tool writes for number [k] of the pattern
    [<out>/animation_frame_%d.png]. *)
Definition frame_name (k : Z) : string :=
  "animation_frame_" +:+ pretty k +:+ ".png".

Definition frame_path (out : string) (k : Z) : string :=
  out +:+ "/" +:+ frame_name k.

(** Writing [n] images from number [k] on; stops at the first one that
    cannot be written.  Yields the files written and whether all were. *)
Fixpoint write_frames (f : filesystem) (out : string) (k : Z) (n : nat)
  : filesystem * list string * bool :=
  match n with
  | O => (f, [], true)
  | S n' =>
      let p := frame_path out k in
      match fs_write f p Image with
      | inl _ => (f, [], false)
      | inr f1 =>
          let '(f2, l, ok) := write_frames f1 out (k + 1) n' in
          (f2, p :: l, ok)
      end
  end.

Definition ffmpeg_run (f : filesystem) (s : stream) (out : string)
    (fps : value) : filesystem * list string * bool :=
  match encoder s (width s) fps with
  | None => (f, [], false)
  | Some n => write_frames f out start_number n
  end.

(** generate.py, lines 106-108: scale to the probed width, retime to
    [fps], write the image sequence.  A [%] in the output directory would
    be read by the tool as part of the pattern. *)
Definition resample (video_path : string) (s : stream) (out : string)
    (fps : value) : M unit :=
  if contains_char "%" out then unmodelled
  else
    f <- get_fs ;;
    let '(f', frames, ok) := ffmpeg_run f s out fps in
    put_fs f' ;;;
    emit (RunFfmpeg video_path (out +:+ "/animation_frame_%d.png") frames) ;;;
    if ok then ret tt else raise FfmpegError.

(** generate.py, lines 76-110 *)
Definition extract_frames_from_video (video_path : string)
    (output_path : value) (fps : value) : M value :=
  print ("Generate animation frames from video '" +:+ video_path +:+ "'") ;;;
  s <- probe video_path ;;
  let time := duration s in
  q <- lift (Float.int_truediv (nb_frames s) time) ;;
  source_fps <- lift (Float.to_int q) ;;
  print ("Input video duration = " +:+ py_str (VFloat time)
         +:+ " seconds @ " +:+ pretty source_fps +:+ " fps") ;;;
  print ("Input video size = " +:+ pretty (width s) +:+ "x"
         +:+ pretty (height s)) ;;;
  t <- lift (Float.to_int time) ;;
  number_of_extracts <- lift (py_mul_int t fps) ;;
  print ("The result should be " +:+ py_str number_of_extracts
         +:+ " images") ;;;
  resample video_path s (py_str output_path) fps ;;;
  ret number_of_extracts.

(** The text of the theme descriptor, lines 128-134. *)
Definition plymouth_file_text (theme_name description theme_directory : value)
  : string :=
  "[Plymouth Theme]" +:+ nl
  +:+ "Name=" +:+ py_str theme_name +:+ nl
  +:+ "Description=" +:+ py_str description +:+ nl
  +:+ "ModuleName=script" +:+ nl +:+ nl
  +:+ "[script]" +:+ nl
  +:+ "ImageDir=" +:+ py_str theme_directory +:+ "/" +:+ py_str theme_name
  +:+ nl
  +:+ "ScriptFile=" +:+ py_str theme_directory +:+ "/" +:+ py_str theme_name
  +:+ "/" +:+ py_str theme_name +:+ ".script" +:+ nl.

(** generate.py, lines 113-138 *)
Definition write_plymouth_file (configuration : dict) : M unit :=
  theme_name <- getitem configuration "name" ;;
  theme_directory <- getitem configuration "theme_directory" ;;
  build <- getitem configuration "build" ;;
  let theme_filepath :=
    py_str build +:+ "/" +:+ py_str theme_name +:+ ".plymouth" in
  open_w theme_filepath ;;;
  description <- getitem configuration "description" ;;
  write_close theme_filepath
    (plymouth_file_text theme_name description theme_directory) ;;;
  print ("Plymouth theme file '" +:+ theme_filepath +:+ "' created/updated").

(** The text of the animation script, lines 159-163. *)
Definition plymouth_script_text (frame_count : value) : string :=
  "for (i = 0; i < " +:+ py_str frame_count +:+ "; i++)" +:+ nl
  +:+ "   animation_image[i] = Image(" +:+ dq +:+ "animation_frame_" +:+ dq
  +:+ " + i + " +:+ dq +:+ ".png" +:+ dq +:+ ");" +:+ nl
  +:+ "animation_sprite = Sprite();" +:+ nl +:+ nl
  +:+ "animation_sprite.SetX(Window.GetWidth() / 2 - animation_image[0].GetWidth() / 2);"
  +:+ nl
  +:+ "animation_sprite.SetY(Window.GetHeight() / 2 - animation_image[0].GetHeight() / 2);"
  +:+ nl.

(** generate.py, lines 141-167 *)
Definition write_plymouth_script (configuration : dict) (frame_count : value)
  : M unit :=
  theme_name <- getitem configuration "name" ;;
  _ <- getitem configuration "theme_directory" ;;
  build <- getitem configuration "build" ;;
  let script_filepath :=
    py_str build +:+ "/" +:+ py_str theme_name +:+ ".script" in
  open_w script_filepath ;;;
  write_close script_filepath (plymouth_script_text frame_count) ;;;
  print ("Plymouth script file '" +:+ script_filepath
         +:+ "' created/updated").

(** generate.py, lines 170-189 *)
Definition build_theme (configuration : dict) : M unit :=
  check_input_assets configuration ;;;
  build <- getitem configuration "build" ;;
  prepare_build_directory build ;;;
  write_plymouth_file configuration ;;;
  source <- getitem configuration "source" ;;
  animation <- getitem configuration "animation" ;;
  build <- getitem configuration "build" ;;
  fps <- getitem configuration "fps" ;;
  number_of_extracts <-
    extract_frames_from_video (py_str source +:+ "/" +:+ py_str animation)
      build fps ;;
  write_plymouth_script configuration number_of_extracts.

(** ** [main], lines 192-251 *)

(** The literal 0.6 as a binary64 number. *)
Definition ratio_0_6 : float := S754_finite false 5404319552844595 (-53).

Definition default_dialog : dict :=
  {[ "box" := VStr "box.png";
     "entry" := VStr "entry.png";
     "bullet" := VStr "bullet.png";
     "lock" := VStr "lock.png";
     "ratio" := VFloat ratio_0_6 ]}.

Definition default_progression : dict :=
  {[ "bar" := VStr "progress_bar.png";
     "box" := VStr "progress_box.png";
     "ratio" := VFloat ratio_0_6 ]}.

(** The built-in configuration, lines 199-219. *)
Definition default_configuration : dict :=
  {[ "name" := VStr "custom";
     "description" := VStr "A custom theme for Plymouth";
     "theme_directory" := VStr "/usr/share/plymouth/themes";
     "source" := VStr "./source";
     "build" := VStr "./build";
     "animation" := VStr "animation.mp4";
     "fps" := VInt 25;
     "dialog" := VDict default_dialog;
     "progression" := VDict default_progression ]}.

(** The loop over the parsed options, lines 227-230: the last [-c] wins. *)
Definition scan_options (opts : list opt_pair) : bool * string :=
  fold_left
    (fun st oa => if String.eqb (fst oa) "-c" then (true, snd oa) else st)
    opts (false, "config.json").

(** [configuration.update(custom_configuration)].  A dict overwrites key by
    key at the top level; an empty sequence changes nothing; a non-empty
    string fails on its first character; a non-empty list is read as a
    sequence of pairs, which the model leaves out. *)
Definition dict_update (configuration : dict) (custom : value) : M dict :=
  match custom with
  | VDict c => ret (c ∪ configuration)
  | VNone | VBool _ | VInt _ | VFloat _ => raise TypeError
  | VStr EmptyString | VList [] => ret configuration
  | VStr _ => raise ValueError
  | VList _ => unmodelled
  end.

(** The [try] block of lines 232-249: the configuration handed on to
    [build_theme]. *)
Definition load_configuration (custom_configuration_file : bool)
    (configuration_filepath : string) : M dict :=
  f <- get_fs ;;
  match fs_read f configuration_filepath with
  | inl FileNotFoundError =>
      if custom_configuration_file then
        print ("The provided configuration file '" +:+ configuration_filepath
               +:+ "' doesn't exist.") ;;;
        sys_exit 2
      else
        print ("Default configuration file 'config.json' doesn't exist. "
               +:+ "Continue with default built-in configuration") ;;;
        ret default_configuration
  | inl e => raise e
  | inr (Json custom_configuration) =>
      dict_update default_configuration custom_configuration
  | inr _ => raise JSONDecodeError
  end.

(** [argv0] is [sys.argv[0]], [args] is [sys.argv[1:]]. *)
Definition main (argv0 : string) (args : list string) : M unit :=
  match getopt "c:" args with
  | None =>
      print (argv0 +:+ " -c [path_to_configfile]") ;;;
      sys_exit 1
  | Some (opts, _) =>
      let '(custom_configuration_file, configuration_filepath) :=
        scan_options opts in
      configuration <-
        load_configuration custom_configuration_file configuration_filepath ;;
      build_theme configuration
  end.

(** ** Reference data for the statements *)

(** A key of a nested section. *)
Definition lookup_in (v : option value) (k : string) : option value :=
  match v with
  | Some (VDict d) => d !! k
  | _ => None
  end.

(** The paths [check_input_assets] requires, in the order it checks them,
    when the configuration names them all: the source directory and the
    seven files below it. *)
Definition asset_paths (configuration : dict)
  : option (string * list string) :=
  match configuration !! "source" with
  | Some (VStr src) =>
      let dialog := configuration !! "dialog" in
      let progression := configuration !! "progression" in
      files ← mapM id
        [ configuration !! "animation";
          lookup_in dialog "box";
          lookup_in dialog "entry";
          lookup_in dialog "bullet";
          lookup_in dialog "lock";
          lookup_in progression "box";
          lookup_in progression "bar" ];
      Some (src, map (fun x => src +:+ "/" +:+ py_str x) files)
  | _ => None
  end.

Definition assets_present (f : filesystem) (a : string * list string) : bool :=
  path_isdir f (fst a) && forallb (path_isfile f) (snd a).

(** The seven file checks in a row, stopping at the first that fails. *)
Fixpoint check_files (files : list string) : M unit :=
  match files with
  | [] => ret tt
  | p :: rest => check_file_exists p ;;; check_files rest
  end.

(** Where the two text files go. *)
Definition descriptor_path (configuration : dict)
  : option string :=
  match configuration !! "build", configuration !! "name" with
  | Some b, Some n =>
      Some (py_str b +:+ "/" +:+ py_str n +:+ ".plymouth")
  | _, _ => None
  end.

Definition script_path (configuration : dict)
  : option string :=
  match configuration !! "build", configuration !! "name" with
  | Some b, Some n =>
      Some (py_str b +:+ "/" +:+ py_str n +:+ ".script")
  | _, _ => None
  end.

(** The numbers [extract_frames_from_video] derives from a probed stream
    when none of its conversions raises: the source rate it prints and the
    count it returns. *)
Definition estimate (s : stream) (fps : value) : option (Z * value) :=
  match Float.int_truediv (nb_frames s) (duration s) with
  | inr q =>
      match Float.to_int q, Float.to_int (duration s) with
      | inr source_fps, inr t =>
          match py_mul_int t fps with
          | inr n => Some (source_fps, n)
          | inl _ => None
          end
      | _, _ => None
      end
  | inl _ => None
  end.

(** The video a run probes, and the duration the probe reports for it. *)
Definition video_path (configuration : dict) : option string :=
  match configuration !! "source", configuration !! "animation" with
  | Some s, Some a => Some (py_str s +:+ "/" +:+ py_str a)
  | _, _ => None
  end.

Definition probed_duration (configuration : dict) (f : filesystem)
  : option float :=
  match video_path configuration with
  | Some p =>
      match f !! p with
      | Some (File (Video s)) => Some (duration s)
      | _ => None
      end
  | None => None
  end.

(** Kinds of events. *)
Definition is_print (e : event) : bool :=
  match e with Print _ => true | _ => false end.

Definition is_ffmpeg (e : event) : bool :=
  match e with RunFfmpeg _ _ _ => true | _ => false end.

Definition writes_to (p : string) (e : event) : bool :=
  match e with
  | OpenFile q | WriteFile q _ => String.eqb p q
  | _ => false
  end.

Definition is_makedirs (e : event) : bool :=
  match e with MakeDirs _ => true | _ => false end.

Definition writes_to_opt (p : option string) (e : event) : bool :=
  match p with
  | Some q => writes_to q e
  | None => false
  end.

(** Some event satisfying [p] comes strictly before one satisfying [q]. *)
Fixpoint precedes (p q : event -> bool) (l : list event) : bool :=
  match l with
  | [] => false
  | e :: l' => (p e && existsb q l') || precedes p q l'
  end.

(** The three stretches of a run of [build_theme], by the events each may
    add: up to the descriptor, the extraction, the script. *)
Definition preparation_phase (e : event) : bool :=
  is_print e || is_makedirs e.

Definition descriptor_phase (configuration : dict) (e : event) : bool :=
  preparation_phase e || writes_to_opt (descriptor_path configuration) e.

Definition extraction_phase (e : event) : bool :=
  is_print e || is_ffmpeg e.

Definition script_phase (configuration : dict) (e : event) : bool :=
  is_print e || writes_to_opt (script_path configuration) e.

(** The events [write_plymouth_file] may add on its own: printing, and
    opening and writing the descriptor. *)
Definition descriptor_events (configuration : dict) (e : event) : bool :=
  is_print e || writes_to_opt (descriptor_path configuration) e.

(** The images the generated script loads: the loop
    [for (i = 0; i < n; i++)] over ["animation_frame_" + i + ".png"]. *)
Definition script_loads (n : Z) : list string :=
  map frame_name (seqZ 0 n).

End Generate.

(** ** Vocabulary for traces *)

Definition add_trace (w : world) (l : list event) : world :=
  {| fs := fs w; trace := trace w ++ l |}.

(** A list of events that splits into consecutive blocks, one per phase,
    each block made of events its phase allows. *)
Fixpoint in_phases (phases : list (event -> bool)) (l : list event) : Prop :=
  match phases with
  | [] => l = []
  | P :: rest =>
      exists l1 l2, l = l1 ++ l2 /\ forallb P l1 = true /\ in_phases rest l2
  end.

(** A computation only appends events of the given phases, in that order,
    whatever way it ends. *)
Definition emits {A} (phases : list (event -> bool)) (m : M A) : Prop :=
  forall w w', final_world (m w) = Some w' ->
    exists new, trace w' = trace w ++ new /\ in_phases phases new.

(** A computation that stays inside the model, leaves the file system
    alone and only prints, whatever way it ends, and that uses no exit code
    but -1. *)
Definition quiet {A} (m : M A) : Prop :=
  forall w, exists l,
    forallb is_print l = true
    /\ final_world (m w) = Some (add_trace w l)
    /\ forall c w', m w = SysExit c w' -> c = -1.

(** The second file system is the first one with some directories added
    where there was nothing. *)
Definition adds_dirs (f f' : filesystem) : Prop :=
  forall q, f' !! q = f !! q \/ (f !! q = None /\ f' !! q = Some Dir).

(** The second file system is the first one with some regular files
    written where there was no directory. *)
Definition file_writes (f f' : filesystem) : Prop :=
  forall q, f' !! q = f !! q
            \/ (f !! q <> Some Dir /\ exists c, f' !! q = Some (File c)).

(** A sample environment: a ten-second clip of 300 frames, every asset of
    the built-in configuration in place, and a tool that emits, for an
    integer rate, one image per period of that rate over the length of the
    clip, to the nearest count (250 for ten seconds at 25, 13 for half a
    second), numbered from 1 as the ffmpeg image sequence writer does
    unless told otherwise. *)
Definition sample_repr (v : value) : string := "<repr>".

Definition sample_encoder (s : stream) (w : Z) (fps : value) : option nat :=
  match fps with
  | VInt r =>
      if Float.is_finite (duration s)
      then Some (Z.to_nat (Qfloor (Float.to_Q (duration s) * inject_Z r
                                   + (1 # 2))))
      else None
  | _ => None
  end.

Definition ffmpeg_start_number : Z := 1.

Definition ten_seconds : float := S754_finite false 5629499534213120 (-49).

(** The double nearest to a tenth of a second, [0x1.999999999999ap-4]. *)
Definition tenth_second : float := S754_finite false 7205759403792794 (-56).

Definition sample_video : stream :=
  {| duration := ten_seconds; width := 640; height := 480; nb_frames := 300 |}.

Definition sample_fs : filesystem :=
  {[ "./source" := Dir;
     "./source/animation.mp4" := File (Video sample_video);
     "./source/box.png" := File Image;
     "./source/entry.png" := File Image;
     "./source/bullet.png" := File Image;
     "./source/lock.png" := File Image;
     "./source/progress_box.png" := File Image;
     "./source/progress_bar.png" := File Image ]}.

Definition sample_world : world := {| fs := sample_fs; trace := [] |}.

Definition sample_tools : External :=
  {| py_repr := sample_repr;
     encoder := sample_encoder;
     start_number := ffmpeg_start_number |}.

Definition sample_main : string -> list string -> M unit :=
  @main sample_tools.

Definition sample_build_theme : dict -> M unit :=
  @build_theme sample_tools.

(** Whether a run returned, and the world it ends in. *)
Definition returned {A} (r : result A) : bool :=
  match r with Ok _ _ => true | _ => false end.

Definition end_of {A} (r : result A) (otherwise : world) : world :=
  match final_world r with
  | Some w => w
  | None => otherwise
  end.

Definition sample_final : world :=
  end_of (sample_build_theme default_configuration sample_world) sample_world.

(** The sample world once more with a regular file where the build
    directory should go, with one image missing, with both, and with user
    files that set the name only or give a dialog section of one entry. *)
Definition blocked_world : world :=
  {| fs := <[ "./build" := File Image ]> sample_fs; trace := [] |}.

Definition lockless_world : world :=
  {| fs := delete "./source/lock.png" sample_fs; trace := [] |}.

Definition blocked_lockless_world : world :=
  {| fs := <[ "./build" := File Image ]>
             (delete "./source/lock.png" sample_fs);
     trace := [] |}.

Definition foo_world : world :=
  {| fs := <[ "config.json"
              := File (Json (VDict {[ "name" := VStr "foo" ]})) ]>
             (<[ "./build" := Dir ]> sample_fs);
     trace := [] |}.

Definition empty_world : world := {| fs := ∅; trace := [] |}.

Definition sample_assets : string * list string :=
  ("./source",
   ["./source/animation.mp4"; "./source/box.png"; "./source/entry.png";
    "./source/bullet.png"; "./source/lock.png"; "./source/progress_box.png";
    "./source/progress_bar.png"]).

Definition sample_second_final : world :=
  end_of (sample_build_theme default_configuration sample_final) sample_final.

Definition one_entry_dialog : dict := {[ "box" := VStr "frame.png" ]}.

Definition partial_dialog_world : world :=
  {| fs := <[ "config.json"
              := File (Json (VDict {[ "dialog" := VDict one_entry_dialog ]})) ]>
             (<[ "./source/frame.png" := File Image ]> sample_fs);
     trace := [] |}.

(** ** Vocabulary for the ways a computation can stop *)

(** Every exception a computation lets escape satisfies [E], and every
    exit code it hands to [sys.exit] satisfies [C]. *)
Definition stops_with {A} (E : exn -> Prop) (C : Z -> Prop) (m : M A) : Prop :=
  forall w,
    match m w with
    | Uncaught e _ => E e
    | SysExit c _ => C c
    | _ => True
    end.

(** The exceptions that come from the file system calls, from the
    arithmetic and from [dict.update]: everything but a failed lookup and
    the video tool's error. *)
Definition plain_error (e : exn) : bool :=
  match e with
  | KeyError _ | FfmpegError => false
  | _ => true
  end.

(** The keys [build_theme] looks up: in the configuration, and in its
    [dialog] and [progression] sections. *)
Definition top_keys : list string :=
  ["name"; "description"; "theme_directory"; "source"; "build"; "animation";
   "fps"; "dialog"; "progression"].

Definition dialog_keys : list string := ["box"; "entry"; "bullet"; "lock"].

Definition progression_keys : list string := ["box"; "bar"].

Definition nested_keys : list string :=
  ["box"; "entry"; "bullet"; "lock"; "bar"].

(** ** Vocabulary for changes of the file system *)

(** The second file system is the first one with directories created at
    paths of [D] where there was nothing, and regular files written at
    paths of [A] where there was no directory.  Nothing is removed, and no
    directory is replaced. *)
Definition changes_within (D A : string -> Prop) (f f' : filesystem) : Prop :=
  forall q, f' !! q = f !! q
            \/ (D q /\ f !! q = None /\ f' !! q = Some Dir)
            \/ (A q /\ f !! q <> Some Dir /\ exists c, f' !! q = Some (File c)).

(** Whatever way the computation ends, the file system it leaves is
    related by [R] to the one it started in. *)
Definition confined {A} (R : filesystem -> filesystem -> Prop) (m : M A)
  : Prop :=
  forall w w', final_world (m w) = Some w' -> R (fs w) (fs w').

(** A path and the intermediate directories [os.makedirs] walks for it. *)
Definition path_or_ancestor (p q : string) : Prop :=
  q = p \/ In q (ancestors p).

(** The directories and the files a run of [build_theme] may create: the
    build directory with its ancestors; the descriptor, the script and the
    images [<build>/animation_frame_<k>.png]. *)
Definition build_dirs (configuration : dict) (q : string) : Prop :=
  exists b, configuration !! "build" = Some (VStr b) /\ path_or_ancestor b q.

Definition output_files `{External} (configuration : dict) (q : string)
  : Prop :=
  descriptor_path configuration = Some q
  \/ script_path configuration = Some q
  \/ exists b k, configuration !! "build" = Some b
                 /\ q = frame_path (py_str b) k.

(** ** Configurations that agree on what the program reads *)

Definition agree_on (keys : list string) (d1 d2 : dict) : Prop :=
  Forall (fun k => d1 !! k = d2 !! k) keys.

(** Two values of a section: dicts that agree on [keys], or the same
    value. *)
Definition value_agree (keys : list string) (v1 v2 : value) : Prop :=
  match v1, v2 with
  | VDict d1, VDict d2 => agree_on keys d1 d2
  | _, _ => v1 = v2
  end.

Definition same_section (keys : list string) (o1 o2 : option value) : Prop :=
  match o1, o2 with
  | Some v1, Some v2 => value_agree keys v1 v2
  | None, None => True
  | _, _ => False
  end.

Definition same_inputs (c1 c2 : dict) : Prop :=
  agree_on ["name"; "description"; "theme_directory"; "source"; "build";
            "animation"; "fps"] c1 c2
  /\ same_section dialog_keys (c1 !! "dialog") (c2 !! "dialog")
  /\ same_section progression_keys
       (c1 !! "progression") (c2 !! "progression").

(** The exception a run ended in, if it did. *)
Definition raised {A} (r : result A) : option exn :=
  match r with
  | Uncaught e _ => Some e
  | _ => None
  end.

(** ** More sample data *)

(** The sample world with the build directory in place; with a still image
    and with a text file where the clip should be; with clips of half a
    second and of no duration at all; and a world whose [config.json] is a
    directory. *)
Definition built_world : world :=
  {| fs := <[ "./build" := Dir ]> sample_fs; trace := [] |}.

Definition still_image_world : world :=
  {| fs := <[ "./source/animation.mp4" := File Image ]>
             (<[ "./build" := Dir ]> sample_fs);
     trace := [] |}.

Definition text_clip_world : world :=
  {| fs := <[ "./source/animation.mp4" := File (Text "not a clip") ]>
             (<[ "./build" := Dir ]> sample_fs);
     trace := [] |}.

Definition half_second : float := S754_finite false 4503599627370496 (-53).

Definition short_video : stream :=
  {| duration := half_second; width := 640; height := 480; nb_frames := 15 |}.

Definition short_clip_world : world :=
  {| fs := <[ "./source/animation.mp4" := File (Video short_video) ]>
             (<[ "./build" := Dir ]> sample_fs);
     trace := [] |}.

Definition empty_video : stream :=
  {| duration := S754_zero false; width := 640; height := 480;
     nb_frames := 0 |}.

Definition empty_clip_world : world :=
  {| fs := <[ "./source/animation.mp4" := File (Video empty_video) ]>
             sample_fs;
     trace := [] |}.

Definition config_dir_world : world :=
  {| fs := <[ "config.json" := Dir ]> sample_fs; trace := [] |}.

(** The built-in configuration without its description, without its
    theme directory, and with entries the program never reads. *)
Definition undescribed_configuration : dict :=
  delete "description" default_configuration.

Definition undirected_configuration : dict :=
  delete "theme_directory" default_configuration.

Definition annotated_configuration : dict :=
  <[ "comment" := VStr "spring edition" ]>
    (<[ "dialog" := VDict (<[ "ratio" := VInt 1 ]> default_dialog) ]>
       default_configuration).

(** * Properties *)

(** ** binary64 facts *)

Lemma Qfloor_scaled_up (m p : positive) :
  Qfloor (inject_Z (Zpos m) * (2 # 1) ^ Zpos p) = Zpos m * 2 ^ Zpos p.
Proof.
  assert (E : (inject_Z (Zpos m) * (2 # 1) ^ Zpos p
               == inject_Z (Zpos m * 2 ^ Zpos p))%Q).
  { rewrite inject_Z_mult. apply Qmult_comp; [reflexivity|].
    change (2 # 1)%Q with (inject_Z 2). symmetry. apply Zpower_Qpower. lia. }
  rewrite (Qfloor_comp _ _ E). apply Qfloor_Z.
Qed.

Lemma Qfloor_scaled_down (m p : positive) :
  Qfloor (inject_Z (Zpos m) * (2 # 1) ^ Zneg p) = Zpos m / 2 ^ Zpos p.
Proof.
  assert (Hpos : 0 < 2 ^ Zpos p) by (apply Z.pow_pos_nonneg; lia).
  destruct (2 ^ Zpos p) as [|d|d] eqn:Hd; try lia.
  assert (E : (inject_Z (Zpos m) * (2 # 1) ^ Zneg p == Zpos m # d)%Q).
  { change (Zneg p) with (- Zpos p). rewrite Qpower_opp.
    change (2 # 1)%Q with (inject_Z 2). rewrite <- Zpower_Qpower by lia.
    rewrite Hd. unfold Qeq, Qinv, Qmult, inject_Z. simpl. lia. }
  rewrite (Qfloor_comp _ _ E). reflexivity.
Qed.

(** On a float that is zero or positive and finite, [int()] is the floor
    of the number the float denotes. *)
Lemma to_int_floor (f : float) :
  Float.is_nonneg f = true ->
  Float.to_int f = inr (Qfloor (Float.to_Q f)).
Proof.
  destruct f as [s|s| |s m e]; try discriminate.
  - intros _. reflexivity.
  - destruct s; [discriminate|]. intros _.
    unfold Float.to_int, Float.to_Q, cond_Zopp. f_equal.
    destruct e as [|p|p].
    + change ((2 # 1) ^ 0)%Q with 1%Q.
      assert (E : (inject_Z (Zpos m) * 1 == inject_Z (Zpos m))%Q) by ring.
      rewrite (Qfloor_comp _ _ E). symmetry. apply Qfloor_Z.
    + symmetry. apply Qfloor_scaled_up.
    + symmetry. apply Qfloor_scaled_down.
Qed.

(** Rounding keeps the sign it is given. *)
Lemma binary_round_aux_sign sx mx ex lx :
  match binary_round_aux Float.prec Float.emax sx mx ex lx with
  | S754_zero s | S754_infinity s | S754_finite s _ _ => s = sx
  | S754_nan => True
  end.
Proof.
  unfold binary_round_aux.
  destruct (shr_fexp _ _ _ _ _) as [mrs' e'].
  destruct (shr_fexp _ _ _ _ _) as [mrs'' e''].
  destruct (shr_m mrs''); try done.
  destruct (_ <=? _); done.
Qed.

Lemma of_int_nonneg n x :
  0 <= n -> Float.of_int n = inr x ->
  x = S754_nan \/ Float.is_nonneg x = true.
Proof.
  unfold Float.of_int, binary_normalize. intros Hn.
  destruct n as [|m|m]; try lia.
  - intros [= <-]. by right.
  - unfold binary_round. destruct (shl_align _ _ _) as [mz ez].
    pose proof (binary_round_aux_sign false (Zpos mz) ez loc_Exact) as Hs.
    destruct (binary_round_aux _ _ _ _ _ _) as [s|s| |s m' e'];
      intros [= <-]; subst; auto.
Qed.

Lemma int_truediv_nonneg n t q :
  0 <= n -> Float.is_positive t = true ->
  Float.int_truediv n t = inr q -> Float.is_finite q = true ->
  Float.is_nonneg q = true.
Proof.
  unfold Float.int_truediv. intros Hn Ht.
  destruct (Float.of_int n) as [e|x] eqn:Hx; [discriminate|].
  apply of_int_nonneg in Hx; [|done].
  destruct t as [| | |[] mt et]; try discriminate. simpl.
  intros [= <-].
  destruct Hx as [->|Hx]; [discriminate|].
  destruct x as [[]| | |[] mx ex]; try discriminate; simpl; try done.
  unfold Float.div, SFdiv.
  destruct (SFdiv_core_binary _ _ _ _ _ _) as [[mz ez] lz].
  pose proof (binary_round_aux_sign (xorb false false) mz ez lz) as Hs.
  destruct (binary_round_aux _ _ _ _ _ _) as [s|s| |s m' e']; simpl in *;
    subst; done.
Qed.

(** ** Correct rounding of the binary64 division *)

Lemma digits2_pos_bounds p :
  2 ^ (Zpos (digits2_pos p) - 1) <= Zpos p < 2 ^ Zpos (digits2_pos p).
Proof.
  induction p as [p IH|p IH|]; cbn [digits2_pos].
  - rewrite Pos2Z.inj_succ, Z.pow_succ_r by lia.
    replace (Z.succ (Zpos (digits2_pos p)) - 1)
      with (Z.succ (Zpos (digits2_pos p) - 1)) by lia.
    rewrite Z.pow_succ_r by lia. lia.
  - rewrite Pos2Z.inj_succ, Z.pow_succ_r by lia.
    replace (Z.succ (Zpos (digits2_pos p)) - 1)
      with (Z.succ (Zpos (digits2_pos p) - 1)) by lia.
    rewrite Z.pow_succ_r by lia. lia.
  - cbn. lia.
Qed.

Lemma Zdigits2_bounds m :
  0 < m -> 2 ^ (Zdigits2 m - 1) <= m < 2 ^ Zdigits2 m.
Proof. destruct m as [|p|p]; try lia. intros _. apply digits2_pos_bounds. Qed.

Lemma Zdigits2_nonneg m : 0 <= m -> 0 <= Zdigits2 m.
Proof. destruct m; cbn; lia. Qed.

Lemma Zdigits2_le m k : 0 <= m < 2 ^ k -> 0 <= k -> Zdigits2 m <= k.
Proof.
  intros [H0 Hm] Hk. destruct (Z.eq_dec m 0) as [->|Hne]; [cbn; lia|].
  destruct (Zdigits2_bounds m) as [Hlo _]; [lia|].
  destruct (Z.le_gt_cases (Zdigits2 m) k) as [|Hgt]; [done|].
  assert (2 ^ k <= 2 ^ (Zdigits2 m - 1)) by (apply Z.pow_le_mono_r; lia).
  lia.
Qed.

Lemma Zdigits2_ge m k : 2 ^ (k - 1) <= m -> 1 <= k -> k <= Zdigits2 m.
Proof.
  intros Hm Hk.
  assert (0 < 2 ^ (k - 1)) by (apply Z.pow_pos_nonneg; lia).
  destruct (Zdigits2_bounds m) as [_ Hhi]; [lia|].
  destruct (Z.le_gt_cases k (Zdigits2 m)) as [|Hgt]; [done|].
  assert (0 <= Zdigits2 m) by (apply Zdigits2_nonneg; lia).
  assert (2 ^ Zdigits2 m <= 2 ^ (k - 1)) by (apply Z.pow_le_mono_r; lia).
  lia.
Qed.

(** The location [SFdiv_core_binary] computes from a remainder. *)
Lemma new_location_located a b :
  0 <= a -> 0 < b -> located a b (a / b) (new_location b (a mod b)).
Proof.
  intros Ha Hb. split; [done|].
  pose proof (Z.mod_pos_bound a b Hb) as Hr.
  unfold new_location, new_location_even, new_location_odd.
  destruct (Z.even b) eqn:Hev.
  - destruct (Z.eqb_spec (a mod b) 0) as [E|E]; [done|].
    destruct (Z.compare_spec (2 * (a mod b)) b); lia.
  - destruct (Z.eqb_spec (a mod b) 0) as [E|E]; [done|].
    assert (Hodd : Z.odd b = true) by by rewrite <- Z.negb_even, Hev.
    apply Z.odd_spec in Hodd as [c Hc].
    destruct (Z.compare_spec (2 * (a mod b) + 1) b); lia.
Qed.

Lemma shr_record_of_loc_m m l : shr_m (shr_record_of_loc m l) = m.
Proof. by destruct l as [|[]]. Qed.

Lemma loc_of_shr_record_of_loc m l :
  loc_of_shr_record (shr_record_of_loc m l) = l.
Proof. by destruct l as [|[]]. Qed.

(** One step of the right shift halves the unit. *)
Lemma shr_1_located a b mrs :
  0 <= a -> 0 < b ->
  located a b (shr_m mrs) (loc_of_shr_record mrs) ->
  located a (2 * b) (shr_m (shr_1 mrs)) (loc_of_shr_record (shr_1 mrs)).
Proof.
  intros Ha Hb [Hm Hl].
  pose proof (Z.mod_pos_bound a b Hb) as Hr.
  pose proof (Z.div_mod a b ltac:(lia)) as Hab.
  pose proof (Z.div_pos a b Ha Hb) as Hq.
  destruct mrs as [m r s]. cbn [shr_m] in Hm. rewrite <- Hm in *.
  assert (Hcase : forall m' (bit : bool),
             m = 2 * m' + (if bit then 1 else 0) ->
             located a (2 * b) m'
               (loc_of_shr_record (Build_shr_record m' bit (r || s)))).
  { intros m' bit Hm'.
    set (f := a mod b) in *.
    assert (Hdiv : a = 2 * b * m' + ((if bit then b else 0) + f)).
    { destruct bit; lia. }
    assert (Hrange : 0 <= (if bit then b else 0) + f < 2 * b).
    { destruct bit; lia. }
    assert (Hq' : a / (2 * b) = m').
    { symmetry. apply (Z.div_unique_pos a (2 * b) m' _ Hrange Hdiv). }
    assert (Hr' : a mod (2 * b) = (if bit then b else 0) + f).
    { symmetry. apply (Z.mod_unique_pos a (2 * b) m' _ Hrange Hdiv). }
    split; [done|]. rewrite Hr'. cbn [loc_of_shr_record].
    destruct bit, r, s; cbn in Hl |- *; lia. }
  destruct m as [|[p|p|]|p]; cbn [shr_1 shr_m]; try lia.
  - apply (Hcase 0 false). lia.
  - apply (Hcase (Zpos p) true). lia.
  - apply (Hcase (Zpos p) false). lia.
  - apply (Hcase 0 true). lia.
Qed.

Lemma iter_pos_shr_1_located a :
  0 <= a ->
  forall p b mrs,
    0 < b ->
    located a b (shr_m mrs) (loc_of_shr_record mrs) ->
    located a (b * 2 ^ Zpos p) (shr_m (SpecFloat.iter_pos shr_1 p mrs))
      (loc_of_shr_record (SpecFloat.iter_pos shr_1 p mrs)).
Proof.
  intros Ha. induction p as [p IH|p IH|]; intros b mrs Hb Hl;
    cbn [SpecFloat.iter_pos].
  - replace (b * 2 ^ Zpos p~1) with (2 * b * 2 ^ Zpos p * 2 ^ Zpos p).
    + assert (0 < 2 ^ Zpos p) by (apply Z.pow_pos_nonneg; lia).
      apply IH; [nia|]. apply IH; [lia|]. by apply shr_1_located.
    + replace (Zpos p~1) with (1 + Zpos p + Zpos p) by lia.
      rewrite !Z.pow_add_r by lia. change (2 ^ 1) with 2. ring.
  - replace (b * 2 ^ Zpos p~0) with (b * 2 ^ Zpos p * 2 ^ Zpos p).
    + assert (0 < 2 ^ Zpos p) by (apply Z.pow_pos_nonneg; lia).
      apply IH; [nia|]. by apply IH.
    + replace (Zpos p~0) with (Zpos p + Zpos p) by lia.
      rewrite !Z.pow_add_r by lia. ring.
  - change (2 ^ 1) with 2. rewrite Z.mul_comm. by apply shr_1_located.
Qed.

(** The shift to the exponent of the format keeps the location. *)
Lemma shr_fexp_located a b m e l :
  0 <= a -> 0 < b -> located a b m l ->
  let e1 := Z.max e (fexp Float.prec Float.emax (Zdigits2 m + e)) in
  exists mrs,
    shr_fexp Float.prec Float.emax m e l = (mrs, e1)
    /\ located a (b * 2 ^ (e1 - e)) (shr_m mrs) (loc_of_shr_record mrs).
Proof.
  intros Ha Hb Hl e1. unfold shr_fexp, shr.
  destruct (fexp Float.prec Float.emax (Zdigits2 m + e) - e) as [|p|p] eqn:Hs.
  - exists (shr_record_of_loc m l). replace e1 with e by lia.
    split; [done|]. rewrite Z.sub_diag, Z.mul_1_r.
    by rewrite shr_record_of_loc_m, loc_of_shr_record_of_loc.
  - exists (SpecFloat.iter_pos shr_1 p (shr_record_of_loc m l)).
    replace e1 with (e + Zpos p) by lia. split; [done|].
    replace (e + Zpos p - e) with (Zpos p) by lia.
    apply iter_pos_shr_1_located; [done..|].
    by rewrite shr_record_of_loc_m, loc_of_shr_record_of_loc.
  - exists (shr_record_of_loc m l). replace e1 with e by lia.
    split; [done|]. rewrite Z.sub_diag, Z.mul_1_r.
    by rewrite shr_record_of_loc_m, loc_of_shr_record_of_loc.
Qed.

(** Rounding to nearest, ties to even, on a located quotient. *)
Lemma round_nearest_even_located a b m l :
  0 <= a -> 0 < b -> located a b m l ->
  let m2 := round_nearest_even m l in
  a / b <= m2 <= a / b + 1
  /\ - b <= 2 * (a - m2 * b) <= b
  /\ (m2 = a / b + 1 -> b <= 2 * (a mod b)).
Proof.
  intros Ha Hb [-> Hl] m2.
  pose proof (Z.mod_pos_bound a b Hb) as Hr.
  pose proof (Z.div_mod a b ltac:(lia)) as Hab.
  subst m2. destruct l as [|[]]; cbn [round_nearest_even];
    try destruct (Z.even (a / b)); repeat split; nia.
Qed.

Lemma fexp_binary64 e :
  fexp Float.prec Float.emax e = Z.max (e - 53) (-1074).
Proof. reflexivity. Qed.

(** After rounding, the mantissa fits the format, or is [2 ^ 53] and one
    more shift brings it back. *)
Lemma shr_fexp_rounded m E :
  0 <= m <= 2 ^ 53 -> -1074 <= E ->
  exists mrs e,
    shr_fexp Float.prec Float.emax m E loc_Exact = (mrs, e)
    /\ 0 <= shr_m mrs /\ E <= e <= E + 1 /\ m = shr_m mrs * 2 ^ (e - E).
Proof.
  intros Hm HE. unfold shr_fexp. rewrite fexp_binary64.
  destruct (Z.eq_dec m (2 ^ 53)) as [->|Hne].
  - change (Zdigits2 (2 ^ 53)) with 54.
    replace (Z.max (54 + E - 53) (-1074) - E) with 1 by lia.
    eexists _, _. split; [reflexivity|]. cbn [shr_m].
    replace (E + 1 - E) with 1 by lia. split; [done|]. split; [lia|].
    reflexivity.
  - assert (Hd : Zdigits2 m <= 53) by (apply Zdigits2_le; lia).
    unfold shr.
    destruct (Z.max (Zdigits2 m + E - 53) (-1074) - E) as [|p|p] eqn:Hshift;
      try lia.
    + exists (shr_record_of_loc m loc_Exact), E. split; [done|].
      cbn [shr_record_of_loc shr_m]. rewrite Z.sub_diag. lia.
    + exists (shr_record_of_loc m loc_Exact), E. split; [done|].
      cbn [shr_record_of_loc shr_m]. rewrite Z.sub_diag. lia.
Qed.

(** What [binary_round_aux] returns on a located quotient [a / b] with unit
    [2 ^ e0]: with [E] the exponent of the format there and [B] the
    divisor for the unit [2 ^ E], the integer nearest to [a / B], ties to
    even, times [2 ^ E]. *)
Lemma binary_round_aux_nearest a b q0 e0 l0 :
  0 <= a -> 0 < b -> located a b q0 l0 ->
  e0 <= fexp Float.prec Float.emax (Zdigits2 q0 + e0) ->
  let E := fexp Float.prec Float.emax (Zdigits2 q0 + e0) in
  let B := b * 2 ^ (E - e0) in
  exists m2,
    a / B <= m2 <= a / B + 1
    /\ - B <= 2 * (a - m2 * B) <= B
    /\ (m2 = a / B + 1 -> B <= 2 * (a mod B))
    /\ (-1074 < E -> 2 ^ 52 <= a / B)
    /\ (E = -1074 -> m2 <= 2 ^ 53)
    /\ match binary_round_aux Float.prec Float.emax false q0 e0 l0 with
       | S754_zero s => s = false /\ m2 = 0
       | S754_finite s m e =>
           s = false /\ E <= e /\ m2 = Zpos m * 2 ^ (e - E) /\ e <= 971
       | S754_infinity _ => 971 <= E
       | S754_nan => False
       end.
Proof.
  intros Ha Hb Hl He0 E B.
  assert (HEmin : -1074 <= E) by (unfold E; rewrite fexp_binary64; lia).
  assert (Hk : 0 <= E - e0) by (unfold E; lia).
  assert (H2k : 0 < 2 ^ (E - e0)) by (apply Z.pow_pos_nonneg; lia).
  assert (HB : 0 < B) by (unfold B; nia).
  destruct (shr_fexp_located a b q0 e0 l0 Ha Hb Hl) as (mrs1 & Hshr & Hl1).
  replace (Z.max e0 (fexp Float.prec Float.emax (Zdigits2 q0 + e0)))
    with E in * by (unfold E; lia).
  fold B in Hl1.
  set (m1 := shr_m mrs1) in *. set (l1 := loc_of_shr_record mrs1) in *.
  destruct (round_nearest_even_located a B m1 l1 Ha HB Hl1)
    as (Hm2 & Hnear & Hup).
  set (m2 := round_nearest_even m1 l1) in *.
  (* the mantissa before rounding *)
  assert (Hq0 : q0 = a / b) by apply Hl.
  assert (Hm1 : a / B = q0 / 2 ^ (E - e0)).
  { unfold B. rewrite Hq0. symmetry. apply Z.div_div; lia. }
  assert (Hq0pos : 0 <= q0) by (rewrite Hq0; by apply Z.div_pos).
  assert (Hm1pos : 0 <= a / B) by (by apply Z.div_pos).
  assert (Hsize : a / B < 2 ^ 53 /\ (-1074 < E -> 2 ^ 52 <= a / B)).
  { destruct (Z.eq_dec q0 0) as [Hz|Hnz].
    - rewrite Hm1, Hz, Z.div_0_l by lia. split; [done|].
      intros HE. exfalso. revert HE He0. unfold E.
      rewrite Hz, fexp_binary64. cbn [Zdigits2]. lia.
    - destruct (Zdigits2_bounds q0) as [Hlo Hhi]; [lia|].
      assert (Hdq : 1 <= Zdigits2 q0).
      { apply (Zdigits2_ge q0 1); [cbn; lia|lia]. }
      assert (HE : E = Z.max (Zdigits2 q0 + e0 - 53) (-1074))
        by (unfold E; by rewrite fexp_binary64).
      split.
      + rewrite Hm1. apply Z.div_lt_upper_bound; [done|].
        rewrite <- Z.pow_add_r by lia.
        eapply Z.lt_le_trans; [exact Hhi|].
        apply Z.pow_le_mono_r; lia.
      + intros Hnormal. rewrite Hm1.
        apply Z.div_le_lower_bound; [done|].
        rewrite <- Z.pow_add_r by lia.
        etransitivity; [|exact Hlo].
        apply Z.pow_le_mono_r; lia. }
  destruct Hsize as [Hm1hi Hm1lo].
  exists m2. do 3 (split; [done|]). split; [done|]. split; [lia|].
  unfold binary_round_aux. rewrite Hshr. fold m1 l1 m2.
  destruct (shr_fexp_rounded m2 E) as (mrs2 & e2 & Hshr2 & Hpos & He2 & Hval);
    [lia|done|].
  rewrite Hshr2.
  destruct (shr_m mrs2) as [|m|m] eqn:Hm; [split; [done|lia]| |lia].
  destruct (Z.leb_spec e2 (Float.emax - Float.prec)) as [Hle|Hgt].
  - change (Float.emax - Float.prec) with 971 in Hle.
    split; [done|]. split; [lia|]. split; [done|lia].
  - change (Float.emax - Float.prec) with 971 in Hgt. lia.
Qed.

(** The integer quotient [SFdiv_core_binary] hands to the rounding: the
    dividend is scaled so that the quotient has at least the digits of the
    format. *)
Lemma SFdiv_core_binary_located mx ex my ey :
  let d := Zdigits2 (Zpos mx) + ex - (Zdigits2 (Zpos my) + ey) in
  let e' := Z.min (fexp Float.prec Float.emax d) (ex - ey) in
  let a := Zpos mx * 2 ^ (ex - ey - e') in
  exists q0 l,
    SFdiv_core_binary Float.prec Float.emax (Zpos mx) ex (Zpos my) ey
    = (q0, e', l)
    /\ located a (Zpos my) q0 l
    /\ e' <= fexp Float.prec Float.emax (Zdigits2 q0 + e').
Proof.
  intros d e' a. unfold SFdiv_core_binary. cbv zeta. fold d. fold e'.
  assert (Hs : 0 <= ex - ey - e') by (unfold e'; lia).
  assert (H2s : 0 < 2 ^ (ex - ey - e')) by (apply Z.pow_pos_nonneg; lia).
  assert (Ha : 0 <= a) by (unfold a; nia).
  assert (Hm' : match ex - ey - e' with
                | Zpos _ => Z.shiftl (Zpos mx) (ex - ey - e')
                | Z0 => Zpos mx
                | Zneg _ => 0
                end = a).
  { unfold a. destruct (ex - ey - e') as [|p|p] eqn:E; [|
      by rewrite Z.shiftl_mul_pow2|lia].
    change (2 ^ 0) with 1. lia. }
  rewrite Hm'.
  destruct (Z.div_eucl a (Zpos my)) as [q r] eqn:Hdiv.
  assert (Hq : q = a / Zpos my) by (unfold Z.div; by rewrite Hdiv).
  assert (Hr : r = a mod Zpos my) by (unfold Z.modulo; by rewrite Hdiv).
  exists q, (new_location (Zpos my) r). split; [done|].
  split; [subst q r; by apply new_location_located|].
  (* the quotient is long enough *)
  rewrite !fexp_binary64.
  destruct (Zdigits2_bounds (Zpos mx)) as [Hxlo Hxhi]; [done|].
  destruct (Zdigits2_bounds (Zpos my)) as [Hylo Hyhi]; [done|].
  set (d1 := Zdigits2 (Zpos mx)) in *. set (d2 := Zdigits2 (Zpos my)) in *.
  assert (Hd1 : 1 <= d1) by (unfold d1; cbn; lia).
  assert (Hd2 : 1 <= d2) by (unfold d2; cbn; lia).
  assert (He' : e' <= Z.max (d - 53) (-1074)).
  { unfold e'. rewrite fexp_binary64. lia. }
  destruct (Z.le_gt_cases d e') as [Hle|Hgt]; [lia|].
  assert (Hlong : d - e' <= Zdigits2 q).
  { apply Zdigits2_ge; [|lia]. rewrite Hq.
    apply Z.div_le_lower_bound; [done|].
    assert (Hlt : Zpos my * 2 ^ (d - e' - 1) <= 2 ^ (d1 - 1 + (ex - ey - e'))).
    { replace (d1 - 1 + (ex - ey - e')) with (d2 + (d - e' - 1))
        by (unfold d; lia).
      rewrite Z.pow_add_r by lia.
      assert (0 <= 2 ^ (d - e' - 1)) by (apply Z.pow_nonneg; lia). nia. }
    etransitivity; [exact Hlt|]. unfold a.
    rewrite Z.pow_add_r by lia. nia. }
  lia.
Qed.

(** Division of two positive finite doubles, on integers: with [a / B]
    the quotient in units of [2 ^ E], the result is [m2 * 2 ^ E] for the
    integer [m2] nearest to [a / B], ties to even; [E] is the exponent of
    the format at the quotient. *)
Lemma div_nearest mx ex my ey :
  exists E s k m2,
    -1074 <= E /\ 0 <= s /\ 0 <= k /\ s - k + E = ex - ey
    /\ let a := Zpos mx * 2 ^ s in
       let B := Zpos my * 2 ^ k in
       a / B <= m2 <= a / B + 1
       /\ - B <= 2 * (a - m2 * B) <= B
       /\ (m2 = a / B + 1 -> B <= 2 * (a mod B))
       /\ (-1074 < E -> 2 ^ 52 <= a / B)
       /\ (E = -1074 -> m2 <= 2 ^ 53)
       /\ match Float.div (S754_finite false mx ex) (S754_finite false my ey)
          with
          | S754_zero sg => sg = false /\ m2 = 0
          | S754_finite sg m e =>
              sg = false /\ E <= e /\ m2 = Zpos m * 2 ^ (e - E) /\ e <= 971
          | S754_infinity _ => 971 <= E
          | S754_nan => False
          end.
Proof.
  destruct (SFdiv_core_binary_located mx ex my ey)
    as (q0 & l & Hcore & Hl & He').
  set (e' := Z.min _ _) in *.
  assert (Hs : 0 <= ex - ey - e') by (unfold e'; lia).
  assert (H2s : 0 < 2 ^ (ex - ey - e')) by (apply Z.pow_pos_nonneg; lia).
  destruct (binary_round_aux_nearest (Zpos mx * 2 ^ (ex - ey - e')) (Zpos my)
              q0 e' l ltac:(nia) ltac:(done) Hl He')
    as (m2 & Hm2).
  set (E := fexp Float.prec Float.emax (Zdigits2 q0 + e')) in *.
  exists E, (ex - ey - e'), (E - e'), m2.
  split; [unfold E; rewrite fexp_binary64; lia|].
  split; [done|]. split; [lia|]. split; [lia|].
  unfold Float.div, SFdiv. rewrite Hcore. exact Hm2.
Qed.

Lemma div_cross n d n' d' :
  0 < d -> 0 < d' -> n * d' = n' * d -> n / d = n' / d'.
Proof.
  intros Hd Hd' E.
  rewrite <- (Z.div_mul_cancel_r n d d') by lia.
  rewrite E, (Z.mul_comm d d'). apply Z.div_mul_cancel_r; lia.
Qed.

(** From the rounded mantissa to the integer part: [N / D] is the exact
    quotient, [a / B] the same in units of [1 / G], [m2] the mantissa
    rounded to nearest. *)
Lemma rate_from_rounding N D a B G m2 :
  0 < D -> 0 < B -> 0 < G -> 0 <= a ->
  N * (B * G) = a * D ->
  a / B <= m2 <= a / B + 1 ->
  (m2 = a / B + 1 -> B <= 2 * (a mod B)) ->
  2 ^ 52 <= a / B \/ m2 < G ->
  N / D <= m2 / G <= N / D + 1
  /\ (m2 / G = N / D + 1 -> (m2 / G * D - N) * 2 ^ 53 <= N).
Proof.
  intros HD HB HG Ha Hcross Hm2 Hup Hsize.
  assert (HN : 0 <= N) by nia.
  rewrite (div_cross N D a (B * G) HD ltac:(nia) Hcross).
  rewrite <- Z.div_div by lia.
  set (m1 := a / B) in *.
  assert (Hm1 : 0 <= m1) by (by apply Z.div_pos).
  pose proof (Z.div_mod m1 G ltac:(lia)) as Hdm.
  pose proof (Z.mod_pos_bound m1 G HG) as Hg.
  pose proof (Z.div_mod m2 G ltac:(lia)) as Hdm2.
  pose proof (Z.mod_pos_bound m2 G HG) as Hg2.
  assert (Hf : 0 <= m1 / G) by (by apply Z.div_pos).
  split.
  - split; [apply Z.div_le_mono; lia|].
    assert (m2 / G < m1 / G + 2); [|lia].
    apply Z.div_lt_upper_bound; [done|]. nia.
  - intros Hr.
    assert (Hm2' : m2 = m1 + 1) by nia.
    destruct Hsize as [Hnormal|Hsub].
    + pose proof (Z.div_mod a B ltac:(lia)) as Hab.
      pose proof (Z.mod_pos_bound a B HB) as Hh.
      specialize (Hup Hm2'). fold m1 in Hab.
      assert (Hexact : m2 = (m1 / G + 1) * G) by nia.
      (* compare after multiplying by [B * G] *)
      apply (Z.mul_le_mono_pos_r _ _ (B * G)); [nia|].
      replace ((m2 / G * D - N) * 2 ^ 53 * (B * G))
        with ((m2 / G * G * B * D - N * (B * G)) * 2 ^ 53) by ring.
      rewrite Hcross, Hr, <- Hexact, Hm2'.
      replace (((m1 + 1) * B * D - a * D) * 2 ^ 53)
        with (((m1 + 1) * B - a) * 2 ^ 53 * D) by ring.
      apply Z.mul_le_mono_nonneg_r; [lia|].
      assert (B * 2 ^ 52 <= a) by nia.
      nia.
    + assert (m2 / G = 0) by (apply Z.div_small; lia). lia.
Qed.

Lemma pos_iter_xO d : forall m, Zpos (Pos.iter xO m d) = Zpos m * 2 ^ Zpos d.
Proof.
  induction d as [|d IH] using Pos.peano_ind; intros m.
  - cbn. lia.
  - rewrite Pos.iter_succ, Pos2Z.inj_xO, IH, Pos2Z.inj_succ.
    rewrite Z.pow_succ_r by lia. ring.
Qed.

(** [float(n)] is exact below [2 ^ 53]. *)
Lemma of_int_exact n :
  0 < n < 2 ^ 53 ->
  exists m e c,
    Float.of_int n = inr (S754_finite false m e)
    /\ 0 <= c /\ 0 <= e + c /\ Zpos m * 2 ^ (e + c) = n * 2 ^ c.
Proof.
  intros Hn. destruct n as [|np|np]; try lia.
  unfold Float.of_int, binary_normalize, binary_round.
  destruct (Zdigits2_bounds (Zpos np)) as [Hlo Hhi]; [done|].
  assert (Hd : 1 <= Zdigits2 (Zpos np) <= 53).
  { split; [cbn; lia|]. apply Zdigits2_le; lia. }
  change (Zpos (digits2_pos np)) with (Zdigits2 (Zpos np)).
  set (d := Zdigits2 (Zpos np)) in *.
  rewrite fexp_binary64.
  replace (Z.max (d + 0 - 53) (-1074)) with (d - 53) by lia.
  assert (Hal : exists mz,
             shl_align np 0 (d - 53) = (mz, d - 53)
             /\ Zpos mz = Zpos np * 2 ^ (53 - d)).
  { unfold shl_align. destruct (d - 53 - 0) as [|k|k] eqn:Hk; try lia.
    - exists np. replace (d - 53) with 0 by lia.
      replace (53 - d) with 0 by lia. split; [done|]. cbn. lia.
    - exists (Pos.iter xO np k). split; [done|].
      rewrite pos_iter_xO. f_equal. f_equal. lia. }
  destruct Hal as (mz & -> & Hmz).
  assert (H2 : 0 < 2 ^ (53 - d)) by (apply Z.pow_pos_nonneg; lia).
  assert (Hdz : Zdigits2 (Zpos mz) = 53).
  { apply Z.le_antisymm.
    - apply Zdigits2_le; [|lia]. split; [lia|]. rewrite Hmz.
      replace (2 ^ 53) with (2 ^ d * 2 ^ (53 - d)).
      + apply Z.mul_lt_mono_pos_r; lia.
      + rewrite <- Z.pow_add_r by lia. f_equal. lia.
    - apply Zdigits2_ge; [|lia]. rewrite Hmz.
      replace (2 ^ (53 - 1)) with (2 ^ (d - 1) * 2 ^ (53 - d)).
      + apply Z.mul_le_mono_nonneg_r; lia.
      + rewrite <- Z.pow_add_r by lia. f_equal. lia. }
  assert (HE : fexp Float.prec Float.emax (Zdigits2 (Zpos mz) + (d - 53))
               = d - 53).
  { rewrite fexp_binary64, Hdz. lia. }
  destruct (binary_round_aux_nearest (Zpos mz) 1 (Zpos mz) (d - 53) loc_Exact)
    as (m2 & Hm2 & _ & Hup & _ & _ & Hres).
  { done. }
  { done. }
  { split; [by rewrite Z.div_1_r|apply Z.mod_1_r]. }
  { rewrite HE. lia. }
  rewrite HE in *. rewrite Z.sub_diag in *.
  change (1 * 2 ^ 0) with 1 in *. rewrite Z.div_1_r, Z.mod_1_r in *.
  assert (Hm2' : m2 = Zpos mz) by lia.
  destruct (binary_round_aux _ _ _ _ _ _) as [sg|sg| |sg m e];
    try lia.
  destruct Hres as (-> & He & Hval & _).
  exists m, e, (53 - d). split; [done|]. split; [lia|]. split; [lia|].
  replace (e + (53 - d)) with (e - (d - 53)) by lia. lia.
Qed.

(** [int()] of a positive double given with its mantissa in units of
    [2 ^ E]. *)
Lemma to_int_scaled m e E m2 :
  E <= e -> E <= 0 -> m2 = Zpos m * 2 ^ (e - E) ->
  Float.to_int (S754_finite false m e) = inr (m2 / 2 ^ (- E)).
Proof.
  intros He HE ->. unfold Float.to_int, cond_Zopp. f_equal.
  assert (HG : 0 < 2 ^ (- E)) by (apply Z.pow_pos_nonneg; lia).
  destruct e as [|p|p].
  - rewrite Z.sub_0_l. symmetry. apply Z.div_mul; lia.
  - replace (Zpos p - E) with (Zpos p + (- E)) by lia.
    rewrite Z.pow_add_r, Z.mul_assoc by lia. symmetry. apply Z.div_mul; lia.
  - replace (- E) with ((Zneg p - E) + Zpos p) by lia.
    rewrite Z.pow_add_r by lia.
    assert (0 < 2 ^ (Zneg p - E)) by (apply Z.pow_pos_nonneg; lia).
    assert (0 < 2 ^ Zpos p) by (apply Z.pow_pos_nonneg; lia).
    symmetry. rewrite (Z.mul_comm (2 ^ (Zneg p - E))).
    apply Z.div_mul_cancel_r; lia.
Qed.

(** A quotient of at least [2 ^ 52] units of at least 2 is not below
    [2 ^ 53]. *)
Lemma quotient_not_small N D a B p :
  0 < D -> 0 < B -> 2 <= p -> B * 2 ^ 52 <= a ->
  N * B = a * D * p -> N < 2 ^ 53 * D -> False.
Proof.
  intros HD HB Hp Ha Hcross Hlt.
  assert (H1 : B * 2 ^ 52 * 2 <= a * p).
  { apply Z.mul_le_mono_nonneg; lia. }
  assert (H2 : B * 2 ^ 52 * 2 * D <= a * p * D).
  { apply Z.mul_le_mono_nonneg_r; lia. }
  assert (H3 : N * B < 2 ^ 53 * D * B).
  { apply Z.mul_lt_mono_pos_r; lia. }
  replace (a * p * D) with (N * B) in H2 by (rewrite Hcross; ring).
  change (2 ^ 53) with (2 ^ 52 * 2) in H3.
  replace (2 ^ 52 * 2 * D * B) with (B * 2 ^ 52 * 2 * D) in H3 by ring.
  lia.
Qed.

(** [int(n / t)] on integers: [N / D] is the exact quotient of [n] by the
    positive double [t]. *)
Lemma int_truediv_rate_Z n my ey :
  0 <= n < 2 ^ 53 ->
  let N := n * 2 ^ Z.max (- ey) 0 in
  let D := Zpos my * 2 ^ Z.max ey 0 in
  N < 2 ^ 53 * D ->
  exists q r,
    Float.int_truediv n (S754_finite false my ey) = inr q
    /\ Float.to_int q = inr r
    /\ N / D <= r <= N / D + 1
    /\ (r = N / D + 1 -> (r * D - N) * 2 ^ 53 <= N).
Proof.
  intros Hn N D Hv.
  assert (Hdy : 0 < 2 ^ Z.max (- ey) 0) by (apply Z.pow_pos_nonneg; lia).
  assert (Hcy : 0 < 2 ^ Z.max ey 0) by (apply Z.pow_pos_nonneg; lia).
  assert (HD : 0 < D) by (unfold D; nia).
  destruct (Z.eq_dec n 0) as [->|Hnz].
  { exists (S754_zero false), 0. split; [done|]. split; [done|].
    unfold N. rewrite Z.mul_0_l, Z.div_0_l by lia. lia. }
  destruct (of_int_exact n ltac:(lia)) as (m & e & c & Hx & Hc & Hec & Hval).
  unfold Float.int_truediv. rewrite Hx. cbn [Float.is_zero].
  destruct (div_nearest m e my ey)
    as (E & s & k & m2 & HE & Hs & Hk & Hexp & Hm2 & _ & Hup & Hnormal & Hsub
        & Hres).
  set (a := Zpos m * 2 ^ s) in *. set (B := Zpos my * 2 ^ k) in *.
  assert (H2s : 0 < 2 ^ s) by (apply Z.pow_pos_nonneg; lia).
  assert (H2k : 0 < 2 ^ k) by (apply Z.pow_pos_nonneg; lia).
  assert (H2c : 0 < 2 ^ c) by (apply Z.pow_pos_nonneg; lia).
  assert (Ha : 0 <= a) by (unfold a; apply Z.mul_nonneg_nonneg; lia).
  assert (HB : 0 < B) by (unfold B; apply Z.mul_pos_pos; lia).
  (* the exact quotient, in the units of the rounding *)
  assert (Hcross : forall g1 g2,
             0 <= g1 -> 0 <= g2 -> g2 - g1 = E ->
             N * (B * 2 ^ g1) = a * D * 2 ^ g2).
  { intros g1 g2 Hg1 Hg2 Hg.
    apply (Z.mul_reg_r _ _ (2 ^ c)); [lia|].
    assert (P : 2 ^ (e + c) * 2 ^ Z.max (- ey) 0 * 2 ^ k * 2 ^ g1
                = 2 ^ s * 2 ^ Z.max ey 0 * 2 ^ g2 * 2 ^ c).
    { rewrite <- !Z.pow_add_r by lia. f_equal. lia. }
    unfold N, B, a, D.
    replace (n * 2 ^ Z.max (- ey) 0 * (Zpos my * 2 ^ k * 2 ^ g1) * 2 ^ c)
      with (n * 2 ^ c * Zpos my * (2 ^ Z.max (- ey) 0 * 2 ^ k * 2 ^ g1))
      by ring.
    rewrite <- Hval.
    replace (Zpos m * 2 ^ (e + c) * Zpos my
             * (2 ^ Z.max (- ey) 0 * 2 ^ k * 2 ^ g1))
      with (Zpos m * Zpos my
            * (2 ^ (e + c) * 2 ^ Z.max (- ey) 0 * 2 ^ k * 2 ^ g1)) by ring.
    rewrite P. ring. }
  assert (HE0 : E <= 0).
  { destruct (Z.le_gt_cases E 0) as [|Hpos]; [done|]. exfalso.
    specialize (Hnormal ltac:(lia)).
    pose proof (Hcross 0 E ltac:(lia) ltac:(lia) ltac:(lia)) as Hc0.
    change (2 ^ 0) with 1 in Hc0. rewrite Z.mul_1_r in Hc0.
    pose proof (Z.mul_div_le a B HB) as Hdiv.
    assert (H2E : 2 <= 2 ^ E).
    { change 2 with (2 ^ 1) at 1. apply Z.pow_le_mono_r; lia. }
    assert (Hlow : B * 2 ^ 52 <= a).
    { etransitivity; [|exact Hdiv]. apply Z.mul_le_mono_nonneg_l; lia. }
    exact (quotient_not_small N D a B (2 ^ E) HD HB H2E Hlow Hc0 Hv). }
  set (G := 2 ^ (- E)).
  assert (HG : 0 < G) by (apply Z.pow_pos_nonneg; lia).
  pose proof (Hcross (- E) 0 ltac:(lia) ltac:(lia) ltac:(lia)) as Hc1.
  change (2 ^ 0) with 1 in Hc1. rewrite Z.mul_1_r in Hc1. fold G in Hc1.
  assert (Hsize : 2 ^ 52 <= a / B \/ m2 < G).
  { destruct (Z.eq_dec E (-1074)) as [HEq|Hne]; [right|left; apply Hnormal; lia].
    specialize (Hsub HEq).
    assert (2 ^ 53 < G); [|lia].
    unfold G. rewrite HEq. apply Z.pow_lt_mono_r; lia. }
  destruct (rate_from_rounding N D a B G m2 HD HB HG Ha Hc1 Hm2 Hup Hsize)
    as [Hr1 Hr2].
  exists (Float.div (S754_finite false m e) (S754_finite false my ey)),
    (m2 / G).
  split; [done|]. split; [|done].
  destruct (Float.div _ _) as [sg|sg| |sg m' e']; try lia.
  - destruct Hres as [-> ->]. by rewrite Z.div_0_l by lia.
  - destruct Hres as (-> & He' & Hm' & _). by apply to_int_scaled.
Qed.

Lemma inject_Z_nonzero z : z <> 0 -> ~ (inject_Z z == 0)%Q.
Proof. unfold Qeq. cbn. lia. Qed.

(** A multiple of a power of two as a fraction of integers. *)
Lemma scaled_fraction u e :
  (inject_Z u * (2 # 1) ^ e
   == inject_Z (u * 2 ^ Z.max e 0) / inject_Z (2 ^ Z.max (- e) 0))%Q.
Proof.
  assert (Hd : 0 < 2 ^ Z.max (- e) 0) by (apply Z.pow_pos_nonneg; lia).
  rewrite inject_Z_mult, !Zpower_Qpower by lia.
  change (inject_Z 2) with (2 # 1)%Q.
  replace e with (Z.max e 0 - Z.max (- e) 0) at 1 by lia.
  rewrite Qpower_minus by done.
  field. apply Qpower_not_0. done.
Qed.

Lemma quotient_fraction n my ey :
  (inject_Z n / Float.to_Q (S754_finite false my ey)
   == inject_Z (n * 2 ^ Z.max (- ey) 0)
      / inject_Z (Zpos my * 2 ^ Z.max ey 0))%Q.
Proof.
  assert (Hd : 0 < 2 ^ Z.max (- ey) 0) by (apply Z.pow_pos_nonneg; lia).
  assert (Hc : 0 < 2 ^ Z.max ey 0) by (apply Z.pow_pos_nonneg; lia).
  unfold Float.to_Q, cond_Zopp. rewrite scaled_fraction.
  rewrite (inject_Z_mult n).
  field. split; apply inject_Z_nonzero; nia.
Qed.

(** The rate [int(n / t)] for a frame count below [2 ^ 53] and a positive
    double [t], against the exact quotient. *)
Lemma int_truediv_rate n t :
  0 <= n < 2 ^ 53 ->
  Float.is_positive t = true ->
  (inject_Z n / Float.to_Q t < inject_Z (2 ^ 53))%Q ->
  exists q r,
    Float.int_truediv n t = inr q
    /\ Float.to_int q = inr r
    /\ Qfloor (inject_Z n / Float.to_Q t) <= r
       <= Qfloor (inject_Z n / Float.to_Q t) + 1
    /\ (r = Qfloor (inject_Z n / Float.to_Q t) + 1 ->
        ((inject_Z r - inject_Z n / Float.to_Q t) * inject_Z (2 ^ 53)
         <= inject_Z n / Float.to_Q t)%Q).
Proof.
  intros Hn Ht. destruct t as [| | |[] my ey]; try discriminate.
  set (N := n * 2 ^ Z.max (- ey) 0). set (D := Zpos my * 2 ^ Z.max ey 0).
  assert (Hc : 0 < 2 ^ Z.max ey 0) by (apply Z.pow_pos_nonneg; lia).
  assert (HD : 0 < D) by (unfold D; nia).
  destruct D as [|Dp|Dp] eqn:HDp; try lia.
  assert (Hv : (inject_Z n / Float.to_Q (S754_finite false my ey)
                == N # Dp)%Q).
  { rewrite quotient_fraction. fold N. fold D. rewrite HDp.
    symmetry. apply Qmake_Qdiv. }
  rewrite (Qfloor_comp _ _ Hv). rewrite !Hv.
  change (Qfloor (N # Dp)) with (N / Zpos Dp).
  intros Hlt.
  assert (HltZ : N < 2 ^ 53 * Zpos Dp).
  { revert Hlt. unfold Qlt. cbn [Qnum Qden inject_Z]. lia. }
  destruct (int_truediv_rate_Z n my ey Hn) as (q & r & Hq & Hr & Hfl & Hup).
  { fold N. fold D. by rewrite HDp. }
  fold N in Hfl, Hup. fold D in Hfl, Hup. rewrite HDp in Hfl, Hup.
  exists q, r. do 3 (split; [done|]).
  intros Hr1. specialize (Hup Hr1). rewrite !Hv.
  unfold Qle, Qminus, Qplus, Qopp, Qmult. cbn [Qnum Qden inject_Z].
  rewrite ?Pos2Z.inj_mul. nia.
Qed.

(** Symbolic execution of the monad: unfold its operations and read the
    fields of the worlds built on the way. *)
Ltac mred :=
  repeat (progress
    (cbv beta iota zeta delta
       [bind ret print emit get_fs put_fs lift raise sys_exit unmodelled];
     cbn [fs trace])).

Section Properties.

Context `{External}.

(** ** Asset validation *)

Lemma add_trace_add_trace w l1 l2 :
  add_trace (add_trace w l1) l2 = add_trace w (l1 ++ l2).
Proof. unfold add_trace. cbn [fs trace]. by rewrite app_assoc. Qed.

Lemma add_trace_nil w : add_trace w [] = w.
Proof. destruct w. unfold add_trace. cbn. by rewrite app_nil_r. Qed.

Lemma check_file_exists_eq path w :
  check_file_exists path w
  = if path_isfile (fs w) path
    then Ok tt (add_trace w [Print ("File '" +:+ path +:+ "' available")])
    else SysExit (-1)
           (add_trace w [Print ("The file '" +:+ path
                                +:+ "' doesn't exists or is not a valid file")]).
Proof.
  unfold check_file_exists, path_exists, path_isfile. mred.
  destruct (fs w !! path) as [[|c]|]; reflexivity.
Qed.

Lemma check_files_spec files :
  forall w, exists l,
    forallb is_print l = true /\
    check_files files w
    = if forallb (path_isfile (fs w)) files
      then Ok tt (add_trace w l) else SysExit (-1) (add_trace w l).
Proof.
  induction files as [|p files IH]; intros w.
  - exists []. rewrite add_trace_nil. done.
  - cbn [check_files forallb]. unfold bind at 1.
    rewrite check_file_exists_eq.
    destruct (path_isfile (fs w) p); cbn [andb].
    + destruct (IH (add_trace w [Print ("File '" +:+ p +:+ "' available")]))
        as (l & Hl & ->).
      cbn [fs add_trace]. eexists. rewrite !add_trace_add_trace.
      split; [|reflexivity]. done.
    + eexists. split; [|reflexivity]. done.
Qed.

Lemma mapM_id_7 (o1 o2 o3 o4 o5 o6 o7 : option value) l :
  mapM id [o1; o2; o3; o4; o5; o6; o7] = Some l ->
  exists v1 v2 v3 v4 v5 v6 v7,
    o1 = Some v1 /\ o2 = Some v2 /\ o3 = Some v3 /\ o4 = Some v4 /\
    o5 = Some v5 /\ o6 = Some v6 /\ o7 = Some v7 /\
    l = [v1; v2; v3; v4; v5; v6; v7].
Proof.
  destruct o1, o2, o3, o4, o5, o6, o7; cbn; intros [= <-]. naive_solver.
Qed.

Lemma lookup_in_Some v k x :
  lookup_in v k = Some x -> exists d, v = Some (VDict d) /\ d !! k = Some x.
Proof. destruct v as [[]|]; cbn; try done. eauto. Qed.

(** With every asset named, validation is the directory test followed by
    the seven file tests. *)
Lemma check_input_assets_eq configuration src files w :
  asset_paths configuration = Some (src, files) ->
  check_input_assets configuration w
  = if path_isdir (fs w) src then check_files files w
    else SysExit (-1)
           (add_trace w [Print ("Invalid assets directory '" +:+ src +:+ "'")]).
Proof.
  unfold asset_paths.
  destruct (configuration !! "source") as [[]|] eqn:Hsrc; try done.
  destruct (mapM id _) as [l|] eqn:Hl; [|done].
  cbn. intros [= -> <-].
  apply mapM_id_7 in Hl as (v1&v2&v3&v4&v5&v6&v7&H1&H2&H3&H4&H5&H6&H7&->).
  apply lookup_in_Some in H2 as (dlg & Hdlg & H2).
  apply lookup_in_Some in H3 as (? & E & H3). rewrite Hdlg in E.
  injection E as <-.
  apply lookup_in_Some in H4 as (? & E & H4). rewrite Hdlg in E.
  injection E as <-.
  apply lookup_in_Some in H5 as (? & E & H5). rewrite Hdlg in E.
  injection E as <-.
  apply lookup_in_Some in H6 as (prg & Hprg & H6).
  apply lookup_in_Some in H7 as (? & E & H7). rewrite Hprg in E.
  injection E as <-.
  unfold check_input_assets, getitem, subscript, as_path, getitem.
  unfold path_isdir, path_exists, path_isfile. mred. rewrite Hsrc. mred.
  destruct (fs w !! src) as [[|c]|] eqn:Hdir; cbn [negb orb]; try reflexivity.
  rewrite H1. mred. cbn [check_files map]. mred.
  repeat
    (rewrite ?Hdlg, ?Hprg, ?H2, ?H3, ?H4, ?H5, ?H6, ?H7; mred;
     rewrite ?check_file_exists_eq; cbn [add_trace fs trace];
     try match goal with
         | |- context [path_isfile (fs w) ?p] =>
             destruct (path_isfile (fs w) p)
         end;
     try reflexivity).
Qed.

Lemma check_input_assets_spec configuration a w :
  asset_paths configuration = Some a ->
  exists l,
    forallb is_print l = true /\
    check_input_assets configuration w
    = if assets_present (fs w) a
      then Ok tt (add_trace w l) else SysExit (-1) (add_trace w l).
Proof.
  destruct a as [src files]. intros Ha.
  rewrite (check_input_assets_eq _ _ _ _ Ha). unfold assets_present.
  cbn [fst snd]. destruct (path_isdir (fs w) src); cbn [andb].
  - apply check_files_spec.
  - eexists. split; [|reflexivity]. done.
Qed.

(** *** Computations that only print *)

Lemma quiet_ret {A} (a : A) : quiet (ret a).
Proof. intros w. exists []. by rewrite add_trace_nil. Qed.

Lemma quiet_raise {A} e : quiet (@raise A e).
Proof. intros w. exists []. by rewrite add_trace_nil. Qed.

Lemma quiet_sys_exit {A} : quiet (@sys_exit A (-1)).
Proof.
  intros w. exists []. rewrite add_trace_nil. repeat split.
  by intros c w' [= <- _].
Qed.

Lemma quiet_get_fs : quiet get_fs.
Proof. intros w. exists []. by rewrite add_trace_nil. Qed.

Lemma quiet_print line : quiet (print line).
Proof. intros w. by exists [Print line]. Qed.

Lemma quiet_bind {A B} (m : M A) (k : A -> M B) :
  quiet m -> (forall a, quiet (k a)) -> quiet (bind m k).
Proof.
  intros Hm Hk w. destruct (Hm w) as (l1 & Hl1 & Hw & Hc). unfold bind.
  destruct (m w) as [a w1|c w1|e w1|]; cbn in Hw; try done;
    injection Hw as ->; cbn [final_world].
  - destruct (Hk a (add_trace w l1)) as (l2 & Hl2 & -> & Hc2).
    exists (l1 ++ l2). rewrite add_trace_add_trace, forallb_app, Hl1, Hl2.
    done.
  - exists l1. repeat split; try done. intros c' w' [= <- _]. eauto.
  - exists l1. done.
Qed.

Lemma quiet_getitem d k : quiet (getitem d k).
Proof.
  unfold getitem. destruct (d !! k); [apply quiet_ret|apply quiet_raise].
Qed.

Lemma quiet_subscript v k : quiet (subscript v k).
Proof.
  destruct v; cbn [subscript]; try apply quiet_raise. apply quiet_getitem.
Qed.

Lemma quiet_check_file_exists path : quiet (check_file_exists path).
Proof.
  intros w. rewrite check_file_exists_eq.
  destruct (path_isfile (fs w) path); eexists;
    (split; [|split; [reflexivity|]]); try done.
  by intros c w' [= <- _].
Qed.

Ltac quiet_steps :=
  repeat first
    [ apply quiet_bind; [|intros ?]
    | apply quiet_getitem | apply quiet_subscript
    | apply quiet_check_file_exists | apply quiet_print
    | apply quiet_sys_exit | apply quiet_get_fs | apply quiet_ret
    | apply quiet_raise
    | match goal with |- quiet (if ?b then _ else _) => destruct b end ].

(** Validation never touches the file system: once the source is a string
    it ends after printing, and only printing. *)
Lemma quiet_check_input_assets configuration src :
  configuration !! "source" = Some (VStr src) ->
  quiet (check_input_assets configuration).
Proof.
  intros Hsrc w.
  assert (E : exists m : M unit,
             quiet m /\ check_input_assets configuration w = m w).
  { unfold check_input_assets. unfold bind at 1. unfold getitem at 1.
    rewrite Hsrc. unfold ret at 1. unfold bind at 1. cbn [as_path].
    unfold ret at 1. eexists. split; [|reflexivity]. quiet_steps. }
  destruct E as (m & Hq & ->). apply Hq.
Qed.

(** When validation does not return, the run ends where validation ends. *)
Lemma build_theme_validation_stops configuration w :
  (forall w1, check_input_assets configuration w <> Ok tt w1) ->
  build_theme configuration w = check_input_assets configuration w.
Proof.
  intros Hno. unfold build_theme. unfold bind at 1.
  destruct (check_input_assets configuration w) as [[] w1| | |]; try done.
  by destruct (Hno w1).
Qed.

(** C2. When the configuration names every asset and one of them is
    missing (the source is not a directory, or one of the seven files is
    not a regular file), the run ends with a non-zero exit status, the file
    system is the one it started in (no build directory, no descriptor, no
    script, no frame), and the only effects are printed lines. *)
Theorem missing_asset_no_output :
  forall (configuration : dict) (a : string * list string) (w : world),
    asset_paths configuration = Some a ->
    assets_present (fs w) a = false ->
    exists w' l,
      build_theme configuration w = SysExit (-1) w'
      /\ (exists c, exit_status (build_theme configuration w) = Some c
                    /\ c <> 0)
      /\ fs w' = fs w
      /\ trace w' = trace w ++ l
      /\ forallb is_print l = true.
Proof.
  intros configuration a w Ha Hmissing.
  destruct (check_input_assets_spec configuration a w Ha) as (l & Hl & Hc).
  rewrite Hmissing in Hc.
  assert (Hb : build_theme configuration w = SysExit (-1) (add_trace w l)).
  { rewrite build_theme_validation_stops; [done|]. intros w1. by rewrite Hc. }
  exists (add_trace w l), l. rewrite Hb. cbn [exit_status].
  repeat split; try done. by exists 255.
Qed.

(** The part of [main] after the options are read. *)
Lemma main_eq argv0 args opts rest custom path w :
  getopt "c:" args = Some (opts, rest) ->
  scan_options opts = (custom, path) ->
  main argv0 args w
  = (configuration <- load_configuration custom path ;;
     build_theme configuration) w.
Proof. intros Hg Hs. unfold main. by rewrite Hg, Hs. Qed.

(** C9. A missing asset ends the process through [sys.exit(-1)]: this is
    what [check_file_exists] does on a path that is not a regular file, what
    [check_input_assets] does when the source is not a directory or one of
    the seven files is missing, and hence how [build_theme] and [main]
    end. *)
Theorem missing_asset_exit_code :
  forall (configuration : dict) (a : string * list string) (w : world),
    asset_paths configuration = Some a ->
    assets_present (fs w) a = false ->
    (forall path, path_isfile (fs w) path = false ->
       exists w', check_file_exists path w = SysExit (-1) w')
    /\ exists w',
         check_input_assets configuration w = SysExit (-1) w'
         /\ build_theme configuration w = SysExit (-1) w'
         /\ forall argv0 args opts rest custom path w0,
              getopt "c:" args = Some (opts, rest) ->
              scan_options opts = (custom, path) ->
              load_configuration custom path w0 = Ok configuration w ->
              main argv0 args w0 = SysExit (-1) w'.
Proof.
  intros configuration a w Ha Hmissing. split.
  { intros path Hp. rewrite check_file_exists_eq, Hp. eauto. }
  destruct (check_input_assets_spec configuration a w Ha) as (l & Hl & Hc).
  rewrite Hmissing in Hc.
  assert (Hb : build_theme configuration w = SysExit (-1) (add_trace w l)).
  { rewrite build_theme_validation_stops; [done|]. intros w1. by rewrite Hc. }
  exists (add_trace w l). repeat split; try done.
  intros argv0 args opts rest custom path w0 Hg Hs Hload.
  rewrite (main_eq _ _ _ _ _ _ _ Hg Hs). unfold bind. by rewrite Hload.
Qed.

(** ** The build directory *)

Lemma prepare_build_directory_file p w :
  path_isfile (fs w) p = true ->
  prepare_build_directory (VStr p) w
  = SysExit (-1)
      (add_trace w [Print ("The specified build path '" +:+ p
                           +:+ "' is a file")]).
Proof.
  intros Hp. unfold prepare_build_directory, as_path. mred.
  rewrite Hp. unfold path_isfile, path_exists in *.
  destruct (fs w !! p); [reflexivity|discriminate].
Qed.

(** With the build path a regular file: how the run ends, and where it
    ends when validation has passed. *)
Lemma build_path_conflict_aux configuration src b w :
  configuration !! "source" = Some (VStr src) ->
  configuration !! "build" = Some (VStr b) ->
  path_isfile (fs w) b = true ->
  (exists l c,
     forallb is_print l = true
     /\ final_world (build_theme configuration w) = Some (add_trace w l)
     /\ exit_status (build_theme configuration w) = Some c
     /\ c <> 0)
  /\ (forall w1, check_input_assets configuration w = Ok tt w1 ->
        build_theme configuration w
        = SysExit (-1)
            (add_trace w1 [Print ("The specified build path '" +:+ b
                                  +:+ "' is a file")])).
Proof.
  intros Hsrc Hbuild Hfile.
  destruct (quiet_check_input_assets configuration src Hsrc w)
    as (l & Hl & Hw & Hc).
  destruct (check_input_assets configuration w) as [[] w1|c w1|e w1|] eqn:Hv;
    cbn in Hw; try done; injection Hw as ->.
  - assert (Hb : build_theme configuration w
                 = SysExit (-1)
                     (add_trace (add_trace w l)
                        [Print ("The specified build path '" +:+ b
                                +:+ "' is a file")])).
    { unfold build_theme. unfold bind at 1. rewrite Hv.
      unfold bind at 1. unfold getitem at 1. rewrite Hbuild. unfold ret at 1.
      unfold bind at 1. by rewrite prepare_build_directory_file. }
    rewrite Hb. split.
    + rewrite add_trace_add_trace. eexists _, 255.
      cbn [final_world exit_status]. repeat split; try done.
      by rewrite forallb_app, Hl.
    + by intros w1 [= <-].
  - rewrite build_theme_validation_stops by (intros w1; by rewrite Hv).
    rewrite Hv. split; [|done]. exists l, 255.
    cbn [final_world exit_status]. by rewrite (Hc c _ eq_refl).
  - rewrite build_theme_validation_stops by (intros w1; by rewrite Hv).
    rewrite Hv. split; [|done]. by exists l, 1.
Qed.

(** C4, as the code has it. When the build path is a regular file, the run
    fails with a non-zero exit status without creating a directory or
    writing a file: its only effects are printed lines. Validation comes
    first, though: when it passes, its lines are printed and the run then
    ends through [sys.exit(-1)] with the build path message. *)
Theorem build_path_conflict :
  forall (configuration : dict) (src b : string) (w : world),
    configuration !! "source" = Some (VStr src) ->
    configuration !! "build" = Some (VStr b) ->
    path_isfile (fs w) b = true ->
    exists w' l,
      final_world (build_theme configuration w) = Some w'
      /\ fs w' = fs w
      /\ trace w' = trace w ++ l
      /\ forallb is_print l = true
      /\ (exists c, exit_status (build_theme configuration w) = Some c
                    /\ c <> 0)
      /\ (forall w1, check_input_assets configuration w = Ok tt w1 ->
            build_theme configuration w
            = SysExit (-1)
                (add_trace w1 [Print ("The specified build path '" +:+ b
                                      +:+ "' is a file")])).
Proof.
  intros configuration src b w Hsrc Hbuild Hfile.
  destruct (build_path_conflict_aux configuration src b w Hsrc Hbuild Hfile)
    as ((l & c & Hl & Hw & Hc & Hnz) & Hok).
  exists (add_trace w l), l. repeat split; try done. by exists c.
Qed.

(** ** Options and configuration *)

Lemma scan_options_step (opts : list opt_pair) (st : bool * string) :
  fst st = true ->
  fst (fold_left
         (fun st oa =>
            if String.eqb (fst oa) "-c" then (true, snd oa) else st)
         opts st) = true.
Proof.
  revert st. induction opts as [|oa opts IH]; intros st Hst; [done|].
  cbn [fold_left]. apply IH. by destruct (String.eqb _ _).
Qed.

(** Without a [-c] the path stays the default one. *)
Lemma scan_options_default opts path :
  scan_options opts = (false, path) -> path = "config.json".
Proof.
  unfold scan_options.
  assert (G : forall st,
    fold_left
      (fun st oa => if String.eqb (fst oa) "-c" then (true, snd oa) else st)
      opts st = st
    \/ fst (fold_left
             (fun st oa =>
                if String.eqb (fst oa) "-c" then (true, snd oa) else st)
             opts st) = true).
  { induction opts as [|oa opts IH]; intros st; [by left|].
    cbn [fold_left]. destruct (String.eqb (fst oa) "-c") eqn:E.
    - right. by apply scan_options_step.
    - apply IH. }
  intros Hs. destruct (G (false, "config.json")) as [E|E]; rewrite Hs in E.
  - by injection E.
  - done.
Qed.

(** A word [-x...] whose first letter is neither [c] nor [-] is refused. *)
Lemma getopt_unrecognized (x : ascii) (s : string) (rest : list string) :
  x <> "c"%char -> x <> "-"%char ->
  getopt "c:" (String "-" (String x s) :: rest) = None.
Proof.
  intros Hc Hd. cbn [getopt].
  destruct (Ascii.eqb x "-") eqn:E1; [by apply Ascii.eqb_eq in E1|].
  cbn [do_shorts short_has_arg].
  destruct (Ascii.eqb x "c") eqn:E2; [by apply Ascii.eqb_eq in E2|].
  cbn. destruct (Ascii.eqb x ":"); reflexivity.
Qed.

Lemma check_input_assets_Ok_source configuration w w1 :
  check_input_assets configuration w = Ok tt w1 ->
  exists src, configuration !! "source" = Some (VStr src).
Proof.
  unfold check_input_assets. unfold bind at 1. unfold getitem at 1.
  destruct (configuration !! "source") as [v|]; [|done].
  unfold ret at 1. unfold bind at 1.
  destruct v; cbn [as_path]; try done. eauto.
Qed.

(** C8. The exit codes: -1 from [prepare_build_directory] when the build
    path is a regular file, which is how the run ends once validation has
    passed; 1 when [getopt] refuses the command line, as it does for a flag
    other than [-c]; 2 when opening the file named by [-c] raises
    [FileNotFoundError]; and without [-c], a missing [config.json] only
    prints a line and the run goes on with the built-in configuration. *)
Theorem exit_code_mapping :
  (forall p w,
     path_isfile (fs w) p = true ->
     prepare_build_directory (VStr p) w
     = SysExit (-1)
         (add_trace w [Print ("The specified build path '" +:+ p
                              +:+ "' is a file")]))
  /\ (forall configuration b w w1,
        configuration !! "build" = Some (VStr b) ->
        path_isfile (fs w) b = true ->
        check_input_assets configuration w = Ok tt w1 ->
        build_theme configuration w
        = SysExit (-1)
            (add_trace w1 [Print ("The specified build path '" +:+ b
                                  +:+ "' is a file")]))
  /\ (forall argv0 args w,
        getopt "c:" args = None ->
        main argv0 args w
        = SysExit 1 (add_trace w [Print (argv0 +:+ " -c [path_to_configfile]")]))
  /\ (forall (x : ascii) s rest,
        x <> "c"%char -> x <> "-"%char ->
        getopt "c:" (String "-" (String x s) :: rest) = None)
  /\ (forall argv0 args opts rest path w,
        getopt "c:" args = Some (opts, rest) ->
        scan_options opts = (true, path) ->
        fs_read (fs w) path = inl FileNotFoundError ->
        main argv0 args w
        = SysExit 2
            (add_trace w [Print ("The provided configuration file '" +:+ path
                                 +:+ "' doesn't exist.")]))
  /\ (forall argv0 args opts rest path w,
        getopt "c:" args = Some (opts, rest) ->
        scan_options opts = (false, path) ->
        fs w !! "config.json" = None ->
        main argv0 args w
        = build_theme default_configuration
            (add_trace w
               [Print ("Default configuration file 'config.json' doesn't exist. "
                       +:+ "Continue with default built-in configuration")])).
Proof.
  split; [exact prepare_build_directory_file|].
  split.
  { intros configuration b w w1 Hbuild Hfile Hv.
    destruct (check_input_assets_Ok_source _ _ _ Hv) as (src & Hsrc).
    destruct (build_path_conflict_aux configuration src b w Hsrc Hbuild Hfile)
      as (_ & Hok). by apply Hok. }
  split.
  { intros argv0 args w Hg. unfold main. rewrite Hg. reflexivity. }
  split; [exact getopt_unrecognized|].
  split.
  { intros argv0 args opts rest path w Hg Hs Hnone.
    rewrite (main_eq _ _ _ _ _ _ _ Hg Hs). unfold load_configuration. mred.
    rewrite Hnone. reflexivity. }
  intros argv0 args opts rest path w Hg Hs Hnone.
  rewrite (main_eq _ _ _ _ _ _ _ Hg Hs).
  apply scan_options_default in Hs as ->.
  unfold load_configuration, fs_read. mred. rewrite Hnone. reflexivity.
Qed.

Lemma load_configuration_dict custom path (user : dict) w :
  fs w !! path = Some (File (Json (VDict user))) ->
  load_configuration custom path w = Ok (user ∪ default_configuration) w.
Proof.
  intros Hfile. unfold load_configuration, fs_read. mred. rewrite Hfile.
  reflexivity.
Qed.

(** C10. The merge is [dict.update] on the top level only. Whatever value
    the user file gives a key, [dialog] and [progression] included, becomes
    the configuration's value for that key as a whole: nested look-ups see
    the user's object and nothing of the built-in one, so a nested key the
    user left out raises [KeyError] instead of falling back on its
    default; keys the user file does not mention keep the built-in value. *)
Theorem shallow_merge :
  forall (custom : bool) (path : string) (user : dict) (w : world)
         (section : string) (v : value),
    fs w !! path = Some (File (Json (VDict user))) ->
    user !! section = Some v ->
    exists configuration,
      load_configuration custom path w = Ok configuration w
      /\ configuration = user ∪ default_configuration
      /\ configuration !! section = Some v
      /\ (forall k, lookup_in (configuration !! section) k
                    = lookup_in (Some v) k)
      /\ (forall d k w1,
            v = VDict d -> d !! k = None ->
            (x <- getitem configuration section ;; subscript x k) w1
            = Uncaught (KeyError k) w1)
      /\ (forall k, user !! k = None ->
                    configuration !! k = default_configuration !! k).
Proof.
  intros custom path user w section v Hfile Hsec.
  exists (user ∪ default_configuration).
  assert (Hl : (user ∪ default_configuration) !! section = Some v)
    by by apply lookup_union_Some_l.
  split; [by apply load_configuration_dict|].
  split; [done|]. split; [done|].
  split; [intros k; by rewrite Hl|].
  split.
  - intros d k w1 -> Hk. unfold getitem, subscript, getitem. mred.
    rewrite Hl. mred. rewrite Hk. reflexivity.
  - intros k Hk. by apply lookup_union_r.
Qed.

(** ** The theme descriptor *)

Lemma write_plymouth_file_Ok configuration w name description td build :
  configuration !! "name" = Some name ->
  configuration !! "description" = Some description ->
  configuration !! "theme_directory" = Some td ->
  configuration !! "build" = Some build ->
  let p := py_str build +:+ "/" +:+ py_str name +:+ ".plymouth" in
  check_writable (fs w) p = inr tt ->
  write_plymouth_file configuration w
  = Ok tt
      {| fs := <[p := File (Text (plymouth_file_text name description td))]>
                 (fs w);
         trace := trace w
                  ++ [OpenFile p;
                      WriteFile p (plymouth_file_text name description td);
                      Print ("Plymouth theme file '" +:+ p
                             +:+ "' created/updated")] |}.
Proof.
  intros Hn Hd Ht Hb p Hw.
  unfold write_plymouth_file, open_w, write_close, getitem, fs_write. mred.
  rewrite Hn. mred. rewrite Ht. mred. rewrite Hb. mred. fold p.
  rewrite Hw. mred. rewrite Hd. mred. rewrite insert_insert_eq.
  rewrite <- !app_assoc. reflexivity.
Qed.

(** C6. [write_plymouth_file] puts at <build>/<name>.plymouth exactly the
    two sections: [Plymouth Theme] with Name, Description and
    ModuleName=script, then [script] with ImageDir and ScriptFile below the
    theme directory. With a user file that only holds the name foo, the
    configuration is the built-in one with that name, and the descriptor
    reads Name=foo with the built-in description and theme directory. *)
Theorem descriptor_contents :
  (forall configuration w name description td build,
     configuration !! "name" = Some name ->
     configuration !! "description" = Some description ->
     configuration !! "theme_directory" = Some td ->
     configuration !! "build" = Some build ->
     let p := py_str build +:+ "/" +:+ py_str name +:+ ".plymouth" in
     check_writable (fs w) p = inr tt ->
     exists w',
       write_plymouth_file configuration w = Ok tt w'
       /\ fs w' !! p
          = Some (File (Text
              ("[Plymouth Theme]" +:+ nl
               +:+ "Name=" +:+ py_str name +:+ nl
               +:+ "Description=" +:+ py_str description +:+ nl
               +:+ "ModuleName=script" +:+ nl +:+ nl
               +:+ "[script]" +:+ nl
               +:+ "ImageDir=" +:+ py_str td +:+ "/" +:+ py_str name +:+ nl
               +:+ "ScriptFile=" +:+ py_str td +:+ "/" +:+ py_str name
               +:+ "/" +:+ py_str name +:+ ".script" +:+ nl))))
  /\ (forall custom path w,
        fs w !! path = Some (File (Json (VDict {[ "name" := VStr "foo" ]}))) ->
        let configuration := <[ "name" := VStr "foo" ]> default_configuration in
        load_configuration custom path w = Ok configuration w
        /\ (forall k, k <> "name" ->
                      configuration !! k = default_configuration !! k)
        /\ (check_writable (fs w) "./build/foo.plymouth" = inr tt ->
            exists w',
              write_plymouth_file configuration w = Ok tt w'
              /\ fs w' !! "./build/foo.plymouth"
                 = Some (File (Text
                     ("[Plymouth Theme]" +:+ nl
                      +:+ "Name=foo" +:+ nl
                      +:+ "Description=A custom theme for Plymouth" +:+ nl
                      +:+ "ModuleName=script" +:+ nl +:+ nl
                      +:+ "[script]" +:+ nl
                      +:+ "ImageDir=/usr/share/plymouth/themes/foo" +:+ nl
                      +:+ "ScriptFile=/usr/share/plymouth/themes/foo/foo.script"
                      +:+ nl))))).
Proof.
  split.
  - intros configuration w name description td build Hn Hd Ht Hb p Hw.
    eexists. split.
    + by apply (write_plymouth_file_Ok configuration w name description td
                  build).
    + cbn [fs]. fold p. by rewrite lookup_insert_eq.
  - intros custom path w Hfile configuration. split; [|split].
    + rewrite (load_configuration_dict _ _ _ _ Hfile).
      unfold configuration. by rewrite insert_union_singleton_l.
    + intros k Hk. unfold configuration. by rewrite lookup_insert_ne.
    + intros Hw. eexists. split.
      * apply (write_plymouth_file_Ok configuration w (VStr "foo")
                 (VStr "A custom theme for Plymouth")
                 (VStr "/usr/share/plymouth/themes") (VStr "./build"));
          try reflexivity. exact Hw.
      * cbn [fs py_str]. 
        change ("./build" +:+ "/" +:+ "foo" +:+ ".plymouth")
          with "./build/foo.plymouth".
        rewrite lookup_insert_eq. reflexivity.
Qed.

(** ** The order of effects *)

Lemma in_phases_nil phases : in_phases phases [].
Proof.
  induction phases as [|P phases IH]; [done|]. by exists [], [].
Qed.

Lemma in_phases_app P phases l1 l2 :
  forallb P l1 = true -> in_phases (P :: phases) l2 ->
  in_phases (P :: phases) (l1 ++ l2).
Proof.
  intros H1 (a & b & -> & Ha & Hb). exists (l1 ++ a), b.
  rewrite app_assoc, forallb_app, H1, Ha. done.
Qed.

Lemma in_phases_skip P phases l :
  in_phases phases l -> in_phases (P :: phases) l.
Proof. intros Hl. by exists [], l. Qed.

Lemma in_phases_one P l : in_phases [P] l <-> forallb P l = true.
Proof.
  split.
  - intros (a & b & -> & Ha & ->). by rewrite app_nil_r.
  - intros Hl. exists l, []. by rewrite app_nil_r.
Qed.

Lemma emits_silent {A} phases (m : M A) :
  (forall w w', final_world (m w) = Some w' -> trace w' = trace w) ->
  emits phases m.
Proof.
  intros Hm w w' Hw. exists []. rewrite app_nil_r.
  split; [by apply Hm|apply in_phases_nil].
Qed.

Lemma emits_ret {A} phases (a : A) : emits phases (ret a).
Proof. apply emits_silent. by intros w w' [= <-]. Qed.

Lemma emits_raise {A} phases e : emits phases (@raise A e).
Proof. apply emits_silent. by intros w w' [= <-]. Qed.

Lemma emits_sys_exit {A} phases c : emits phases (@sys_exit A c).
Proof. apply emits_silent. by intros w w' [= <-]. Qed.

Lemma emits_unmodelled {A} phases : emits phases (@unmodelled A).
Proof. apply emits_silent. done. Qed.

Lemma emits_lift {A} phases (r : exn + A) : emits phases (lift r).
Proof. destruct r; [apply emits_raise|apply emits_ret]. Qed.

Lemma emits_get_fs phases : emits phases get_fs.
Proof. apply emits_silent. by intros w w' [= <-]. Qed.

Lemma emits_put_fs phases f : emits phases (put_fs f).
Proof. apply emits_silent. by intros w w' [= <-]. Qed.

Lemma emits_emit P phases e : P e = true -> emits (P :: phases) (emit e).
Proof.
  intros He w w' [= <-]. exists [e]. split; [done|].
  exists [e], []. cbn. rewrite He. split; [done|]. split; [done|].
  apply in_phases_nil.
Qed.

Lemma emits_skip {A} P phases (m : M A) :
  emits phases m -> emits (P :: phases) m.
Proof.
  intros Hm w w' Hw. destruct (Hm w w' Hw) as (new & Ht & Hp).
  exists new. split; [done|]. by apply in_phases_skip.
Qed.

Lemma emits_mono {A} (P Q : event -> bool) (m : M A) :
  (forall e, P e = true -> Q e = true) -> emits [P] m -> emits [Q] m.
Proof.
  intros HPQ Hm w w' Hw. destruct (Hm w w' Hw) as (new & Ht & Hp).
  exists new. split; [done|]. apply in_phases_one. apply in_phases_one in Hp.
  rewrite forallb_forall in *. eauto.
Qed.

(** Sequencing: the first computation stays in the current phase, the rest
    may move on. *)
Lemma emits_bind {A B} P phases (m : M A) (k : A -> M B) :
  emits [P] m -> (forall a, emits (P :: phases) (k a)) ->
  emits (P :: phases) (bind m k).
Proof.
  intros Hm Hk w w'. unfold bind.
  destruct (m w) as [a w1|c w1|e w1|] eqn:Hmw; cbn [final_world].
  - intros Hw. destruct (Hm w w1) as (n1 & Ht1 & Hp1); [by rewrite Hmw|].
    destruct (Hk a w1 w' Hw) as (n2 & Ht2 & Hp2).
    exists (n1 ++ n2). rewrite Ht2, Ht1, app_assoc. split; [done|].
    apply in_phases_app; [by apply in_phases_one|done].
  - intros [= <-]. destruct (Hm w w1) as (n1 & Ht1 & Hp1); [by rewrite Hmw|].
    exists n1. split; [done|]. apply in_phases_one in Hp1.
    exists n1, []. rewrite app_nil_r. split; [done|]. split; [done|].
    apply in_phases_nil.
  - intros [= <-]. destruct (Hm w w1) as (n1 & Ht1 & Hp1); [by rewrite Hmw|].
    exists n1. split; [done|]. apply in_phases_one in Hp1.
    exists n1, []. rewrite app_nil_r. split; [done|]. split; [done|].
    apply in_phases_nil.
  - done.
Qed.

(** The same, keeping what a successful look-up tells. *)
Lemma emits_bind_getitem {B} phases (d : dict) key (k : value -> M B) :
  (forall v, d !! key = Some v -> emits phases (k v)) ->
  emits phases (bind (getitem d key) k).
Proof.
  intros Hk w w'. unfold bind, getitem.
  destruct (d !! key) as [v|]; cbn [ret raise final_world].
  - by apply Hk.
  - intros [= <-]. exists []. rewrite app_nil_r. split; [done|].
    apply in_phases_nil.
Qed.

Lemma emits_getitem phases d key : emits phases (getitem d key).
Proof.
  unfold getitem. destruct (d !! key); [apply emits_ret|apply emits_raise].
Qed.

Lemma emits_subscript phases v key : emits phases (subscript v key).
Proof.
  destruct v; cbn [subscript]; try apply emits_raise. apply emits_getitem.
Qed.

Lemma emits_as_path phases v : emits phases (as_path v).
Proof.
  destruct v; cbn [as_path];
    first [apply emits_raise|apply emits_ret|apply emits_unmodelled].
Qed.

Ltac emits_steps :=
  repeat first
    [ apply emits_bind_getitem; intros ? ?
    | apply emits_bind; [|intros ?]
    | apply emits_getitem | apply emits_subscript | apply emits_as_path
    | apply emits_lift | apply emits_get_fs | apply emits_put_fs
    | apply emits_ret | apply emits_raise | apply emits_sys_exit
    | apply emits_unmodelled
    | apply emits_emit; reflexivity
    | match goal with
      | |- emits _ (if ?b then _ else _) => destruct b
      | |- emits _ (match ?x with _ => _ end) => destruct x
      | |- emits _ (let '(_, _) := ?x in _) => destruct x
      end ].

Lemma emits_check_file_exists path : emits [is_print] (check_file_exists path).
Proof. unfold check_file_exists, print. emits_steps. Qed.

Lemma emits_check_input_assets configuration :
  emits [is_print] (check_input_assets configuration).
Proof.
  unfold check_input_assets, print.
  repeat first [ apply emits_check_file_exists | progress emits_steps ].
Qed.

Lemma emits_prepare_build_directory path :
  emits [preparation_phase] (prepare_build_directory path).
Proof. unfold prepare_build_directory, makedirs, print. emits_steps. Qed.

Lemma emits_write_plymouth_file configuration :
  emits [descriptor_phase configuration] (write_plymouth_file configuration).
Proof.
  unfold write_plymouth_file, open_w, write_close, print.
  apply emits_bind_getitem; intros name Hname.
  apply emits_bind_getitem; intros td Htd.
  apply emits_bind_getitem; intros build Hbuild.
  assert (Hd : forall e,
    writes_to (py_str build +:+ "/" +:+ py_str name +:+ ".plymouth") e = true ->
    descriptor_phase configuration e = true).
  { intros e He. unfold descriptor_phase, descriptor_path.
    rewrite Hbuild, Hname. cbn [writes_to_opt]. rewrite He.
    by rewrite orb_true_r. }
  repeat first
    [ progress emits_steps
    | apply emits_emit; apply Hd; cbn [writes_to]; apply String.eqb_refl ].
Qed.

Lemma emits_write_plymouth_script configuration frame_count :
  emits [script_phase configuration]
    (write_plymouth_script configuration frame_count).
Proof.
  unfold write_plymouth_script, open_w, write_close, print.
  apply emits_bind_getitem; intros name Hname.
  apply emits_bind_getitem; intros td Htd.
  apply emits_bind_getitem; intros build Hbuild.
  assert (Hd : forall e,
    writes_to (py_str build +:+ "/" +:+ py_str name +:+ ".script") e = true ->
    script_phase configuration e = true).
  { intros e He. unfold script_phase, script_path.
    rewrite Hbuild, Hname. cbn [writes_to_opt]. rewrite He.
    by rewrite orb_true_r. }
  repeat first
    [ progress emits_steps
    | apply emits_emit; apply Hd; cbn [writes_to]; apply String.eqb_refl ].
Qed.

Lemma emits_extract_frames_from_video video_path output_path fps :
  emits [extraction_phase]
    (extract_frames_from_video video_path output_path fps).
Proof.
  unfold extract_frames_from_video, probe, resample, print. emits_steps.
Qed.

(** Every run of [build_theme], however it ends, adds its events in three
    stretches. *)
Lemma emits_build_theme configuration :
  emits [descriptor_phase configuration; extraction_phase;
         script_phase configuration]
    (build_theme configuration).
Proof.
  unfold build_theme.
  apply emits_bind.
  { eapply emits_mono; [|apply emits_check_input_assets].
    intros e He. unfold descriptor_phase, preparation_phase. by rewrite He. }
  intros _. apply emits_bind_getitem; intros build Hbuild.
  apply emits_bind.
  { eapply emits_mono; [|apply emits_prepare_build_directory].
    intros e He. unfold descriptor_phase. by rewrite He. }
  intros _. apply emits_bind; [apply emits_write_plymouth_file|].
  intros _. apply emits_skip.
  apply emits_bind_getitem; intros source Hsource.
  apply emits_bind_getitem; intros animation Hanimation.
  apply emits_bind_getitem; intros build' Hbuild'.
  apply emits_bind_getitem; intros fps Hfps.
  apply emits_bind; [apply emits_extract_frames_from_video|].
  intros n. apply emits_skip. apply emits_write_plymouth_script.
Qed.

(** ** Paths that cannot collide *)

Lemma last_char_cons c s :
  s <> EmptyString -> last_char (String c s) = last_char s.
Proof. by destruct s. Qed.

Lemma append_nonempty s t : t <> EmptyString -> s +:+ t <> EmptyString.
Proof. by destruct s. Qed.

Lemma last_char_app s t :
  t <> EmptyString -> last_char (s +:+ t) = last_char t.
Proof.
  intros Ht. induction s as [|c s IH]; [done|].
  change (String c s +:+ t) with (String c (s +:+ t)).
  rewrite last_char_cons; [done|]. by apply append_nonempty.
Qed.

Ltac last_char_tac :=
  rewrite !last_char_app; try done; repeat apply append_nonempty; done.

Lemma last_char_descriptor b n :
  last_char (b +:+ "/" +:+ n +:+ ".plymouth") = Some "h"%char.
Proof. last_char_tac. Qed.

Lemma last_char_script b n :
  last_char (b +:+ "/" +:+ n +:+ ".script") = Some "t"%char.
Proof. last_char_tac. Qed.

Lemma last_char_frame out k : last_char (frame_path out k) = Some "g"%char.
Proof. unfold frame_path, frame_name. last_char_tac. Qed.

Lemma descriptor_script_differ (configuration : dict) d s :
  descriptor_path configuration = Some d ->
  script_path configuration = Some s -> d <> s.
Proof.
  unfold descriptor_path, script_path.
  destruct (configuration !! "build"), (configuration !! "name"); try done.
  intros [= <-] [= <-] E. apply (f_equal last_char) in E.
  by rewrite last_char_descriptor, last_char_script in E.
Qed.

(** ** Runs that return *)

Lemma bind_Ok_inv {A B} (m : M A) (k : A -> M B) w b w' :
  bind m k w = Ok b w' -> exists a w1, m w = Ok a w1 /\ k a w1 = Ok b w'.
Proof. unfold bind. destruct (m w); try done. eauto. Qed.

Lemma getitem_Ok_inv d key w v w1 :
  getitem d key w = Ok v w1 -> d !! key = Some v /\ w1 = w.
Proof. unfold getitem. destruct (d !! key); by intros [= <- <-]. Qed.

Lemma adds_dirs_refl f : adds_dirs f f.
Proof. intros q. by left. Qed.

Lemma adds_dirs_trans f1 f2 f3 :
  adds_dirs f1 f2 -> adds_dirs f2 f3 -> adds_dirs f1 f3.
Proof.
  intros H12 H23 q. destruct (H12 q) as [E|[E1 E2]], (H23 q) as [E'|[E1' E2']].
  - left. congruence.
  - right. split; congruence.
  - right. split; congruence.
  - congruence.
Qed.

Lemma adds_dirs_insert f p :
  f !! p = None -> adds_dirs f (<[p := Dir]> f).
Proof.
  intros Hp q. destruct (decide (p = q)) as [<-|Hne].
  - right. by rewrite lookup_insert_eq.
  - left. by rewrite lookup_insert_ne.
Qed.

Lemma adds_dirs_file f f' q c :
  adds_dirs f f' -> f' !! q = Some (File c) <-> f !! q = Some (File c).
Proof. intros Hf. destruct (Hf q) as [E|[E1 E2]]; split; congruence. Qed.

Lemma adds_dirs_dir f f' q :
  adds_dirs f f' -> f !! q = Some Dir -> f' !! q = Some Dir.
Proof. intros Hf. destruct (Hf q) as [E|[E1 E2]]; congruence. Qed.

Lemma mkdir_parents_inl ds e :
  fold_left mkdir_parent ds (inl e) = inl e.
Proof. by induction ds. Qed.

Lemma mkdir_parents_adds ds :
  forall f f', fold_left mkdir_parent ds (inr f) = inr f' -> adds_dirs f f'.
Proof.
  induction ds as [|d ds IH]; intros f f'; cbn [fold_left mkdir_parent].
  - intros [= <-]. apply adds_dirs_refl.
  - destruct (f !! d) as [[|c]|] eqn:Hd.
    + apply IH.
    + by rewrite mkdir_parents_inl.
    + intros Hf. eapply adds_dirs_trans; [by apply adds_dirs_insert|].
      by apply IH.
Qed.

Lemma fs_makedirs_adds f p f' :
  fs_makedirs f p = inr f' -> adds_dirs f f' /\ f' !! p = Some Dir.
Proof.
  unfold fs_makedirs. destruct p as [|c p]; [done|].
  destruct (fold_left _ _ _) as [e|f1] eqn:Hf1; [done|].
  apply mkdir_parents_adds in Hf1.
  destruct (f1 !! String c p) eqn:Hp; [done|]. intros [= <-]. split.
  - eapply adds_dirs_trans; [done|]. by apply adds_dirs_insert.
  - by rewrite lookup_insert_eq.
Qed.

(** When [prepare_build_directory] returns, the build path is a directory
    and no file has changed. *)
Lemma prepare_build_directory_Ok_inv path w w2 :
  prepare_build_directory path w = Ok tt w2 ->
  exists b l,
    path = VStr b
    /\ fs w2 !! b = Some Dir
    /\ adds_dirs (fs w) (fs w2)
    /\ trace w2 = trace w ++ l
    /\ forallb preparation_phase l = true.
Proof.
  unfold prepare_build_directory.
  destruct path; cbn [as_path]; try done. mred.
  unfold path_exists, path_isfile, makedirs. mred.
  destruct (fs w !! s) as [[|c]|] eqn:Hs; mred.
  - intros [= <-]. cbn [fs trace]. eexists _, _. repeat split; try done.
    apply adds_dirs_refl.
  - done.
  - destruct (fs_makedirs (fs w) s) as [e|f'] eqn:Hm; mred; [done|].
    apply fs_makedirs_adds in Hm as [Hadd Hdir].
    intros [= <-]. cbn [fs trace]. exists s, [MakeDirs s;
      Print ("Created output directory '" +:+ s +:+ "'")].
    repeat split; try done. by rewrite <- app_assoc.
Qed.

Lemma write_plymouth_file_Ok_inv configuration w w' :
  write_plymouth_file configuration w = Ok tt w' ->
  exists name description td build,
    configuration !! "name" = Some name
    /\ configuration !! "description" = Some description
    /\ configuration !! "theme_directory" = Some td
    /\ configuration !! "build" = Some build
    /\ let p := py_str build +:+ "/" +:+ py_str name +:+ ".plymouth" in
       check_writable (fs w) p = inr tt
       /\ w' = {| fs := <[p := File (Text (plymouth_file_text name
                                             description td))]> (fs w);
                  trace := trace w
                    ++ [OpenFile p;
                        WriteFile p (plymouth_file_text name description td);
                        Print ("Plymouth theme file '" +:+ p
                               +:+ "' created/updated")] |}.
Proof.
  unfold write_plymouth_file, getitem. mred.
  destruct (configuration !! "name") as [name|] eqn:Hn; mred; [|done].
  destruct (configuration !! "theme_directory") as [td|] eqn:Ht; mred;
    [|done].
  destruct (configuration !! "build") as [build|] eqn:Hb; mred; [|done].
  unfold open_w, fs_write. mred.
  destruct (check_writable (fs w)
              (py_str build +:+ "/" +:+ py_str name +:+ ".plymouth"))
    as [e|[]] eqn:Hw; mred; [done|].
  destruct (configuration !! "description") as [description|] eqn:Hd; mred;
    [|done].
  intros Hrun. exists name, description, td, build.
  repeat split; try done.
  pose proof (write_plymouth_file_Ok configuration w name description td
                build Hn Hd Ht Hb Hw) as Hfwd.
  unfold write_plymouth_file, getitem, open_w, fs_write in Hfwd.
  revert Hfwd. mred. rewrite Hn. mred. rewrite Ht. mred. rewrite Hb. mred.
  rewrite Hw. mred. rewrite Hd. mred. unfold write_close in *. revert Hrun.
  mred. congruence.
Qed.

Lemma write_plymouth_script_Ok configuration frame_count w name td build :
  configuration !! "name" = Some name ->
  configuration !! "theme_directory" = Some td ->
  configuration !! "build" = Some build ->
  let p := py_str build +:+ "/" +:+ py_str name +:+ ".script" in
  check_writable (fs w) p = inr tt ->
  write_plymouth_script configuration frame_count w
  = Ok tt
      {| fs := <[p := File (Text (plymouth_script_text frame_count))]> (fs w);
         trace := trace w
                  ++ [OpenFile p;
                      WriteFile p (plymouth_script_text frame_count);
                      Print ("Plymouth script file '" +:+ p
                             +:+ "' created/updated")] |}.
Proof.
  intros Hn Ht Hb p Hw.
  unfold write_plymouth_script, open_w, write_close, getitem, fs_write. mred.
  rewrite Hn. mred. rewrite Ht. mred. rewrite Hb. mred. fold p.
  rewrite Hw. mred. rewrite insert_insert_eq.
  rewrite <- !app_assoc. reflexivity.
Qed.

Lemma write_plymouth_script_Ok_inv configuration frame_count w w' :
  write_plymouth_script configuration frame_count w = Ok tt w' ->
  exists name td build,
    configuration !! "name" = Some name
    /\ configuration !! "theme_directory" = Some td
    /\ configuration !! "build" = Some build
    /\ let p := py_str build +:+ "/" +:+ py_str name +:+ ".script" in
       check_writable (fs w) p = inr tt
       /\ w' = {| fs := <[p := File (Text (plymouth_script_text
                                             frame_count))]> (fs w);
                  trace := trace w
                    ++ [OpenFile p;
                        WriteFile p (plymouth_script_text frame_count);
                        Print ("Plymouth script file '" +:+ p
                               +:+ "' created/updated")] |}.
Proof.
  intros Hrun.
  destruct (configuration !! "name") as [name|] eqn:Hn;
    [|revert Hrun; unfold write_plymouth_script, getitem; mred;
      by rewrite Hn].
  destruct (configuration !! "theme_directory") as [td|] eqn:Ht;
    [|revert Hrun; unfold write_plymouth_script, getitem; mred;
      rewrite Hn; mred; by rewrite Ht].
  destruct (configuration !! "build") as [build|] eqn:Hb;
    [|revert Hrun; unfold write_plymouth_script, getitem; mred;
      rewrite Hn; mred; rewrite Ht; mred; by rewrite Hb].
  destruct (check_writable (fs w)
              (py_str build +:+ "/" +:+ py_str name +:+ ".script"))
    as [e|[]] eqn:Hw;
    [revert Hrun; unfold write_plymouth_script, getitem, open_w, fs_write;
     mred; rewrite Hn; mred; rewrite Ht; mred; rewrite Hb; mred;
     by rewrite Hw|].
  rewrite (write_plymouth_script_Ok configuration frame_count w name td build)
    in Hrun by done.
  injection Hrun as <-. by exists name, td, build.
Qed.

(** The lines the extractor prints on its way. *)
Lemma extract_frames_from_video_Ok video_path output_path fps w s sf n f'
    frames :
  fs w !! video_path = Some (File (Video s)) ->
  estimate s fps = Some (sf, n) ->
  contains_char "%" (py_str output_path) = false ->
  ffmpeg_run (fs w) s (py_str output_path) fps = (f', frames, true) ->
  extract_frames_from_video video_path output_path fps w
  = Ok n
      {| fs := f';
         trace := trace w
           ++ [Print ("Generate animation frames from video '"
                      +:+ video_path +:+ "'");
               Print ("Input video duration = "
                      +:+ py_str (VFloat (duration s))
                      +:+ " seconds @ " +:+ pretty sf +:+ " fps");
               Print ("Input video size = " +:+ pretty (width s) +:+ "x"
                      +:+ pretty (height s));
               Print ("The result should be " +:+ py_str n +:+ " images");
               RunFfmpeg video_path
                 (py_str output_path +:+ "/animation_frame_%d.png")
                 frames] |}.
Proof.
  intros Hv He Hpct Hrun. unfold estimate in He.
  destruct (Float.int_truediv _ _) as [e|q] eqn:Hq; [done|].
  destruct (Float.to_int q) as [e|sf'] eqn:Hsf; [done|].
  destruct (Float.to_int (duration s)) as [e|t] eqn:Ht; [done|].
  destruct (py_mul_int t fps) as [e|n'] eqn:Hn; [done|].
  injection He as -> ->.
  unfold extract_frames_from_video, probe, resample. mred.
  rewrite Hv, Hq. mred. rewrite Hsf. mred. rewrite Ht. mred. rewrite Hn.
  mred. rewrite Hpct. mred. rewrite Hrun. mred.
  do 2 f_equal. by rewrite <- !app_assoc.
Qed.

Lemma extract_frames_from_video_no_video video_path output_path fps w :
  (forall s, fs w !! video_path <> Some (File (Video s))) ->
  exists e,
    extract_frames_from_video video_path output_path fps w
    = Uncaught e
        (add_trace w [Print ("Generate animation frames from video '"
                             +:+ video_path +:+ "'")]).
Proof.
  intros Hv. unfold extract_frames_from_video, probe. mred.
  destruct (fs w !! video_path) as [[|[| |s|]]|] eqn:E;
    try (eexists; reflexivity).
  by destruct (Hv s).
Qed.

Lemma extract_frames_from_video_Ok_inv video_path output_path fps w n w' :
  extract_frames_from_video video_path output_path fps w = Ok n w' ->
  exists s sf t f' frames l,
    fs w !! video_path = Some (File (Video s))
    /\ estimate s fps = Some (sf, n)
    /\ contains_char "%" (py_str output_path) = false
    /\ Float.to_int (duration s) = inr t
    /\ py_mul_int t fps = inr n
    /\ ffmpeg_run (fs w) s (py_str output_path) fps = (f', frames, true)
    /\ fs w' = f'
    /\ forallb is_print l = true
    /\ trace w'
       = trace w ++ l
         ++ [RunFfmpeg video_path
               (py_str output_path +:+ "/animation_frame_%d.png") frames].
Proof.
  unfold extract_frames_from_video, probe, resample. mred.
  destruct (fs w !! video_path) as [[|[| |s|]]|] eqn:Hv; mred; try done.
  destruct (Float.int_truediv _ _) as [e|q] eqn:Hq; mred; [done|].
  destruct (Float.to_int q) as [e|sf] eqn:Hsf; mred; [done|].
  destruct (Float.to_int (duration s)) as [e|t] eqn:Ht; mred; [done|].
  destruct (py_mul_int t fps) as [e|n'] eqn:Hn; mred; [done|].
  destruct (contains_char _ _) eqn:Hpct; mred; [done|].
  destruct (ffmpeg_run _ _ _ _) as [[f' frames] ok] eqn:Hrun. mred.
  destruct ok; mred; [|done]. intros [= <- <-]. cbn [fs trace].
  exists s, sf, t, f', frames,
    [Print ("Generate animation frames from video '" +:+ video_path +:+ "'");
     Print ("Input video duration = " +:+ py_str (VFloat (duration s))
            +:+ " seconds @ " +:+ pretty sf +:+ " fps");
     Print ("Input video size = " +:+ pretty (width s) +:+ "x"
            +:+ pretty (height s));
     Print ("The result should be " +:+ py_str n' +:+ " images")].
  split; [done|]. split; [unfold estimate; by rewrite Hq, Hsf, Ht, Hn|].
  repeat split; try done. by rewrite <- !app_assoc.
Qed.

(** ** The frame extractor *)

(** C1. For a probed video whose duration is a positive finite number and
    an integer rate: whenever [extract_frames_from_video] returns, it
    returns floor(duration) * fps. With a frame count from 0 to below
    2^53, a quotient nb_frames / duration below 2^53 and a resampling step
    that succeeds, it does return, and the events it adds are the four
    lines and the run of the tool; the rate it prints is that of Python's
    division on doubles, which is floor(nb_frames / duration) for the
    exact quotient, except that a quotient within a relative 2^-53 below
    the next integer may print as that integer; an integer quotient
    prints as itself. The rate is the floor of the double the division
    returns. For a ten-second clip at 25 frames per second the count is
    250. *)
Theorem extract_frames_count :
  forall (video_path : string) (output_path : value) (fps : Z) (w : world)
         (s : stream),
    fs w !! video_path = Some (File (Video s)) ->
    Float.is_positive (duration s) = true ->
    (forall n w',
       extract_frames_from_video video_path output_path (VInt fps) w
       = Ok n w' ->
       n = VInt (Qfloor (Float.to_Q (duration s)) * fps))
    /\ (forall (f' : filesystem) (frames : list string),
          0 <= nb_frames s < 2 ^ 53 ->
          (inject_Z (nb_frames s) / Float.to_Q (duration s)
           < inject_Z (2 ^ 53))%Q ->
          contains_char "%" (py_str output_path) = false ->
          ffmpeg_run (fs w) s (py_str output_path) (VInt fps)
          = (f', frames, true) ->
          exists (q : float) (rate : Z) (w' : world),
            Float.int_truediv (nb_frames s) (duration s) = inr q
            /\ Float.is_finite q = true
            /\ rate = Qfloor (Float.to_Q q)
            /\ extract_frames_from_video video_path output_path (VInt fps) w
               = Ok (VInt (Qfloor (Float.to_Q (duration s)) * fps)) w'
            /\ fs w' = f'
            /\ trace w'
               = trace w
                 ++ [Print ("Generate animation frames from video '"
                            +:+ video_path +:+ "'");
                     Print ("Input video duration = "
                            +:+ py_str (VFloat (duration s))
                            +:+ " seconds @ " +:+ pretty rate +:+ " fps");
                     Print ("Input video size = " +:+ pretty (width s)
                            +:+ "x" +:+ pretty (height s));
                     Print ("The result should be "
                            +:+ pretty (Qfloor (Float.to_Q (duration s))
                                        * fps)
                            +:+ " images");
                     RunFfmpeg video_path
                       (py_str output_path +:+ "/animation_frame_%d.png")
                       frames]
            /\ Qfloor (inject_Z (nb_frames s) / Float.to_Q (duration s))
               <= rate
               <= Qfloor (inject_Z (nb_frames s) / Float.to_Q (duration s))
                  + 1
            /\ (rate
                = Qfloor (inject_Z (nb_frames s) / Float.to_Q (duration s))
                  + 1 ->
                ((inject_Z rate
                  - inject_Z (nb_frames s) / Float.to_Q (duration s))
                 * inject_Z (2 ^ 53)
                 <= inject_Z (nb_frames s) / Float.to_Q (duration s))%Q)
            /\ (forall k : Z,
                  (inject_Z (nb_frames s) / Float.to_Q (duration s)
                   == inject_Z k)%Q ->
                  rate = k))
    /\ (duration s = ten_seconds -> fps = 25 ->
        Qfloor (Float.to_Q (duration s)) * fps = 250).
Proof.
  intros video_path output_path fps w s Hvideo Hpos.
  assert (Ht : Float.to_int (duration s)
               = inr (Qfloor (Float.to_Q (duration s)))).
  { apply to_int_floor. destruct (duration s) as [| | |[] ? ?]; done. }
  split; [|split].
  - intros n w' Hrun.
    apply extract_frames_from_video_Ok_inv in Hrun
      as (s' & sf & t & f' & frames & l & Hv & _ & _ & Ht' & Hn & _).
    rewrite Hvideo in Hv. injection Hv as <-.
    rewrite Ht in Ht'. injection Ht' as <-.
    cbn [py_mul_int] in Hn. by injection Hn as <-.
  - intros f' frames Hframes Hbound Hpct Hrun.
    destruct (int_truediv_rate (nb_frames s) (duration s) Hframes Hpos Hbound)
      as (q & rate & Hq & Hrate & Hfloor & Hup).
    assert (Hfin : Float.is_finite q = true).
    { destruct q; done. }
    assert (Hq' : Float.to_int q = inr (Qfloor (Float.to_Q q))).
    { apply to_int_floor. eapply int_truediv_nonneg; eauto. lia. }
    assert (Hrate' : rate = Qfloor (Float.to_Q q)).
    { rewrite Hrate in Hq'. by injection Hq'. }
    rewrite (extract_frames_from_video_Ok video_path output_path (VInt fps)
               w s rate
               (VInt (Qfloor (Float.to_Q (duration s)) * fps)) f' frames);
      try done.
    + exists q, rate. eexists. do 3 (split; [done|]).
      split; [reflexivity|]. cbn [fs trace py_str].
      do 4 (split; [done|]).
      intros k Hk.
      assert (Hfk : Qfloor (inject_Z (nb_frames s)
                            / Float.to_Q (duration s)) = k).
      { rewrite (Qfloor_comp _ _ Hk). apply Qfloor_Z. }
      rewrite Hfk in Hfloor, Hup.
      destruct (Z.eq_dec rate k) as [|Hne]; [done|]. exfalso.
      assert (Hr : rate = k + 1) by lia.
      specialize (Hup Hr). revert Hup Hbound. rewrite !Hk, Hr.
      unfold Qle, Qlt, Qminus, Qplus, Qopp, Qmult.
      cbn [Qnum Qden inject_Z]. lia.
    + unfold estimate. by rewrite Hq, Hrate, Ht.
  - intros -> ->. reflexivity.
Qed.

(** The images go to paths that end in [g]; every other path is left as
    it was. *)
Lemma write_frames_other out p :
  last_char p <> Some "g"%char ->
  forall n f k f' l ok,
    write_frames f out k n = (f', l, ok) -> f' !! p = f !! p.
Proof.
  intros Hp. induction n as [|n IH]; intros f k f' l ok; cbn [write_frames].
  - by intros [= <- _ _].
  - unfold fs_write. destruct (check_writable f (frame_path out k)); [by intros [= <- _ _]|].
    destruct (write_frames _ out (k + 1) n) as [[f2 l2] ok2] eqn:Hrec.
    intros [= <- _ _]. rewrite (IH _ _ _ _ _ Hrec).
    apply lookup_insert_ne. intros E. apply Hp. rewrite <- E.
    apply last_char_frame.
Qed.

Lemma ffmpeg_run_other f s out fps f' l ok p :
  last_char p <> Some "g"%char ->
  ffmpeg_run f s out fps = (f', l, ok) -> f' !! p = f !! p.
Proof.
  intros Hp. unfold ffmpeg_run. destruct (encoder _ _ _) as [n|].
  - by apply write_frames_other.
  - by intros [= <- _ _].
Qed.

(** ** A second run *)

Lemma file_writes_refl f : file_writes f f.
Proof. intros q. by left. Qed.

Lemma file_writes_trans f1 f2 f3 :
  file_writes f1 f2 -> file_writes f2 f3 -> file_writes f1 f3.
Proof.
  intros H12 H23 q.
  destruct (H12 q) as [E|[E1 [c E2]]], (H23 q) as [E'|[E1' [c' E2']]].
  - left. congruence.
  - right. split; [congruence|eauto].
  - right. split; [done|]. exists c. congruence.
  - right. split; [done|eauto].
Qed.

Lemma file_writes_insert f p c :
  f !! p <> Some Dir -> file_writes f (<[p := File c]> f).
Proof.
  intros Hp q. destruct (decide (p = q)) as [<-|Hne].
  - right. split; [done|]. exists c. by rewrite lookup_insert_eq.
  - left. by rewrite lookup_insert_ne.
Qed.

Lemma file_writes_insert_both f g p c :
  file_writes f g -> file_writes (<[p := File c]> f) (<[p := File c]> g).
Proof.
  intros Hfg q. destruct (decide (p = q)) as [<-|Hne].
  - left. by rewrite !lookup_insert_eq.
  - rewrite !lookup_insert_ne by done. apply Hfg.
Qed.

Lemma file_writes_isfile f g q :
  file_writes f g -> path_isfile f q = true -> path_isfile g q = true.
Proof.
  intros Hfg. unfold path_isfile.
  destruct (Hfg q) as [->|[_ [c ->]]]; done.
Qed.

Lemma file_writes_isdir f g q :
  file_writes f g -> path_isdir f q = true -> path_isdir g q = true.
Proof.
  intros Hfg. unfold path_isdir.
  destruct (Hfg q) as [->|[Hn [c ->]]]; [done|].
  by destruct (f !! q) as [[|?]|].
Qed.

Lemma adds_dirs_isfile f g q :
  adds_dirs f g -> path_isfile f q = true -> path_isfile g q = true.
Proof.
  intros Hfg. unfold path_isfile.
  destruct (Hfg q) as [->|[-> _]]; done.
Qed.

Lemma adds_dirs_isdir f g q :
  adds_dirs f g -> path_isdir f q = true -> path_isdir g q = true.
Proof.
  intros Hfg. unfold path_isdir.
  destruct (Hfg q) as [->|[-> _]]; done.
Qed.

Lemma assets_present_mono f g a :
  (forall q, path_isdir f q = true -> path_isdir g q = true) ->
  (forall q, path_isfile f q = true -> path_isfile g q = true) ->
  assets_present f a = true -> assets_present g a = true.
Proof.
  intros Hd Hf. unfold assets_present.
  rewrite !andb_true_iff, !forallb_forall. intros [H1 H2]. split; eauto.
Qed.

Lemma check_writable_not_dir f p :
  check_writable f p = inr tt -> f !! p <> Some Dir.
Proof. unfold check_writable. by destruct (f !! p) as [[|c]|]. Qed.

Lemma check_writable_file_writes f g p :
  check_writable f p = inr tt -> file_writes f g ->
  check_writable g p = inr tt.
Proof.
  intros Hw Hfg. pose proof (check_writable_not_dir _ _ Hw) as Hnd.
  revert Hw. unfold check_writable.
  assert (Hg : g !! p <> Some Dir).
  { destruct (Hfg p) as [->|[_ [c ->]]]; done. }
  destruct (f !! p) as [[|c]|], (g !! p) as [[|c']|]; try done;
    destruct (parent_dir p) as [[|x d]|]; try done;
    (destruct (Hfg (String x d)) as [->|[Hn [c'' Hc]]];
     [done|by destruct (f !! String x d) as [[|?]|]]).
Qed.

Lemma write_frames_file_writes out n :
  forall f k f' l ok,
    write_frames f out k n = (f', l, ok) -> file_writes f f'.
Proof.
  induction n as [|n IH]; intros f k f' l ok; cbn [write_frames].
  - intros [= <- _ _]. apply file_writes_refl.
  - unfold fs_write.
    destruct (check_writable f (frame_path out k)) as [e|[]] eqn:Hw;
      [intros [= <- _ _]; apply file_writes_refl|].
    destruct (write_frames _ out (k + 1) n) as [[f2 l2] ok2] eqn:Hrec.
    intros [= <- _ _]. eapply file_writes_trans; [|by eapply IH].
    apply file_writes_insert. by eapply check_writable_not_dir.
Qed.

(** Frames that could be written once can be written again, over what the
    first run left. *)
Lemma write_frames_again out n :
  forall f g k f' l,
    write_frames f out k n = (f', l, true) -> file_writes f g ->
    exists g', write_frames g out k n = (g', l, true).
Proof.
  induction n as [|n IH]; intros f g k f' l; cbn [write_frames].
  - intros [= <- <-] _. eauto.
  - unfold fs_write.
    destruct (check_writable f (frame_path out k)) as [e|[]] eqn:Hw;
      [done|].
    destruct (write_frames _ out (k + 1) n) as [[f2 l2] ok2] eqn:Hrec.
    intros [= <- <- ->] Hfg.
    rewrite (check_writable_file_writes _ _ _ Hw Hfg).
    destruct (IH _ (<[frame_path out k := File Image]> g) _ _ _ Hrec)
      as (g' & ->); [by apply file_writes_insert_both|].
    eauto.
Qed.

Lemma ffmpeg_run_again f g s out fps f' l :
  ffmpeg_run f s out fps = (f', l, true) -> file_writes f g ->
  exists g', ffmpeg_run g s out fps = (g', l, true).
Proof.
  unfold ffmpeg_run. destruct (encoder _ _ _) as [n|]; [|done].
  apply write_frames_again.
Qed.

Lemma ffmpeg_run_file_writes f s out fps f' l ok :
  ffmpeg_run f s out fps = (f', l, ok) -> file_writes f f'.
Proof.
  unfold ffmpeg_run. destruct (encoder _ _ _) as [n|].
  - apply write_frames_file_writes.
  - intros [= <- _ _]. apply file_writes_refl.
Qed.

Lemma subscript_Ok_inv v key w x w1 :
  subscript v key w = Ok x w1 ->
  exists d, v = VDict d /\ d !! key = Some x /\ w1 = w.
Proof.
  destruct v; cbn [subscript]; try done. intros Hg.
  apply getitem_Ok_inv in Hg as [Hk ->]. eauto.
Qed.

Lemma check_file_exists_Ok_inv path w w1 :
  check_file_exists path w = Ok tt w1 ->
  path_isfile (fs w) path = true /\ fs w1 = fs w.
Proof.
  rewrite check_file_exists_eq.
  destruct (path_isfile (fs w) path); [|done]. by intros [= <-].
Qed.

(** Validation that returns has found every asset. *)
Lemma check_input_assets_Ok_inv configuration w w1 :
  check_input_assets configuration w = Ok tt w1 ->
  exists a, asset_paths configuration = Some a
            /\ assets_present (fs w) a = true.
Proof.
  intros Hrun. unfold check_input_assets in Hrun.
  apply bind_Ok_inv in Hrun as (v & ? & Hg & Hrun).
  apply getitem_Ok_inv in Hg as [Hsrc ->].
  apply bind_Ok_inv in Hrun as (src & ? & Hp & Hrun).
  destruct v; cbn [as_path] in Hp; try done. injection Hp as <- <-.
  apply bind_Ok_inv in Hrun as (f & ? & Hf & Hrun).
  injection Hf as <- <-.
  destruct (negb (path_exists (fs w) s) || path_isfile (fs w) s) eqn:Hdir.
  { apply bind_Ok_inv in Hrun as (? & ? & _ & Hrun). done. }
  assert (Hisdir : path_isdir (fs w) s = true).
  { revert Hdir. unfold path_exists, path_isfile, path_isdir.
    by destruct (fs w !! s) as [[|?]|]. }
  apply bind_Ok_inv in Hrun as (v1 & ? & Hg & Hrun).
  apply getitem_Ok_inv in Hg as [H1 ->].
  apply bind_Ok_inv in Hrun as ([] & w2 & Hc1 & Hrun).
  apply check_file_exists_Ok_inv in Hc1 as [Hf1 E1].
  apply bind_Ok_inv in Hrun as (dialog & ? & Hg & Hrun).
  apply getitem_Ok_inv in Hg as [Hdlg ->].
  apply bind_Ok_inv in Hrun as (v2 & ? & Hg & Hrun).
  apply subscript_Ok_inv in Hg as (dlg & -> & H2 & ->).
  apply bind_Ok_inv in Hrun as ([] & w3 & Hc2 & Hrun).
  apply check_file_exists_Ok_inv in Hc2 as [Hf2 E2].
  apply bind_Ok_inv in Hrun as (v3 & ? & Hg & Hrun).
  apply subscript_Ok_inv in Hg as (? & E & H3 & ->). injection E as <-.
  apply bind_Ok_inv in Hrun as ([] & w4 & Hc3 & Hrun).
  apply check_file_exists_Ok_inv in Hc3 as [Hf3 E3].
  apply bind_Ok_inv in Hrun as (v4 & ? & Hg & Hrun).
  apply subscript_Ok_inv in Hg as (? & E & H4 & ->). injection E as <-.
  apply bind_Ok_inv in Hrun as ([] & w5 & Hc4 & Hrun).
  apply check_file_exists_Ok_inv in Hc4 as [Hf4 E4].
  apply bind_Ok_inv in Hrun as (v5 & ? & Hg & Hrun).
  apply subscript_Ok_inv in Hg as (? & E & H5 & ->). injection E as <-.
  apply bind_Ok_inv in Hrun as ([] & w6 & Hc5 & Hrun).
  apply check_file_exists_Ok_inv in Hc5 as [Hf5 E5].
  apply bind_Ok_inv in Hrun as (progression & ? & Hg & Hrun).
  apply getitem_Ok_inv in Hg as [Hprg ->].
  apply bind_Ok_inv in Hrun as (v6 & ? & Hg & Hrun).
  apply subscript_Ok_inv in Hg as (prg & -> & H6 & ->).
  apply bind_Ok_inv in Hrun as ([] & w7 & Hc6 & Hrun).
  apply check_file_exists_Ok_inv in Hc6 as [Hf6 E6].
  apply bind_Ok_inv in Hrun as (v7 & ? & Hg & Hrun).
  apply subscript_Ok_inv in Hg as (? & E & H7 & ->). injection E as <-.
  apply check_file_exists_Ok_inv in Hrun as [Hf7 E7].
  rewrite E6 in Hf7. rewrite E5 in Hf6, Hf7. rewrite E4 in Hf5, Hf6, Hf7.
  rewrite E3 in Hf4, Hf5, Hf6, Hf7. rewrite E2 in Hf3, Hf4, Hf5, Hf6, Hf7.
  rewrite E1 in Hf2, Hf3, Hf4, Hf5, Hf6, Hf7.
  eexists. split.
  - unfold asset_paths. rewrite Hsrc, H1, Hdlg, Hprg. cbn [lookup_in].
    rewrite H2, H3, H4, H5, H6, H7. reflexivity.
  - unfold assets_present. cbn [fst snd map forallb].
    by rewrite Hisdir, Hf1, Hf2, Hf3, Hf4, Hf5, Hf6, Hf7.
Qed.

Lemma prepare_build_directory_existing b w :
  fs w !! b = Some Dir ->
  prepare_build_directory (VStr b) w
  = Ok tt (add_trace w [Print ("Using existing output directory '" +:+ b
                               +:+ "'")]).
Proof.
  intros Hb. unfold prepare_build_directory, as_path, path_exists, path_isfile.
  mred. by rewrite Hb.
Qed.

(** Frames are images: a path holds what it held or an image. *)
Lemma write_frames_lookup out n :
  forall f k f' l ok q,
    write_frames f out k n = (f', l, ok) ->
    f' !! q = f !! q \/ f' !! q = Some (File Image).
Proof.
  induction n as [|n IH]; intros f k f' l ok q; cbn [write_frames].
  - intros [= <- _ _]. by left.
  - unfold fs_write.
    destruct (check_writable f (frame_path out k)); [intros [= <- _ _]; by left|].
    destruct (write_frames _ out (k + 1) n) as [[f2 l2] ok2] eqn:Hrec.
    intros [= <- _ _]. destruct (IH _ _ _ _ _ q Hrec) as [-> | ->]; [|by right].
    destruct (decide (frame_path out k = q)) as [<-|Hne].
    + right. by rewrite lookup_insert_eq.
    + left. by rewrite lookup_insert_ne.
Qed.

Lemma ffmpeg_run_lookup f s out fps f' l ok q :
  ffmpeg_run f s out fps = (f', l, ok) ->
  f' !! q = f !! q \/ f' !! q = Some (File Image).
Proof.
  unfold ffmpeg_run. destruct (encoder _ _ _) as [n|].
  - apply write_frames_lookup.
  - intros [= <- _ _]. by left.
Qed.

(** The steps of a run of [build_theme] that returns. *)
Lemma build_theme_Ok_steps configuration w w' :
  build_theme configuration w = Ok tt w' ->
  exists name description td b src animation fps a l1 w2 l2 s sf n f4 frames,
    configuration !! "name" = Some name
    /\ configuration !! "description" = Some description
    /\ configuration !! "theme_directory" = Some td
    /\ configuration !! "build" = Some (VStr b)
    /\ configuration !! "source" = Some (VStr src)
    /\ configuration !! "animation" = Some animation
    /\ configuration !! "fps" = Some fps
    /\ asset_paths configuration = Some a
    /\ assets_present (fs w) a = true
    /\ forallb is_print l1 = true
    /\ forallb preparation_phase l2 = true
    /\ fs w2 !! b = Some Dir
    /\ adds_dirs (fs w) (fs w2)
    /\ trace w2 = trace w ++ l1 ++ l2
    /\ let d := b +:+ "/" +:+ py_str name +:+ ".plymouth" in
       let sp := b +:+ "/" +:+ py_str name +:+ ".script" in
       let video := src +:+ "/" +:+ py_str animation in
       let f3 := <[d := File (Text (plymouth_file_text name description td))]>
                   (fs w2) in
       check_writable (fs w2) d = inr tt
       /\ f3 !! video = Some (File (Video s))
       /\ estimate s fps = Some (sf, n)
       /\ contains_char "%" b = false
       /\ ffmpeg_run f3 s b fps = (f4, frames, true)
       /\ check_writable f4 sp = inr tt
       /\ fs w' = <[sp := File (Text (plymouth_script_text n))]> f4
       /\ exists mid,
            forallb is_print mid = true
            /\ trace w'
               = trace w2
                 ++ [OpenFile d;
                     WriteFile d (plymouth_file_text name description td);
                     Print ("Plymouth theme file '" +:+ d
                            +:+ "' created/updated")]
                 ++ mid
                 ++ [RunFfmpeg video (b +:+ "/animation_frame_%d.png") frames]
                 ++ [OpenFile sp;
                     WriteFile sp (plymouth_script_text n);
                     Print ("Plymouth script file '" +:+ sp
                            +:+ "' created/updated")].
Proof.
  intros Hrun. unfold build_theme in Hrun.
  apply bind_Ok_inv in Hrun as ([] & w1 & Hcheck & Hrun).
  destruct (check_input_assets_Ok_source _ _ _ Hcheck) as (src & Hsrc).
  destruct (check_input_assets_Ok_inv _ _ _ Hcheck) as (a & Ha & Hpresent).
  destruct (quiet_check_input_assets configuration src Hsrc w)
    as (l1 & Hl1 & Hw1 & _).
  rewrite Hcheck in Hw1. injection Hw1 as ->.
  apply bind_Ok_inv in Hrun as (build & ? & Hg & Hrun).
  apply getitem_Ok_inv in Hg as [Hbuild ->].
  apply bind_Ok_inv in Hrun as ([] & w2 & Hprep & Hrun).
  apply prepare_build_directory_Ok_inv in Hprep
    as (b & l2 & -> & Hdir & Hadd & Ht2 & Hl2).
  apply bind_Ok_inv in Hrun as ([] & w3 & Hwf & Hrun).
  apply write_plymouth_file_Ok_inv in Hwf
    as (name & description & td & build' & Hname & Hdesc & Htd & Hb' & Hwf).
  rewrite Hbuild in Hb'. injection Hb' as <-. cbn [py_str] in Hwf.
  destruct Hwf as [Hwd ->].
  apply bind_Ok_inv in Hrun as (source & ? & Hg & Hrun).
  apply getitem_Ok_inv in Hg as [Hsource ->].
  rewrite Hsrc in Hsource. injection Hsource as <-.
  apply bind_Ok_inv in Hrun as (animation & ? & Hg & Hrun).
  apply getitem_Ok_inv in Hg as [Hanim ->].
  apply bind_Ok_inv in Hrun as (build' & ? & Hg & Hrun).
  apply getitem_Ok_inv in Hg as [Hb' ->].
  rewrite Hbuild in Hb'. injection Hb' as <-.
  apply bind_Ok_inv in Hrun as (fps & ? & Hg & Hrun).
  apply getitem_Ok_inv in Hg as [Hfps ->].
  apply bind_Ok_inv in Hrun as (n & w4 & Hex & Hrun).
  apply extract_frames_from_video_Ok_inv in Hex
    as (s & sf & t & f4 & frames & l3 & Hvideo & Hest & Hpct & _ & _ & Hff
        & Hf4 & Hl3 & Ht4).
  cbn [py_str fs trace] in Hvideo, Hff, Ht4, Hpct.
  apply write_plymouth_script_Ok_inv in Hrun
    as (name' & td' & build' & Hname' & Htd' & Hb' & Hws).
  rewrite Hname in Hname'. injection Hname' as <-.
  rewrite Hbuild in Hb'. injection Hb' as <-. cbn [py_str] in Hws.
  destruct Hws as [Hwsp ->]. rewrite Hf4 in Hwsp.
  exists name, description, td, b, src, animation, fps, a, l1, w2, l2, s, sf,
    n, f4, frames.
  cbn [add_trace fs trace] in *.
  repeat split; try done.
  - rewrite Ht2. by rewrite <- app_assoc.
  - by rewrite Hf4.
  - exists l3. split; [done|]. rewrite Ht4. by rewrite <- !app_assoc.
Qed.

(** What a run of [build_theme] that returns has read, and what it leaves
    behind. *)
Lemma build_theme_Ok_inv configuration w w' :
  build_theme configuration w = Ok tt w' ->
  exists name description td b src animation fps s t n pre mid frames,
    configuration !! "name" = Some name
    /\ configuration !! "description" = Some description
    /\ configuration !! "theme_directory" = Some td
    /\ configuration !! "build" = Some (VStr b)
    /\ configuration !! "source" = Some (VStr src)
    /\ configuration !! "animation" = Some animation
    /\ configuration !! "fps" = Some fps
    /\ let d := b +:+ "/" +:+ py_str name +:+ ".plymouth" in
       let sp := b +:+ "/" +:+ py_str name +:+ ".script" in
       let video := src +:+ "/" +:+ py_str animation in
       fs w !! video = Some (File (Video s))
       /\ Float.to_int (duration s) = inr t
       /\ py_mul_int t fps = inr n
       /\ fs w' !! d
          = Some (File (Text (plymouth_file_text name description td)))
       /\ fs w' !! sp = Some (File (Text (plymouth_script_text n)))
       /\ forallb preparation_phase pre = true
       /\ forallb is_print mid = true
       /\ trace w'
          = trace w ++ pre
            ++ [OpenFile d;
                WriteFile d (plymouth_file_text name description td);
                Print ("Plymouth theme file '" +:+ d +:+ "' created/updated")]
            ++ mid
            ++ [RunFfmpeg video (b +:+ "/animation_frame_%d.png") frames]
            ++ [OpenFile sp;
                WriteFile sp (plymouth_script_text n);
                Print ("Plymouth script file '" +:+ sp
                       +:+ "' created/updated")].
Proof.
  intros Hrun.
  destruct (build_theme_Ok_steps _ _ _ Hrun)
    as (name & description & td & b & src & animation & fps & a & l1 & w2
        & l2 & s & sf & n & f4 & frames & Hname & Hdesc & Htd & Hbuild & Hsrc
        & Hanim & Hfps & Ha & Hpresent & Hl1 & Hl2 & Hdir & Hadd & Ht2 & Hwd
        & Hvideo & Hest & Hpct & Hff & Hwsp & Hfs & mid & Hmid & Htrace).
  assert (Ht : exists t, Float.to_int (duration s) = inr t
                         /\ py_mul_int t fps = inr n).
  { revert Hest. unfold estimate.
    destruct (Float.int_truediv _ _) as [|q]; [done|].
    destruct (Float.to_int q); [done|].
    destruct (Float.to_int (duration s)) as [|t]; [done|].
    destruct (py_mul_int t fps) eqn:E; [done|]. intros [= _ <-]. eauto. }
  destruct Ht as (t & Ht & Hn).
  exists name, description, td, b, src, animation, fps, s, t, n,
    (l1 ++ l2), mid, frames.
  repeat split; try done.
  - assert (Hne : b +:+ "/" +:+ py_str name +:+ ".plymouth"
                  <> src +:+ "/" +:+ py_str animation).
    { intros E. rewrite <- E, lookup_insert_eq in Hvideo. done. }
    rewrite lookup_insert_ne in Hvideo by done.
    by apply (adds_dirs_file _ _ _ _ Hadd) in Hvideo.
  - rewrite Hfs. rewrite lookup_insert_ne.
    + rewrite (ffmpeg_run_other _ _ _ _ _ _ _
                 (b +:+ "/" +:+ py_str name +:+ ".plymouth")
                 ltac:(by rewrite last_char_descriptor) Hff).
      by rewrite lookup_insert_eq.
    + intros E. apply (f_equal last_char) in E.
      by rewrite last_char_descriptor, last_char_script in E.
  - rewrite Hfs. by rewrite lookup_insert_eq.
  - rewrite forallb_app, Hl2, andb_true_r.
    rewrite forallb_forall in *. intros e He. unfold preparation_phase.
    by rewrite (Hl1 e He).
  - rewrite Htrace, Ht2. by rewrite <- !app_assoc.
Qed.

(** What a run that returns leaves in the descriptor and in the script is
    a function of the configuration and of the duration probed. *)
Lemma outputs_determined :
  forall (configuration : dict) (w1 w1' w2 w2' : world),
    build_theme configuration w1 = Ok tt w1' ->
    build_theme configuration w2 = Ok tt w2' ->
    probed_duration configuration (fs w1)
    = probed_duration configuration (fs w2) ->
    exists d s name description td fps dur t n,
      descriptor_path configuration = Some d
      /\ script_path configuration = Some s
      /\ configuration !! "name" = Some name
      /\ configuration !! "description" = Some description
      /\ configuration !! "theme_directory" = Some td
      /\ configuration !! "fps" = Some fps
      /\ probed_duration configuration (fs w1) = Some dur
      /\ Float.to_int dur = inr t
      /\ py_mul_int t fps = inr n
      /\ fs w1' !! d
         = Some (File (Text (plymouth_file_text name description td)))
      /\ fs w2' !! d = fs w1' !! d
      /\ fs w1' !! s = Some (File (Text (plymouth_script_text n)))
      /\ fs w2' !! s = fs w1' !! s.
Proof.
  intros configuration w1 w1' w2 w2' Hrun1 Hrun2 Hdur.
  destruct (build_theme_Ok_inv _ _ _ Hrun1)
    as (name & description & td & b & src & animation & fps & s1 & t1 & n1
        & pre1 & mid1 & frames1 & Hname & Hdesc & Htd & Hbuild & Hsrc
        & Hanim & Hfps & Hvideo1 & Ht1 & Hn1 & Hd1 & Hs1 & _).
  destruct (build_theme_Ok_inv _ _ _ Hrun2)
    as (name' & description' & td' & b' & src' & animation' & fps' & s2 & t2
        & n2 & pre2 & mid2 & frames2 & Hname' & Hdesc' & Htd' & Hbuild'
        & Hsrc' & Hanim' & Hfps' & Hvideo2 & Ht2 & Hn2 & Hd2 & Hs2 & _).
  rewrite Hname in Hname'. injection Hname' as <-.
  rewrite Hdesc in Hdesc'. injection Hdesc' as <-.
  rewrite Htd in Htd'. injection Htd' as <-.
  rewrite Hbuild in Hbuild'. injection Hbuild' as <-.
  rewrite Hsrc in Hsrc'. injection Hsrc' as <-.
  rewrite Hanim in Hanim'. injection Hanim' as <-.
  rewrite Hfps in Hfps'. injection Hfps' as <-.
  unfold probed_duration, video_path in *.
  rewrite Hsrc, Hanim in *. cbn [py_str] in *.
  rewrite Hvideo1, Hvideo2 in Hdur. injection Hdur as Hdur.
  rewrite <- Hdur in Ht2. rewrite Ht1 in Ht2. injection Ht2 as <-.
  rewrite Hn1 in Hn2. injection Hn2 as <-.
  exists (b +:+ "/" +:+ py_str name +:+ ".plymouth"),
    (b +:+ "/" +:+ py_str name +:+ ".script"),
    name, description, td, fps, (duration s1), t1, n1.
  unfold descriptor_path, script_path. rewrite Hbuild, Hname, Hvideo1.
  cbn [py_str]. repeat split; try done; congruence.
Qed.

(** A run over a build directory that is already there, up to the probe
    and beyond it. *)
Lemma build_theme_again configuration w name description td b src animation
    fps a :
  configuration !! "name" = Some name ->
  configuration !! "description" = Some description ->
  configuration !! "theme_directory" = Some td ->
  configuration !! "build" = Some (VStr b) ->
  configuration !! "source" = Some (VStr src) ->
  configuration !! "animation" = Some animation ->
  configuration !! "fps" = Some fps ->
  asset_paths configuration = Some a ->
  assets_present (fs w) a = true ->
  fs w !! b = Some Dir ->
  let d := b +:+ "/" +:+ py_str name +:+ ".plymouth" in
  let sp := b +:+ "/" +:+ py_str name +:+ ".script" in
  let video := src +:+ "/" +:+ py_str animation in
  let f3 := <[d := File (Text (plymouth_file_text name description td))]>
              (fs w) in
  check_writable (fs w) d = inr tt ->
  ((forall s, f3 !! video <> Some (File (Video s))) ->
   exists e w', build_theme configuration w = Uncaught e w'
                /\ fs w' = f3)
  /\ (forall s sf n f4 frames,
        f3 !! video = Some (File (Video s)) ->
        estimate s fps = Some (sf, n) ->
        contains_char "%" b = false ->
        ffmpeg_run f3 s b fps = (f4, frames, true) ->
        check_writable f4 sp = inr tt ->
        exists w',
          build_theme configuration w = Ok tt w'
          /\ fs w' = <[sp := File (Text (plymouth_script_text n))]> f4).
Proof.
  intros Hname Hdesc Htd Hbuild Hsrc Hanim Hfps Ha Hpresent Hdir d sp video f3
    Hwd.
  destruct (check_input_assets_spec configuration a w Ha) as (l & Hl & Hc).
  rewrite Hpresent in Hc.
  assert (Hstart : forall k : unit -> M unit,
    (check_input_assets configuration ;;;
     build <- getitem configuration "build" ;;
     prepare_build_directory build ;;;
     write_plymouth_file configuration ;;;
     source <- getitem configuration "source" ;;
     animation <- getitem configuration "animation" ;;
     build <- getitem configuration "build" ;;
     fps <- getitem configuration "fps" ;;
     number_of_extracts <-
       extract_frames_from_video (py_str source +:+ "/" +:+ py_str animation)
         build fps ;;
     write_plymouth_script configuration number_of_extracts) w
    = (number_of_extracts <-
         extract_frames_from_video video (VStr b) fps ;;
       write_plymouth_script configuration number_of_extracts)
        {| fs := f3;
           trace := trace
                      (add_trace (add_trace w l)
                         [Print ("Using existing output directory '" +:+ b
                                 +:+ "'")])
                    ++ [OpenFile d;
                        WriteFile d (plymouth_file_text name description td);
                        Print ("Plymouth theme file '" +:+ d
                               +:+ "' created/updated")] |}).
  { intros _. unfold bind at 1. rewrite Hc.
    unfold bind at 1. unfold getitem at 1. rewrite Hbuild. unfold ret at 1.
    unfold bind at 1. rewrite prepare_build_directory_existing by done.
    unfold bind at 1.
    rewrite (write_plymouth_file_Ok configuration _ name description td
               (VStr b)) by done.
    unfold bind at 1. unfold getitem at 1. rewrite Hsrc. unfold ret at 1.
    unfold bind at 1. unfold getitem at 1. rewrite Hanim. unfold ret at 1.
    unfold bind at 1. unfold getitem at 1. rewrite Hbuild. unfold ret at 1.
    unfold bind at 1. unfold getitem at 1. rewrite Hfps. unfold ret at 1.
    reflexivity. }
  unfold build_theme. rewrite (Hstart (fun _ => ret tt)). clear Hstart.
  split.
  - intros Hno. unfold bind.
    destruct (extract_frames_from_video_no_video video (VStr b) fps
                {| fs := f3;
                   trace := trace
                              (add_trace (add_trace w l)
                                 [Print ("Using existing output directory '"
                                         +:+ b +:+ "'")])
                            ++ [OpenFile d;
                                WriteFile d (plymouth_file_text name
                                               description td);
                                Print ("Plymouth theme file '" +:+ d
                                       +:+ "' created/updated")] |} Hno)
      as (e & ->).
    eauto.
  - intros s sf n f4 frames Hvideo Hest Hpct Hff Hwsp. unfold bind.
    rewrite (extract_frames_from_video_Ok _ _ _ _ s sf n f4 frames)
      by done.
    rewrite (write_plymouth_script_Ok configuration n _ name td (VStr b))
      by done.
    eauto.
Qed.

(** C7. After a run that returns, the descriptor holds
    [plymouth_file_text] of the configured name, description and theme
    directory, and the script holds [plymouth_script_text] of the count
    int(duration) * fps. A second run from there, with the same
    configuration, ends with both files holding the same text: it either
    returns, which it does whenever the video is still a video after the
    first run, or stops at the probe with the descriptor rewritten as it
    was and the script untouched. And any other run that returns, with the
    same configuration and the same probed duration, leaves the same text
    in both files. *)
Theorem rerun_identical :
  forall (configuration : dict) (w w1 : world),
    build_theme configuration w = Ok tt w1 ->
    exists d s name description td fps dur t n w2,
      descriptor_path configuration = Some d
      /\ script_path configuration = Some s
      /\ configuration !! "name" = Some name
      /\ configuration !! "description" = Some description
      /\ configuration !! "theme_directory" = Some td
      /\ configuration !! "fps" = Some fps
      /\ probed_duration configuration (fs w) = Some dur
      /\ Float.to_int dur = inr t
      /\ py_mul_int t fps = inr n
      /\ fs w1 !! d
         = Some (File (Text (plymouth_file_text name description td)))
      /\ fs w1 !! s = Some (File (Text (plymouth_script_text n)))
      /\ final_world (build_theme configuration w1) = Some w2
      /\ fs w2 !! d = fs w1 !! d
      /\ fs w2 !! s = fs w1 !! s
      /\ (is_Some (probed_duration configuration (fs w1)) ->
          build_theme configuration w1 = Ok tt w2)
      /\ (forall w' w1',
            build_theme configuration w' = Ok tt w1' ->
            probed_duration configuration (fs w')
            = probed_duration configuration (fs w) ->
            fs w1' !! d = fs w1 !! d /\ fs w1' !! s = fs w1 !! s).
Proof.
  intros configuration w w1 Hrun.
  destruct (build_theme_Ok_steps _ _ _ Hrun)
    as (name & description & td & b & src & animation & fps & a & l1 & wp
        & l2 & st & sf & n & f4 & frames & Hname & Hdesc & Htd & Hbuild & Hsrc
        & Hanim & Hfps & Ha & Hpresent & Hl1 & Hl2 & Hdir & Hadd & Ht2 & Hwd
        & Hvideo & Hest & Hpct & Hff & Hwsp & Hfs & _).
  destruct (build_theme_Ok_inv _ _ _ Hrun)
    as (name' & description' & td' & b' & src' & animation' & fps' & st'
        & t & n' & pre & mid & frames' & Hname' & Hdesc' & Htd' & Hbuild'
        & Hsrc' & Hanim' & Hfps' & Hvideo0 & Ht & Hn & Hd1 & Hs1 & _).
  rewrite Hname in Hname'. injection Hname' as <-.
  rewrite Hdesc in Hdesc'. injection Hdesc' as <-.
  rewrite Htd in Htd'. injection Htd' as <-.
  rewrite Hbuild in Hbuild'. injection Hbuild' as <-.
  rewrite Hsrc in Hsrc'. injection Hsrc' as <-.
  rewrite Hanim in Hanim'. injection Hanim' as <-.
  rewrite Hfps in Hfps'. injection Hfps' as <-.
  set (d := b +:+ "/" +:+ py_str name +:+ ".plymouth") in *.
  set (sp := b +:+ "/" +:+ py_str name +:+ ".script") in *.
  set (video := src +:+ "/" +:+ py_str animation) in *.
  set (T := plymouth_file_text name description td) in *.
  assert (Hst : st' = st).
  { assert (Hne : d <> video).
    { intros E. rewrite <- E, lookup_insert_eq in Hvideo. done. }
    rewrite lookup_insert_ne in Hvideo by done.
    apply (adds_dirs_file _ _ _ _ Hadd) in Hvideo. congruence. }
  subst st'.
  assert (Hn' : n' = n).
  { revert Hest. unfold estimate.
    destruct (Float.int_truediv _ _) as [|q]; [done|].
    destruct (Float.to_int q); [done|]. rewrite Ht, Hn. by intros [= _ <-]. }
  subst n'.
  assert (Hdsp : d <> sp).
  { intros E. apply (f_equal last_char) in E. unfold d, sp in E.
    by rewrite last_char_descriptor, last_char_script in E. }
  (* what the first run did to the file system *)
  assert (Hw23 : file_writes (fs wp) (<[d := File (Text T)]> (fs wp))).
  { apply file_writes_insert. by eapply check_writable_not_dir. }
  assert (Hw34 : file_writes (<[d := File (Text T)]> (fs wp)) f4)
    by by eapply ffmpeg_run_file_writes.
  assert (Hw41 : file_writes f4 (fs w1)).
  { rewrite Hfs. apply file_writes_insert. by eapply check_writable_not_dir. }
  assert (Hw21 : file_writes (fs wp) (fs w1)).
  { eapply file_writes_trans; [exact Hw23|].
    eapply file_writes_trans; [exact Hw34|exact Hw41]. }
  assert (Hpresent1 : assets_present (fs w1) a = true).
  { eapply (assets_present_mono (fs wp)).
    - intros q. by apply file_writes_isdir.
    - intros q. by apply file_writes_isfile.
    - eapply (assets_present_mono (fs w)); [| |exact Hpresent].
      + intros q. by apply adds_dirs_isdir.
      + intros q. by apply adds_dirs_isfile. }
  assert (Hdir1 : fs w1 !! b = Some Dir).
  { assert (Hb : path_isdir (fs w1) b = true).
    { apply (file_writes_isdir (fs wp)); [done|].
      unfold path_isdir. by rewrite Hdir. }
    revert Hb. unfold path_isdir. by destruct (fs w1 !! b) as [[|?]|]. }
  assert (Hwd1 : check_writable (fs w1) d = inr tt)
    by by eapply check_writable_file_writes.
  assert (Hid : <[d := File (Text T)]> (fs w1) = fs w1)
    by by apply insert_id.
  destruct (build_theme_again configuration w1 name description td b src
              animation fps a Hname Hdesc Htd Hbuild Hsrc Hanim Hfps Ha
              Hpresent1 Hdir1 Hwd1) as [Hstop Hgo].
  fold d sp video T in Hstop, Hgo. rewrite Hid in Hstop, Hgo.
  assert (Hdur : probed_duration configuration (fs w) = Some (duration st)).
  { unfold probed_duration, video_path. rewrite Hsrc, Hanim. cbn [py_str].
    fold video. by rewrite Hvideo0. }
  assert (Hothers : forall w' w1',
    build_theme configuration w' = Ok tt w1' ->
    probed_duration configuration (fs w')
    = probed_duration configuration (fs w) ->
    fs w1' !! d = fs w1 !! d /\ fs w1' !! sp = fs w1 !! sp).
  { intros w' w1' Hrun' Hsame.
    destruct (outputs_determined configuration w w1 w' w1' Hrun Hrun')
      as (d0 & s0 & ? & ? & ? & ? & ? & ? & ? & Hd0 & Hs0 & _ & _ & _ & _
          & _ & _ & _ & _ & Hdd & _ & Hss); [done|].
    unfold descriptor_path in Hd0. unfold script_path in Hs0.
    rewrite Hbuild, Hname in Hd0, Hs0. cbn [py_str] in Hd0, Hs0.
    injection Hd0 as E1. injection Hs0 as E2. rewrite <- E1 in Hdd.
    rewrite <- E2 in Hss. by split. }
  assert (Hpaths : descriptor_path configuration = Some d
                   /\ script_path configuration = Some sp).
  { unfold descriptor_path, script_path. by rewrite Hbuild, Hname. }
  destruct Hpaths as [Hdp Hspp].
  destruct (fs w1 !! video) as [[|[| |st1|]]|] eqn:Hv1.
  all: try (
    destruct Hstop as (e2 & w2 & Hrun2 & Hfs2); [done|];
    exists d, sp, name, description, td, fps, (duration st), t, n, w2;
    rewrite Hrun2; cbn [final_world]; rewrite Hfs2;
    do 14 (split; [done|]); split; [|exact Hothers];
    intros [x Hx]; revert Hx; unfold probed_duration, video_path;
    rewrite Hsrc, Hanim; cbn [py_str]; fold video; by rewrite Hv1).
  assert (Hst1 : st1 = st).
  { rewrite Hfs in Hv1.
    destruct (decide (sp = video)) as [E|Hne].
    - rewrite E, lookup_insert_eq in Hv1. done.
    - rewrite lookup_insert_ne in Hv1 by done.
      destruct (ffmpeg_run_lookup _ _ _ _ _ _ _ video Hff) as [E|E];
        rewrite E in Hv1; [congruence|done]. }
  subst st1.
  destruct (ffmpeg_run_again _ (fs w1) _ _ _ _ _ Hff) as (g & Hff1).
  { eapply file_writes_trans; [exact Hw34|exact Hw41]. }
  assert (Hwsp1 : check_writable g sp = inr tt).
  { eapply check_writable_file_writes; [exact Hwsp|].
    eapply file_writes_trans; [exact Hw41|].
    by eapply ffmpeg_run_file_writes. }
  destruct (Hgo st sf n g frames eq_refl Hest Hpct Hff1 Hwsp1)
    as (w2 & Hrun2 & Hfs2).
  exists d, sp, name, description, td, fps, (duration st), t, n, w2.
  rewrite Hrun2. cbn [final_world]. rewrite Hfs2.
  do 12 (split; [done|]).
  split.
  { rewrite lookup_insert_ne by done.
    by rewrite (ffmpeg_run_other _ _ _ _ _ _ _ d
                  ltac:(unfold d; by rewrite last_char_descriptor) Hff1). }
  split; [by rewrite lookup_insert_eq, Hs1|].
  split; [done|exact Hothers].
Qed.

End Properties.

(** * The sample run, and the statements at work on it *)

Lemma final_world_end_of {A} (r : result A) (otherwise : world) :
  returned r = true -> final_world r = Some (end_of r otherwise).
Proof. by destruct r. Qed.

Lemma returned_end_of (r : result unit) (otherwise : world) :
  returned r = true -> r = Ok tt (end_of r otherwise).
Proof. by destruct r as [[] w| | |]. Qed.

(** C5. On the sample environment, whose tool numbers a sequence from 1 as
    the ffmpeg image writer does by default, the run returns with an
    estimate of 250; the script loops over the indices 0 to 249 and so
    loads animation_frame_0.png first; the tool has written
    animation_frame_1.png to animation_frame_250.png. The first image the
    script loads does not exist, and the last image written is never
    loaded. *)
Theorem frame_numbering_mismatch :
  returned (sample_build_theme default_configuration sample_world) = true
  /\ final_world (sample_build_theme default_configuration sample_world)
     = Some sample_final
  /\ fs sample_final !! "./build/custom.script"
     = Some (File (Text
         ("for (i = 0; i < 250; i++)" +:+ nl
          +:+ "   animation_image[i] = Image(" +:+ dq +:+ "animation_frame_"
          +:+ dq +:+ " + i + " +:+ dq +:+ ".png" +:+ dq +:+ ");" +:+ nl
          +:+ "animation_sprite = Sprite();" +:+ nl +:+ nl
          +:+ "animation_sprite.SetX(Window.GetWidth() / 2 - animation_image[0].GetWidth() / 2);"
          +:+ nl
          +:+ "animation_sprite.SetY(Window.GetHeight() / 2 - animation_image[0].GetHeight() / 2);"
          +:+ nl)))
  /\ head (script_loads 250) = Some "animation_frame_0.png"
  /\ last (script_loads 250) = Some "animation_frame_249.png"
  /\ filter (fun e => is_ffmpeg e = true) (trace sample_final)
     = [RunFfmpeg "./source/animation.mp4" "./build/animation_frame_%d.png"
          (map (frame_path "./build") (seqZ 1 250))]
  /\ fs sample_final !! frame_path "./build" 0 = None
  /\ fs sample_final !! frame_path "./build" 250 = Some (File Image)
  /\ forallb (fun k => path_isfile (fs sample_final)
                                   (frame_path "./build" k)) (seqZ 1 250)
     = true.
Proof.
  split; [vm_compute; reflexivity|].
  split; [apply final_world_end_of; vm_compute; reflexivity|].
  repeat split; vm_compute; reflexivity.
Qed.

Lemma triple_eta {A B} (r : A * B * bool) :
  snd r = true -> r = (fst (fst r), snd (fst r), true).
Proof. destruct r as [[a b] []]; [done|discriminate]. Qed.

(** The ten-second clip of 300 frames at 25 frames per second: the rate
    printed is 30, the count 250. *)
Lemma extract_frames_count_witness :
  exists w',
    @extract_frames_from_video sample_tools "./source/animation.mp4"
      (VStr "./source") (VInt 25) sample_world
    = Ok (VInt 250) w'
    /\ In (Print "Input video duration = <repr> seconds @ 30 fps")
         (trace w')
    /\ In (Print "The result should be 250 images") (trace w').
Proof.
  destruct (@extract_frames_count sample_tools "./source/animation.mp4"
              (VStr "./source") 25 sample_world sample_video)
    as (_ & Hreturns & _).
  - vm_compute; reflexivity.
  - vm_compute; reflexivity.
  - edestruct Hreturns
      as (q & rate & w' & _ & _ & _ & Hrun & _ & Htrace & _ & _ & Hint).
    + simpl; lia.
    + vm_compute; reflexivity.
    + vm_compute; reflexivity.
    + apply triple_eta. vm_compute; reflexivity.
    + assert (Hrate : rate = 30) by (apply Hint; vm_compute; reflexivity).
      subst rate. exists w'. split; [exact Hrun|].
      rewrite Htrace. split.
      * apply in_or_app. right. right. left. vm_compute; reflexivity.
      * apply in_or_app. right. do 3 right. left. vm_compute; reflexivity.
Defined.

(** The exception in [extract_frames_count] is met: the double nearest to
    0.1 is above 0.1, so the exact quotient of 3 by it is below 30, with
    floor 29; the division on doubles rounds it to 30.0 and the rate is
    30, as in Python, where [int(3 / 0.1)] is 30. *)
Example rate_at_rounding_edge :
  Float.int_truediv 3 tenth_second
  = inr (S754_finite false 8444249301319680 (-48))
  /\ Float.to_int (S754_finite false 8444249301319680 (-48)) = inr 30
  /\ Qfloor (inject_Z 3 / Float.to_Q tenth_second) = 29.
Proof. repeat split; vm_compute; reflexivity. Qed.

(** One image missing: the run stops in validation. *)
Lemma missing_asset_no_output_witness :
  exists w',
    sample_build_theme default_configuration lockless_world = SysExit (-1) w'
    /\ fs w' = fs lockless_world.
Proof.
  destruct (@missing_asset_no_output sample_tools default_configuration
              sample_assets lockless_world)
    as (w' & l & Hrun & _ & Hfs & _).
  - vm_compute; reflexivity.
  - vm_compute; reflexivity.
  - exists w'. split; [exact Hrun|exact Hfs].
Defined.

(** No source directory at all. *)
Lemma missing_asset_exit_code_witness :
  exists w',
    sample_build_theme default_configuration empty_world = SysExit (-1) w'.
Proof.
  destruct (@missing_asset_exit_code sample_tools default_configuration
              sample_assets empty_world)
    as (_ & w' & _ & Hrun & _).
  - vm_compute; reflexivity.
  - vm_compute; reflexivity.
  - exists w'. exact Hrun.
Defined.

(** C4, as stated, fails. With every asset in place and a regular file at
    ./build, validation has run to its end and printed its seven lines
    before the build path is looked at; with an image missing as well, the
    run ends inside validation, on the message about the image, and the
    build path is never looked at. *)
Lemma build_path_checked_after_validation :
  path_isfile (fs blocked_world) "./build" = true
  /\ (exists w1,
        @check_input_assets sample_tools default_configuration blocked_world
        = Ok tt w1
        /\ trace w1
           = [Print "File './source/animation.mp4' available";
              Print "File './source/box.png' available";
              Print "File './source/entry.png' available";
              Print "File './source/bullet.png' available";
              Print "File './source/lock.png' available";
              Print "File './source/progress_box.png' available";
              Print "File './source/progress_bar.png' available"]
        /\ sample_build_theme default_configuration blocked_world
           = SysExit (-1)
               (add_trace w1
                  [Print "The specified build path './build' is a file"]))
  /\ path_isfile (fs blocked_lockless_world) "./build" = true
  /\ option_map trace
       (final_world
          (sample_build_theme default_configuration blocked_lockless_world))
     = Some
         [Print "File './source/animation.mp4' available";
          Print "File './source/box.png' available";
          Print "File './source/entry.png' available";
          Print "File './source/bullet.png' available";
          Print "The file './source/lock.png' doesn't exists or is not a valid file"].
Proof.
  split; [vm_compute; reflexivity|].
  split; [|split; vm_compute; reflexivity].
  eexists. split; [vm_compute; reflexivity|].
  split; vm_compute; reflexivity.
Qed.

Lemma build_path_conflict_witness :
  exists w',
    final_world (sample_build_theme default_configuration blocked_world)
    = Some w'
    /\ fs w' = fs blocked_world.
Proof.
  destruct (@build_path_conflict sample_tools default_configuration
              "./source" "./build" blocked_world)
    as (w' & l & Hfinal & Hfs & _).
  - vm_compute; reflexivity.
  - vm_compute; reflexivity.
  - vm_compute; reflexivity.
  - exists w'. split; [exact Hfinal|exact Hfs].
Defined.

(** C3, as stated, fails: in the sample run the descriptor is opened and
    written before the video tool runs. *)
Lemma descriptor_written_before_extraction :
  returned (sample_build_theme default_configuration sample_world) = true
  /\ descriptor_path (H := sample_tools) default_configuration
     = Some "./build/custom.plymouth"
  /\ precedes (writes_to "./build/custom.plymouth") is_ffmpeg
       (trace sample_final) = true
  /\ precedes is_ffmpeg (writes_to "./build/custom.plymouth")
       (trace sample_final) = false.
Proof. repeat split; vm_compute; reflexivity. Qed.

Lemma descriptor_contents_witness :
  @load_configuration false "config.json" foo_world
  = Ok (<[ "name" := VStr "foo" ]> default_configuration) foo_world
  /\ exists w',
       @write_plymouth_file sample_tools
         (<[ "name" := VStr "foo" ]> default_configuration) foo_world
       = Ok tt w'
       /\ fs w' !! "./build/foo.plymouth"
          = Some (File (Text
              ("[Plymouth Theme]" +:+ nl
               +:+ "Name=foo" +:+ nl
               +:+ "Description=A custom theme for Plymouth" +:+ nl
               +:+ "ModuleName=script" +:+ nl +:+ nl
               +:+ "[script]" +:+ nl
               +:+ "ImageDir=/usr/share/plymouth/themes/foo" +:+ nl
               +:+ "ScriptFile=/usr/share/plymouth/themes/foo/foo.script"
               +:+ nl))).
Proof.
  destruct (proj2 (@descriptor_contents sample_tools) false "config.json"
              foo_world)
    as (Hload & _ & Hwrite).
  - vm_compute; reflexivity.
  - split; [exact Hload|]. apply Hwrite. vm_compute; reflexivity.
Defined.

(** The whole run with the user file that only renames the theme. *)
Example foo_run_descriptor :
  returned (sample_main "generate.py" [] foo_world) = true
  /\ fs (end_of (sample_main "generate.py" [] foo_world) foo_world)
       !! "./build/foo.plymouth"
     = Some (File (Text
         ("[Plymouth Theme]" +:+ nl
          +:+ "Name=foo" +:+ nl
          +:+ "Description=A custom theme for Plymouth" +:+ nl
          +:+ "ModuleName=script" +:+ nl +:+ nl
          +:+ "[script]" +:+ nl
          +:+ "ImageDir=/usr/share/plymouth/themes/foo" +:+ nl
          +:+ "ScriptFile=/usr/share/plymouth/themes/foo/foo.script"
          +:+ nl))).
Proof. split; vm_compute; reflexivity. Qed.

(** Two runs in a row on the sample world. *)
Lemma rerun_identical_witness :
  returned (sample_build_theme default_configuration sample_final) = true
  /\ fs sample_second_final !! "./build/custom.plymouth"
     = fs sample_final !! "./build/custom.plymouth"
  /\ fs sample_second_final !! "./build/custom.script"
     = fs sample_final !! "./build/custom.script".
Proof.
  destruct (@rerun_identical sample_tools default_configuration
              sample_world sample_final)
    as (d & s & name & description & td & fps & dur & t & n & w2
        & Hd & Hs & _ & _ & _ & _ & _ & _ & _ & _ & _ & Hfinal & Hd2 & Hs2
        & Hok & _).
  - apply returned_end_of. vm_compute; reflexivity.
  - injection Hd as <-. injection Hs as <-.
    split; [vm_compute; reflexivity|].
    unfold sample_second_final, end_of, sample_build_theme. rewrite Hfinal.
    split; [exact Hd2|exact Hs2].
Defined.

Lemma exit_code_mapping_witness :
  (exists w', prepare_build_directory (VStr "./build") blocked_world
              = SysExit (-1) w')
  /\ (exists w', sample_build_theme default_configuration blocked_world
                 = SysExit (-1) w')
  /\ (exists w', sample_main "generate.py" ["-x"] sample_world
                 = SysExit 1 w')
  /\ (exists w', sample_main "generate.py" ["-c"; "absent.json"] sample_world
                 = SysExit 2 w')
  /\ (exists w', sample_main "generate.py" [] sample_world
                 = sample_build_theme default_configuration w').
Proof.
  destruct (@exit_code_mapping sample_tools)
    as (Hprep & Hbuild & Hflag & Hunrec & Hcustom & Hdefault).
  split.
  { eexists. apply Hprep. vm_compute; reflexivity. }
  split.
  { eexists. apply (Hbuild default_configuration "./build" blocked_world
                      (add_trace blocked_world
                         [Print "File './source/animation.mp4' available";
                          Print "File './source/box.png' available";
                          Print "File './source/entry.png' available";
                          Print "File './source/bullet.png' available";
                          Print "File './source/lock.png' available";
                          Print "File './source/progress_box.png' available";
                          Print "File './source/progress_bar.png' available"]));
      vm_compute; reflexivity. }
  split.
  { eexists. apply Hflag. apply Hunrec; discriminate. }
  split.
  { eexists. apply (Hcustom "generate.py" ["-c"; "absent.json"]
                      [("-c", "absent.json")] [] "absent.json" sample_world);
      vm_compute; reflexivity. }
  eexists. apply (Hdefault "generate.py" [] [] [] "config.json" sample_world);
    vm_compute; reflexivity.
Defined.

Lemma shallow_merge_witness :
  exists configuration,
    @load_configuration false "config.json" partial_dialog_world
    = Ok configuration partial_dialog_world
    /\ lookup_in (configuration !! "dialog") "box" = Some (VStr "frame.png")
    /\ lookup_in (configuration !! "dialog") "entry" = None
    /\ lookup_in (default_configuration !! "dialog") "entry"
       = Some (VStr "entry.png").
Proof.
  destruct (shallow_merge false "config.json"
              {[ "dialog" := VDict one_entry_dialog ]} partial_dialog_world
              "dialog" (VDict one_entry_dialog))
    as (configuration & Hload & _ & _ & Hnested & _).
  - vm_compute; reflexivity.
  - vm_compute; reflexivity.
  - exists configuration. split; [exact Hload|].
    rewrite !Hnested. repeat split; vm_compute; reflexivity.
Defined.

(** The whole run with that user file: the dialog box is found, the entry
    image has no name any more. *)
Example partial_dialog_run :
  option_map trace
    (final_world (sample_main "generate.py" [] partial_dialog_world))
  = Some [Print "File './source/animation.mp4' available";
          Print "File './source/frame.png' available"]
  /\ exists w',
       sample_main "generate.py" [] partial_dialog_world
       = Uncaught (KeyError "entry") w'.
Proof. split; [vm_compute; reflexivity|]. eexists. vm_compute; reflexivity. Qed.

(** * Further properties of the program *)

Section Coverage.

Context `{External}.

(** ** Validation *)

Lemma check_files_all files :
  forall w, forallb (path_isfile (fs w)) files = true ->
    check_files files w
    = Ok tt (add_trace w
               (map (fun p => Print ("File '" +:+ p +:+ "' available")) files)).
Proof.
  induction files as [|p files IH]; intros w Hall.
  - cbn. unfold ret. by rewrite add_trace_nil.
  - cbn in Hall. apply andb_true_iff in Hall as [Hp Hall].
    cbn [check_files]. unfold bind at 1. rewrite check_file_exists_eq, Hp.
    rewrite IH by done. by rewrite add_trace_add_trace.
Qed.

Lemma check_files_first_missing pre p post :
  forall w, forallb (path_isfile (fs w)) pre = true ->
    path_isfile (fs w) p = false ->
    check_files (pre ++ p :: post) w
    = SysExit (-1)
        (add_trace w
           (map (fun p => Print ("File '" +:+ p +:+ "' available")) pre
            ++ [Print ("The file '" +:+ p
                       +:+ "' doesn't exists or is not a valid file")])).
Proof.
  induction pre as [|q pre IH]; intros w Hall Hp.
  - cbn [app check_files map]. unfold bind. by rewrite check_file_exists_eq, Hp.
  - cbn in Hall. apply andb_true_iff in Hall as [Hq Hall].
    cbn [app check_files map]. unfold bind at 1.
    rewrite check_file_exists_eq, Hq.
    rewrite IH by done. by rewrite add_trace_add_trace.
Qed.

(** X1. When the configuration names every asset, validation returns
    exactly when the source path is a directory and each of the seven
    paths is a regular file (a directory in the place of an image is
    refused); it has then printed one line per file, in the order of the
    checks, and nothing else has happened. *)
Theorem validation_accepts :
  forall (configuration : dict) (src : string) (files : list string)
         (w w' : world),
    asset_paths configuration = Some (src, files) ->
    check_input_assets configuration w = Ok tt w'
    <-> (path_isdir (fs w) src = true
         /\ forallb (path_isfile (fs w)) files = true
         /\ w' = add_trace w
                   (map (fun q => Print ("File '" +:+ q +:+ "' available"))
                      files)).
Proof.
  intros configuration src files w w' Ha.
  rewrite (check_input_assets_eq _ _ _ _ Ha).
  destruct (path_isdir (fs w) src) eqn:Hsrc.
  - destruct (forallb (path_isfile (fs w)) files) eqn:Hall.
    + rewrite check_files_all by done. split.
      * intros [= <-]. done.
      * intros (_ & _ & ->). done.
    + split; [|intros (_ & ? & _); done].
      destruct (check_files_spec files w) as (l & _ & E).
      rewrite Hall in E. by rewrite E.
  - split; [done|]. intros (? & _); done.
Qed.

(** X2. Validation stops at the first file that is missing, in the order
    of the checks: the files before it are reported available, it is
    reported missing, nothing is said about the files after it, and the
    run ends there with [sys.exit(-1)]. *)
Theorem validation_reports_first_missing :
  forall (configuration : dict) (src : string) (pre : list string)
         (p : string) (post : list string) (w : world),
    asset_paths configuration = Some (src, pre ++ p :: post) ->
    path_isdir (fs w) src = true ->
    forallb (path_isfile (fs w)) pre = true ->
    path_isfile (fs w) p = false ->
    let stop :=
      SysExit (-1)
        (add_trace w
           (map (fun q => Print ("File '" +:+ q +:+ "' available")) pre
            ++ [Print ("The file '" +:+ p
                       +:+ "' doesn't exists or is not a valid file")])) in
    check_input_assets configuration w = stop
    /\ build_theme configuration w = stop.
Proof.
  intros configuration src pre p post w Ha Hsrc Hpre Hp stop.
  assert (E : check_input_assets configuration w = stop).
  { rewrite (check_input_assets_eq _ _ _ _ Ha), Hsrc.
    by apply check_files_first_missing. }
  split; [done|].
  rewrite build_theme_validation_stops; [done|].
  intros w1. by rewrite E.
Qed.

(** ** How the functions of the pipeline can stop *)

Lemma stops_bind {A B} E C (m : M A) (k : A -> M B) :
  stops_with E C m -> (forall a, stops_with E C (k a)) ->
  stops_with E C (bind m k).
Proof.
  intros Hm Hk w. unfold bind. specialize (Hm w).
  destruct (m w) as [a w1| | |]; try done. apply Hk.
Qed.

Lemma stops_ret {A} E C (a : A) : stops_with E C (ret a).
Proof. by intros w. Qed.

Lemma stops_raise {A} (E : exn -> Prop) C e : E e -> stops_with E C (@raise A e).
Proof. by intros He w. Qed.

Lemma stops_sys_exit {A} E (C : Z -> Prop) c :
  C c -> stops_with E C (@sys_exit A c).
Proof. by intros Hc w. Qed.

Lemma stops_unmodelled {A} E C : stops_with E C (@unmodelled A).
Proof. by intros w. Qed.

Lemma stops_lift {A} (E : exn -> Prop) C (r : exn + A) :
  (forall e, r = inl e -> E e) -> stops_with E C (lift r).
Proof. intros He w. destruct r as [e|a]; cbn; [by apply He|done]. Qed.

Lemma stops_get_fs E C : stops_with E C get_fs.
Proof. by intros w. Qed.

Lemma stops_put_fs E C f : stops_with E C (put_fs f).
Proof. by intros w. Qed.

Lemma stops_emit E C e : stops_with E C (emit e).
Proof. by intros w. Qed.

Lemma stops_print E C line : stops_with E C (print line).
Proof. by intros w. Qed.

Lemma stops_getitem (E : exn -> Prop) C (d : dict) key :
  (d !! key = None -> E (KeyError key)) -> stops_with E C (getitem d key).
Proof. intros He w. unfold getitem. destruct (d !! key); [done|by apply He]. Qed.

Lemma stops_bind_getitem {B} (E : exn -> Prop) C (d : dict) key
    (k : value -> M B) :
  (d !! key = None -> E (KeyError key)) ->
  (forall v, d !! key = Some v -> stops_with E C (k v)) ->
  stops_with E C (bind (getitem d key) k).
Proof.
  intros He Hk w. unfold bind, getitem.
  destruct (d !! key) as [v|] eqn:E1; cbn; [by apply Hk|by apply He].
Qed.

Lemma stops_subscript (E : exn -> Prop) C v key :
  E TypeError -> E (KeyError key) -> stops_with E C (subscript v key).
Proof.
  intros Ht Hk. destruct v; cbn; try by apply stops_raise.
  by apply stops_getitem.
Qed.

Lemma stops_as_path (E : exn -> Prop) C v :
  E TypeError -> stops_with E C (as_path v).
Proof.
  intros Ht. destruct v; cbn;
    first [by apply stops_raise | apply stops_unmodelled | apply stops_ret].
Qed.

Lemma stops_mono {A} (E E' : exn -> Prop) (C C' : Z -> Prop) (m : M A) :
  (forall e, E e -> E' e) -> (forall c, C c -> C' c) ->
  stops_with E C m -> stops_with E' C' m.
Proof.
  intros HE HC Hm w. specialize (Hm w). destruct (m w); auto.
Qed.

Ltac stops_step :=
  first
    [ match goal with
      | |- stops_with _ _ (bind _ _) => apply stops_bind; [|intros ?]
      | |- stops_with _ _ (if ?b then _ else _) => destruct b
      | |- stops_with _ _ (let '(_, _) := ?x in _) => destruct x
      end
    | apply stops_print | apply stops_emit | apply stops_get_fs
    | apply stops_put_fs | apply stops_ret | apply stops_unmodelled ].

Ltac stops_steps := repeat stops_step.

Lemma stops_check_file_exists E (C : Z -> Prop) path :
  C (-1) -> stops_with E C (check_file_exists path).
Proof.
  intros Hc. unfold check_file_exists. stops_steps. by apply stops_sys_exit.
Qed.

(** The functions of the pipeline, for a set of exceptions that holds the
    plain ones and the failed lookups that can happen, and a set of exit
    codes that holds -1. *)
Section Stops.

Variable E : exn -> Prop.
Variable C : Z -> Prop.
Variable configuration : dict.
Hypothesis exit_minus_one : C (-1).
Hypothesis plain_allowed : forall e, plain_error e = true -> E e.
Hypothesis top_key_allowed :
  forall k, In k top_keys -> configuration !! k = None -> E (KeyError k).
Hypothesis nested_key_allowed :
  forall k, In k nested_keys -> E (KeyError k).

Lemma stops_check_input_assets :
  stops_with E C (check_input_assets configuration).
Proof.
  unfold check_input_assets.
  repeat first
    [ apply stops_check_file_exists; exact exit_minus_one
    | apply stops_sys_exit; exact exit_minus_one
    | apply stops_as_path; by apply plain_allowed
    | apply stops_getitem; apply top_key_allowed; cbn; tauto
    | apply stops_subscript;
        [by apply plain_allowed|apply nested_key_allowed; cbn; tauto]
    | stops_step ].
Qed.

Lemma mkdir_parents_error ds :
  forall r e, fold_left mkdir_parent ds r = inl e ->
    r = inl e \/ e = NotADirectoryError.
Proof.
  induction ds as [|d ds IH]; intros r e; cbn; [by left|].
  intros Hf. destruct (IH _ _ Hf) as [E1|E1]; [|by right].
  destruct r as [e0|f]; [by left|]. cbn in E1.
  destruct (f !! d) as [[|c]|]; try done. injection E1 as <-. by right.
Qed.

Lemma fs_makedirs_plain f p e :
  fs_makedirs f p = inl e -> plain_error e = true.
Proof.
  unfold fs_makedirs. destruct p as [|c p']; [by intros [= <-]|].
  destruct (fold_left mkdir_parent _ (inr f)) as [e1|f1] eqn:E1.
  - intros [= <-]. by destruct (mkdir_parents_error _ _ _ E1) as [ | ->].
  - destruct (f1 !! _); [by intros [= <-]|done].
Qed.

Lemma check_writable_plain f p e :
  check_writable f p = inl e -> plain_error e = true.
Proof.
  unfold check_writable.
  destruct (f !! p) as [[|c]|]; [by intros [= <-]|..];
    (destruct (parent_dir p) as [[|a d]|]; [done| |done];
     destruct (f !! String a d) as [[|c']|]; [done|by intros [= <-]..]).
Qed.

Lemma to_int_plain x e : Float.to_int x = inl e -> plain_error e = true.
Proof. destruct x; cbn; try done; by intros [= <-]. Qed.

Lemma of_int_plain n e : Float.of_int n = inl e -> plain_error e = true.
Proof.
  unfold Float.of_int. destruct (binary_normalize _ _ _ _ _); try done.
  by intros [= <-].
Qed.

Lemma int_truediv_plain n t e :
  Float.int_truediv n t = inl e -> plain_error e = true.
Proof.
  unfold Float.int_truediv. destruct (Float.of_int n) as [e1|x] eqn:E1.
  - intros [= <-]. by apply of_int_plain in E1.
  - destruct (Float.is_zero t); [by intros [= <-]|done].
Qed.

Lemma py_mul_int_plain n v e :
  py_mul_int n v = inl e -> plain_error e = true.
Proof.
  destruct v; cbn; try done; try by intros [= <-].
  destruct (Float.of_int n) as [e1|x] eqn:E1; [|done].
  intros [= <-]. by apply of_int_plain in E1.
Qed.

Lemma stops_prepare_build_directory path :
  stops_with E C (prepare_build_directory path).
Proof.
  unfold prepare_build_directory, makedirs.
  apply stops_bind; [apply stops_as_path; by apply plain_allowed|intros p].
  apply stops_bind; [apply stops_get_fs|intros f].
  destruct (path_exists f p); [destruct (path_isfile f p)|].
  - stops_steps. by apply stops_sys_exit.
  - apply stops_print.
  - apply stops_bind; [|intros ?; apply stops_print].
    apply stops_bind; [apply stops_get_fs|intros f1].
    destruct (fs_makedirs f1 p) as [e|f2] eqn:Em; [|stops_steps].
    apply stops_raise. apply plain_allowed. by apply fs_makedirs_plain in Em.
Qed.

Lemma stops_open_w p : stops_with E C (open_w p).
Proof.
  unfold open_w, fs_write.
  apply stops_bind; [apply stops_get_fs|intros f].
  destruct (check_writable f p) as [e|[]] eqn:Hw; [|stops_steps].
  apply stops_raise. apply plain_allowed. by apply check_writable_plain in Hw.
Qed.

Lemma stops_write_close p text : stops_with E C (write_close p text).
Proof. unfold write_close. stops_steps. Qed.

Lemma stops_write_plymouth_file :
  stops_with E C (write_plymouth_file configuration).
Proof.
  unfold write_plymouth_file.
  repeat first
    [ apply stops_open_w | apply stops_write_close
    | apply stops_getitem; apply top_key_allowed; cbn; tauto
    | stops_step ].
Qed.

Lemma stops_write_plymouth_script frame_count :
  stops_with E C (write_plymouth_script configuration frame_count).
Proof.
  unfold write_plymouth_script.
  repeat first
    [ apply stops_open_w | apply stops_write_close
    | apply stops_getitem; apply top_key_allowed; cbn; tauto
    | stops_step ].
Qed.

Lemma stops_extract_frames_from_video video output_path fps :
  E FfmpegError -> E (KeyError "duration") ->
  stops_with E C (extract_frames_from_video video output_path fps).
Proof.
  intros Hf Hk. unfold extract_frames_from_video, probe, resample.
  repeat first
    [ apply stops_raise; first [exact Hf | exact Hk]
    | apply stops_lift; intros e He; apply plain_allowed;
        first [ by apply int_truediv_plain in He
              | by apply to_int_plain in He
              | by apply py_mul_int_plain in He ]
    | stops_step
    | match goal with
      | |- stops_with _ _ (match ?x with _ => _ end) => destruct x
      end ].
Qed.

Lemma stops_build_theme :
  E FfmpegError -> E (KeyError "duration") ->
  stops_with E C (build_theme configuration).
Proof.
  intros Hf Hk. unfold build_theme.
  repeat first
    [ apply stops_check_input_assets | apply stops_prepare_build_directory
    | apply stops_write_plymouth_file | apply stops_write_plymouth_script
    | apply stops_extract_frames_from_video; [exact Hf|exact Hk]
    | apply stops_getitem; apply top_key_allowed; cbn; tauto
    | stops_step ].
Qed.

End Stops.

(** ** What the functions of the pipeline do to the file system *)

Lemma changes_within_refl D A f : changes_within D A f f.
Proof. intros q. by left. Qed.

Lemma changes_within_trans D A f1 f2 f3 :
  changes_within D A f1 f2 -> changes_within D A f2 f3 ->
  changes_within D A f1 f3.
Proof.
  intros H12 H23 q.
  destruct (H23 q) as [E|[(Hd & Hn & E)|(Ha & Hn & c & E)]].
  - rewrite E. apply H12.
  - destruct (H12 q) as [E1|[(_ & _ & E1)|(_ & _ & c & E1)]]; [|congruence..].
    right; left. rewrite <- E1. done.
  - right; right. split; [done|]. split; [|by exists c].
    destruct (H12 q) as [E1|[(_ & _ & E1)|(_ & Hn1 & _)]];
      [congruence|congruence|done].
Qed.

Lemma changes_within_mono (D D' A A' : string -> Prop) f f' :
  (forall q, D q -> D' q) -> (forall q, A q -> A' q) ->
  changes_within D A f f' -> changes_within D' A' f f'.
Proof.
  intros HD HA Hc q.
  destruct (Hc q) as [E|[(Hd & ?)|(Ha & ?)]]; [by left|right; left|right; right];
    split; auto.
Qed.

Lemma changes_within_isfile D A f f' q :
  changes_within D A f f' -> path_isfile f q = true -> path_isfile f' q = true.
Proof.
  intros Hc. unfold path_isfile.
  destruct (Hc q) as [->|[(_ & -> & _)|(_ & _ & c & ->)]]; done.
Qed.

Lemma changes_within_isdir D A f f' q :
  changes_within D A f f' -> path_isdir f q = true -> path_isdir f' q = true.
Proof.
  intros Hc. unfold path_isdir.
  destruct (Hc q) as [->|[(_ & -> & _)|(_ & Hn & c & ->)]]; try done.
  by destruct (f !! q) as [[]|].
Qed.

Section Confined.

Variable R : filesystem -> filesystem -> Prop.
Hypothesis R_refl : forall f, R f f.
Hypothesis R_trans : forall f1 f2 f3, R f1 f2 -> R f2 f3 -> R f1 f3.

Lemma confined_reads {A} (m : M A) :
  (forall w w', final_world (m w) = Some w' -> fs w' = fs w) -> confined R m.
Proof. intros Hm w w' Hw. rewrite (Hm _ _ Hw). apply R_refl. Qed.

Lemma confined_bind {A B} (m : M A) (k : A -> M B) :
  confined R m -> (forall a, confined R (k a)) -> confined R (bind m k).
Proof.
  intros Hm Hk w w'. unfold bind. specialize (Hm w).
  destruct (m w) as [a w1|c w1|e w1|]; cbn; try done.
  - intros Hw. apply (R_trans _ (fs w1)); [by apply Hm|by apply (Hk a w1)].
  - intros [= <-]. by apply Hm.
  - intros [= <-]. by apply Hm.
Qed.

Lemma confined_bind_getitem {B} (d : dict) key (k : value -> M B) :
  (forall v, d !! key = Some v -> confined R (k v)) ->
  confined R (bind (getitem d key) k).
Proof.
  intros Hk w w'. unfold bind, getitem.
  destruct (d !! key) as [v|] eqn:E; cbn.
  - by apply Hk.
  - intros [= <-]. apply R_refl.
Qed.

Lemma confined_ret {A} (a : A) : confined R (ret a).
Proof. apply confined_reads. by intros w w' [= <-]. Qed.

Lemma confined_raise {A} e : confined R (@raise A e).
Proof. apply confined_reads. by intros w w' [= <-]. Qed.

Lemma confined_sys_exit {A} c : confined R (@sys_exit A c).
Proof. apply confined_reads. by intros w w' [= <-]. Qed.

Lemma confined_unmodelled {A} : confined R (@unmodelled A).
Proof. by intros w w'. Qed.

Lemma confined_lift {A} (r : exn + A) : confined R (lift r).
Proof. destruct r; [apply confined_raise|apply confined_ret]. Qed.

Lemma confined_get_fs : confined R get_fs.
Proof. apply confined_reads. by intros w w' [= <-]. Qed.

Lemma confined_emit e : confined R (emit e).
Proof. apply confined_reads. by intros w w' [= <-]. Qed.

Lemma confined_getitem d key : confined R (getitem d key).
Proof.
  unfold getitem. destruct (d !! key); [apply confined_ret|apply confined_raise].
Qed.

Lemma confined_subscript v key : confined R (subscript v key).
Proof.
  destruct v; cbn; try apply confined_raise. apply confined_getitem.
Qed.

Lemma confined_as_path v : confined R (as_path v).
Proof.
  destruct v; cbn;
    first [apply confined_raise | apply confined_unmodelled | apply confined_ret].
Qed.

End Confined.

Ltac confined_steps Hrefl Htrans :=
  repeat first
    [ apply (confined_bind _ Htrans); [|intros ?]
    | apply (confined_getitem _ Hrefl) | apply (confined_subscript _ Hrefl)
    | apply (confined_as_path _ Hrefl) | apply (confined_lift _ Hrefl)
    | apply (confined_get_fs _ Hrefl) | apply (confined_emit _ Hrefl)
    | apply (confined_ret _ Hrefl) | apply (confined_raise _ Hrefl)
    | apply (confined_sys_exit _ Hrefl) | apply confined_unmodelled
    | match goal with
      | |- confined _ (print _) => apply (confined_emit _ Hrefl)
      | |- confined _ (if ?b then _ else _) => destruct b
      end ].

Lemma eq_fs_refl (f : filesystem) : f = f.
Proof. done. Qed.

Lemma eq_fs_trans (f1 f2 f3 : filesystem) : f1 = f2 -> f2 = f3 -> f1 = f3.
Proof. congruence. Qed.

Lemma confined_check_file_exists path : confined eq (check_file_exists path).
Proof.
  unfold check_file_exists. confined_steps eq_fs_refl eq_fs_trans.
Qed.

Lemma confined_check_input_assets configuration :
  confined eq (check_input_assets configuration).
Proof.
  unfold check_input_assets.
  repeat first
    [ apply confined_check_file_exists
    | progress (confined_steps eq_fs_refl eq_fs_trans) ].
Qed.

(** X3. Validation only looks and prints: whatever the configuration and
    whatever way [check_input_assets] ends, the file system is the one it
    started in and the only effects are printed lines. *)
Theorem validation_read_only :
  forall (configuration : dict) (w w' : world),
    final_world (check_input_assets configuration w) = Some w' ->
    fs w' = fs w
    /\ exists l, trace w' = trace w ++ l /\ forallb is_print l = true.
Proof.
  intros configuration w w' Hw. split.
  - symmetry. by apply (confined_check_input_assets configuration).
  - destruct (emits_check_input_assets configuration w w' Hw)
      as (l & Hl & Hp).
    exists l. split; [done|]. by apply in_phases_one.
Qed.

(** *** Directories *)

Lemma ancestors_shorter p :
  forall d, In d (ancestors p) -> (String.length d < String.length p)%nat.
Proof.
  induction p as [|c rest IH]; intros d; cbn [ancestors]; [done|].
  rewrite in_app_iff, in_map_iff. intros [Hd|(d' & <- & Hd')].
  - destruct rest as [|c' rest']; [done|].
    destruct (Ascii.eqb_spec c' "/") as [->|Hne].
    + destruct Hd as [<-|[]]. cbn. lia.
    + destruct c' as [[] [] [] [] [] [] [] []]; try done.
  - cbn. apply IH in Hd'. lia.
Qed.

Lemma mkdir_parents_within ds :
  forall f f', fold_left mkdir_parent ds (inr f) = inr f' ->
    forall q, f' !! q = f !! q
              \/ (In q ds /\ f !! q = None /\ f' !! q = Some Dir).
Proof.
  induction ds as [|d ds IH]; intros f f' Hf q; cbn in Hf.
  - injection Hf as <-. by left.
  - destruct (f !! d) as [[|c]|] eqn:Ed.
    + destruct (IH _ _ Hf q) as [E|(Hin & Hn & E)]; [by left|].
      right. by split; [right|].
    + by rewrite mkdir_parents_inl in Hf.
    + destruct (IH _ _ Hf q) as [E|(Hin & Hn & E)].
      * destruct (decide (q = d)) as [->|Hne].
        -- right. rewrite E, lookup_insert_eq. by split; [left|].
        -- left. by rewrite E, lookup_insert_ne.
      * destruct (decide (q = d)) as [->|Hne].
        -- by rewrite lookup_insert_eq in Hn.
        -- rewrite lookup_insert_ne in Hn by done. right. by split; [right|].
Qed.

Lemma mkdir_parents_dirs ds :
  forall f f', fold_left mkdir_parent ds (inr f) = inr f' ->
    forall d, In d ds -> f' !! d = Some Dir.
Proof.
  induction ds as [|d0 ds IH]; intros f f' Hf d Hd; [done|].
  cbn in Hf. destruct Hd as [->|Hd].
  - destruct (f !! d) as [[|c]|] eqn:Ed.
    + apply mkdir_parents_adds in Hf. by apply (adds_dirs_dir _ _ _ Hf).
    + by rewrite mkdir_parents_inl in Hf.
    + apply mkdir_parents_adds in Hf. apply (adds_dirs_dir _ _ _ Hf).
      by rewrite lookup_insert_eq.
  - destruct (f !! d0) as [[|c]|] eqn:Ed.
    + by apply (IH _ _ Hf).
    + by rewrite mkdir_parents_inl in Hf.
    + by apply (IH _ _ Hf).
Qed.

Lemma fs_makedirs_within f p f' :
  fs_makedirs f p = inr f' ->
  (forall q, f' !! q = f !! q
             \/ (path_or_ancestor p q /\ f !! q = None /\ f' !! q = Some Dir))
  /\ (forall d, path_or_ancestor p d -> f' !! d = Some Dir).
Proof.
  unfold fs_makedirs. destruct p as [|c p']; [done|]. set (p := String c p').
  destruct (fold_left mkdir_parent (ancestors p) (inr f)) as [e|f1] eqn:E1;
    [done|].
  destruct (f1 !! p) eqn:E2; [done|]. intros [= <-]. split.
  - intros q. destruct (mkdir_parents_within _ _ _ E1 q) as [E|(Hin & Hn & E)].
    + destruct (decide (q = p)) as [->|Hne].
      * right. rewrite lookup_insert_eq. split; [by left|]. split; [|done].
        by rewrite <- E.
      * left. by rewrite lookup_insert_ne.
    + right. split; [by right|]. split; [done|].
      destruct (decide (q = p)) as [->|Hne]; [congruence|].
      by rewrite lookup_insert_ne.
  - intros d [->|Hd]; [by rewrite lookup_insert_eq|].
    destruct (decide (d = p)) as [->|Hne]; [by rewrite lookup_insert_eq|].
    rewrite lookup_insert_ne by done. by apply (mkdir_parents_dirs _ _ _ E1).
Qed.

Lemma prepare_build_directory_runs p w :
  prepare_build_directory (VStr p) w
  = match fs w !! p with
    | Some (File _) =>
        SysExit (-1)
          (add_trace w [Print ("The specified build path '" +:+ p
                               +:+ "' is a file")])
    | Some Dir =>
        Ok tt (add_trace w [Print ("Using existing output directory '" +:+ p
                                   +:+ "'")])
    | None =>
        match fs_makedirs (fs w) p with
        | inl e => Uncaught e w
        | inr f' =>
            Ok tt {| fs := f';
                     trace := trace w
                       ++ [MakeDirs p;
                           Print ("Created output directory '" +:+ p +:+ "'")] |}
        end
    end.
Proof.
  unfold prepare_build_directory, makedirs, path_exists, path_isfile.
  mred. cbn [as_path]. mred.
  destruct (fs w !! p) as [[|c]|]; try done.
  destruct (fs_makedirs (fs w) p); [by destruct w|].
  mred. by rewrite <- app_assoc.
Qed.

(** X4. Whatever way [prepare_build_directory] ends, the only entries of
    the file system that differ afterwards are the build path and its
    intermediate directories, each of which had no entry and is now a
    directory: nothing that existed is changed or removed.  When it
    returns the build path is a directory, and when it had to create it
    every intermediate directory is one too. *)
Theorem prepare_build_directory_creates :
  forall (p : string) (w w' : world),
    final_world (prepare_build_directory (VStr p) w) = Some w' ->
    (forall q, fs w' !! q = fs w !! q
               \/ (path_or_ancestor p q
                   /\ fs w !! q = None /\ fs w' !! q = Some Dir))
    /\ (prepare_build_directory (VStr p) w = Ok tt w' ->
        fs w' !! p = Some Dir
        /\ (fs w !! p = None ->
            forall d, In d (ancestors p) -> fs w' !! d = Some Dir)).
Proof.
  intros p w w'. rewrite prepare_build_directory_runs.
  destruct (fs w !! p) as [[|c]|] eqn:Ep; cbn.
  - intros [= <-]. cbn. split; [by left|]. done.
  - intros [= <-]. cbn. split; [by left|]. done.
  - destruct (fs_makedirs (fs w) p) as [e|f'] eqn:Em; cbn.
    + intros [= <-]. split; [by left|]. done.
    + intros [= <-]. cbn. destruct (fs_makedirs_within _ _ _ Em) as [Hq Hd].
      split; [done|]. intros _. split; [by apply Hd; left|].
      intros _ d Hin. by apply Hd; right.
Qed.

(** X5. Preparing the build directory a second time, in the world the
    first call returned in, changes nothing: it finds the directory and
    only prints that it uses the existing one. *)
Theorem prepare_build_directory_twice :
  forall (path : value) (w w1 : world),
    prepare_build_directory path w = Ok tt w1 ->
    exists p,
      path = VStr p
      /\ prepare_build_directory path w1
         = Ok tt (add_trace w1
                    [Print ("Using existing output directory '" +:+ p
                            +:+ "'")]).
Proof.
  intros path w w1 Hok.
  destruct (prepare_build_directory_Ok_inv _ _ _ Hok) as (p & l & -> & Hd & _).
  exists p. split; [done|]. by apply prepare_build_directory_existing.
Qed.

Lemma confined_prepare_build_directory D A path :
  (forall p q, path = VStr p -> path_or_ancestor p q -> D q) ->
  confined (changes_within D A) (prepare_build_directory path).
Proof.
  intros HD. destruct path as [| | | |p| |];
    try (intros w w'; cbn; unfold bind; cbn; first [done|intros [= <-]; by left]).
  intros w w'. rewrite prepare_build_directory_runs.
  destruct (fs w !! p) as [[|c]|] eqn:Ep; cbn;
    try (intros [= <-]; apply changes_within_refl).
  destruct (fs_makedirs (fs w) p) as [e|f'] eqn:Em; cbn; intros [= <-];
    [apply changes_within_refl|].
  destruct (fs_makedirs_within _ _ _ Em) as [Hq _]. intros q. cbn.
  destruct (Hq q) as [E|(Hp & Hn & E)]; [by left|].
  right; left. split; [by apply (HD p)|done].
Qed.

(** *** The two writers *)

Lemma write_plymouth_file_runs configuration w name td build :
  configuration !! "name" = Some name ->
  configuration !! "theme_directory" = Some td ->
  configuration !! "build" = Some build ->
  let p := py_str build +:+ "/" +:+ py_str name +:+ ".plymouth" in
  write_plymouth_file configuration w
  = match check_writable (fs w) p with
    | inl e => Uncaught e w
    | inr _ =>
        match configuration !! "description" with
        | None =>
            Uncaught (KeyError "description")
              {| fs := <[p := File (Text EmptyString)]> (fs w);
                 trace := trace w ++ [OpenFile p] |}
        | Some description =>
            Ok tt
              {| fs := <[p := File (Text (plymouth_file_text name description
                                            td))]> (fs w);
                 trace := trace w
                   ++ [OpenFile p;
                       WriteFile p (plymouth_file_text name description td);
                       Print ("Plymouth theme file '" +:+ p
                              +:+ "' created/updated")] |}
        end
    end.
Proof.
  intros Hn Ht Hb p.
  unfold write_plymouth_file, getitem, open_w, write_close, fs_write.
  rewrite Hn, Ht, Hb. mred. fold p.
  destruct (check_writable (fs w) p) as [e|[]]; [by destruct w|]. mred.
  destruct (configuration !! "description") as [description|]; mred; [|done].
  rewrite insert_insert_eq. by rewrite <- !app_assoc.
Qed.

Lemma write_plymouth_script_runs configuration frame_count w name td build :
  configuration !! "name" = Some name ->
  configuration !! "theme_directory" = Some td ->
  configuration !! "build" = Some build ->
  let p := py_str build +:+ "/" +:+ py_str name +:+ ".script" in
  write_plymouth_script configuration frame_count w
  = match check_writable (fs w) p with
    | inl e => Uncaught e w
    | inr _ =>
        Ok tt
          {| fs := <[p := File (Text (plymouth_script_text frame_count))]>
                     (fs w);
             trace := trace w
               ++ [OpenFile p;
                   WriteFile p (plymouth_script_text frame_count);
                   Print ("Plymouth script file '" +:+ p
                          +:+ "' created/updated")] |}
    end.
Proof.
  intros Hn Ht Hb p.
  unfold write_plymouth_script, getitem, open_w, write_close, fs_write.
  rewrite Hn, Ht, Hb. mred. fold p.
  destruct (check_writable (fs w) p) as [e|[]]; [by destruct w|]. mred.
  rewrite insert_insert_eq. by rewrite <- !app_assoc.
Qed.

(** X6. [write_plymouth_file] opens the descriptor before it looks up
    [description]: with that key missing (and the other three there, the
    file writable) the call ends in [KeyError] with the descriptor created
    or truncated to an empty file, whatever it held before; no other path
    is touched. *)
Theorem descriptor_left_empty :
  forall (configuration : dict) (w : world) (name td build : value),
    configuration !! "name" = Some name ->
    configuration !! "theme_directory" = Some td ->
    configuration !! "build" = Some build ->
    configuration !! "description" = None ->
    let p := py_str build +:+ "/" +:+ py_str name +:+ ".plymouth" in
    check_writable (fs w) p = inr tt ->
    exists w',
      write_plymouth_file configuration w
      = Uncaught (KeyError "description") w'
      /\ fs w' !! p = Some (File (Text EmptyString))
      /\ (forall q, q <> p -> fs w' !! q = fs w !! q)
      /\ trace w' = trace w ++ [OpenFile p].
Proof.
  intros configuration w name td build Hn Ht Hb Hd p Hw.
  rewrite (write_plymouth_file_runs _ _ _ _ _ Hn Ht Hb). fold p.
  rewrite Hw, Hd. eexists. split; [done|]. cbn.
  split; [by rewrite lookup_insert_eq|]. split; [|done].
  intros q Hq. by rewrite lookup_insert_ne.
Qed.

(** X7. [write_plymouth_script] does its three lookups before it opens
    the file.  Whenever it ends in a [KeyError], the key is [name],
    [theme_directory] or [build], the configuration lacks it, and the
    world is the one the call started in: the script is neither created
    nor truncated, and nothing is printed.  It does so whenever one of the
    three is missing, [theme_directory] included, which the script itself
    has no use for. *)
Theorem script_key_errors_before_open :
  forall (configuration : dict) (frame_count : value) (w : world),
    (forall k w',
       write_plymouth_script configuration frame_count w
       = Uncaught (KeyError k) w' ->
       w' = w
       /\ configuration !! k = None
       /\ In k ["name"; "theme_directory"; "build"])
    /\ (forall key,
          In key ["name"; "theme_directory"; "build"] ->
          configuration !! key = None ->
          exists k,
            write_plymouth_script configuration frame_count w
            = Uncaught (KeyError k) w).
Proof.
  intros configuration frame_count w.
  destruct (configuration !! "name") as [name|] eqn:Hn; cycle 1.
  { assert (E : write_plymouth_script configuration frame_count w
                = Uncaught (KeyError "name") w).
    { unfold write_plymouth_script, getitem. rewrite Hn. by mred. }
    rewrite E. split; [|by eauto].
    intros k w' [= <- <-]. split; [done|]. split; [done|]. cbn. tauto. }
  destruct (configuration !! "theme_directory") as [td|] eqn:Ht; cycle 1.
  { assert (E : write_plymouth_script configuration frame_count w
                = Uncaught (KeyError "theme_directory") w).
    { unfold write_plymouth_script, getitem. rewrite Hn, Ht. by mred. }
    rewrite E. split; [|by eauto].
    intros k w' [= <- <-]. split; [done|]. split; [done|]. cbn. tauto. }
  destruct (configuration !! "build") as [build|] eqn:Hb; cycle 1.
  { assert (E : write_plymouth_script configuration frame_count w
                = Uncaught (KeyError "build") w).
    { unfold write_plymouth_script, getitem. rewrite Hn, Ht, Hb. by mred. }
    rewrite E. split; [|by eauto].
    intros k w' [= <- <-]. split; [done|]. split; [done|]. cbn. tauto. }
  rewrite (write_plymouth_script_runs _ _ _ _ _ _ Hn Ht Hb).
  set (p := py_str build +:+ "/" +:+ py_str name +:+ ".script").
  split.
  - intros k w'.
    destruct (check_writable (fs w) p) as [e|[]] eqn:Hw; [|done].
    intros [= -> _]. by apply check_writable_plain in Hw.
  - intros key Hin Hnone.
    destruct Hin as [<-|[<-|[<-|[]]]]; congruence.
Qed.

Lemma confined_write_plymouth_file D A configuration :
  (forall p, descriptor_path configuration = Some p -> A p) ->
  confined (changes_within D A) (write_plymouth_file configuration).
Proof.
  intros HA w w'.
  destruct (configuration !! "name") as [name|] eqn:Hn; cycle 1.
  { unfold write_plymouth_file, getitem. rewrite Hn. mred. cbn.
    intros [= <-]. apply changes_within_refl. }
  destruct (configuration !! "theme_directory") as [td|] eqn:Ht; cycle 1.
  { unfold write_plymouth_file, getitem. rewrite Hn, Ht. mred. cbn.
    intros [= <-]. apply changes_within_refl. }
  destruct (configuration !! "build") as [build|] eqn:Hb; cycle 1.
  { unfold write_plymouth_file, getitem. rewrite Hn, Ht, Hb. mred. cbn.
    intros [= <-]. apply changes_within_refl. }
  rewrite (write_plymouth_file_runs _ _ _ _ _ Hn Ht Hb).
  set (p := py_str build +:+ "/" +:+ py_str name +:+ ".plymouth").
  assert (Hp : A p). { apply HA. unfold descriptor_path. by rewrite Hb, Hn. }
  destruct (check_writable (fs w) p) as [e|[]] eqn:Hw; cbn.
  { intros [= <-]. apply changes_within_refl. }
  apply check_writable_not_dir in Hw.
  assert (Hins : forall c, changes_within D A (fs w) (<[p := File c]> (fs w))).
  { intros c q. destruct (decide (q = p)) as [->|Hne].
    - right; right. rewrite lookup_insert_eq. split; [done|].
      split; [done|by eexists].
    - left. by rewrite lookup_insert_ne. }
  destruct (configuration !! "description"); cbn; intros [= <-]; apply Hins.
Qed.

Lemma confined_write_plymouth_script D A configuration frame_count :
  (forall p, script_path configuration = Some p -> A p) ->
  confined (changes_within D A)
    (write_plymouth_script configuration frame_count).
Proof.
  intros HA w w'.
  destruct (configuration !! "name") as [name|] eqn:Hn; cycle 1.
  { unfold write_plymouth_script, getitem. rewrite Hn. mred. cbn.
    intros [= <-]. apply changes_within_refl. }
  destruct (configuration !! "theme_directory") as [td|] eqn:Ht; cycle 1.
  { unfold write_plymouth_script, getitem. rewrite Hn, Ht. mred. cbn.
    intros [= <-]. apply changes_within_refl. }
  destruct (configuration !! "build") as [build|] eqn:Hb; cycle 1.
  { unfold write_plymouth_script, getitem. rewrite Hn, Ht, Hb. mred. cbn.
    intros [= <-]. apply changes_within_refl. }
  rewrite (write_plymouth_script_runs _ _ _ _ _ _ Hn Ht Hb).
  set (p := py_str build +:+ "/" +:+ py_str name +:+ ".script").
  assert (Hp : A p). { apply HA. unfold script_path. by rewrite Hb, Hn. }
  destruct (check_writable (fs w) p) as [e|[]] eqn:Hw; cbn; intros [= <-];
    [apply changes_within_refl|].
  apply check_writable_not_dir in Hw. intros q. cbn.
  destruct (decide (q = p)) as [->|Hne].
  - right; right. rewrite lookup_insert_eq. split; [done|].
    split; [done|by eexists].
  - left. by rewrite lookup_insert_ne.
Qed.

(** *** Extraction *)

Lemma write_frames_within out n :
  forall f k f' l ok q,
    write_frames f out k n = (f', l, ok) ->
    f' !! q = f !! q
    \/ ((exists j, q = frame_path out j)
        /\ f !! q <> Some Dir /\ f' !! q = Some (File Image)).
Proof.
  induction n as [|n IH]; intros f k f' l ok q; cbn [write_frames].
  { intros [= <- _ _]. by left. }
  unfold fs_write.
  destruct (check_writable f (frame_path out k)) as [e|[]] eqn:Hw.
  { intros [= <- _ _]. by left. }
  destruct (write_frames _ out (k + 1) n) as [[f2 l2] ok2] eqn:E2.
  intros [= <- _ _]. apply check_writable_not_dir in Hw.
  destruct (IH _ _ _ _ _ q E2) as [E|(Hj & Hn & E)].
  - destruct (decide (q = frame_path out k)) as [->|Hne].
    + right. rewrite E, lookup_insert_eq. split; [by eexists|done].
    + left. by rewrite E, lookup_insert_ne.
  - destruct (decide (q = frame_path out k)) as [->|Hne].
    + right. split; [by eexists|done].
    + right. rewrite lookup_insert_ne in Hn by done. done.
Qed.

Lemma ffmpeg_run_within f s out fps f' l ok q :
  ffmpeg_run f s out fps = (f', l, ok) ->
  f' !! q = f !! q
  \/ ((exists j, q = frame_path out j)
      /\ f !! q <> Some Dir /\ f' !! q = Some (File Image)).
Proof.
  unfold ffmpeg_run. destruct (encoder s (width s) fps).
  - apply write_frames_within.
  - intros [= <- _ _]. by left.
Qed.

Lemma confined_resample D (A : string -> Prop) video s out fps :
  (forall j, A (frame_path out j)) ->
  confined (changes_within D A) (resample video s out fps).
Proof.
  intros HA w w'. unfold resample.
  destruct (contains_char "%" out); [done|]. mred.
  destruct (ffmpeg_run (fs w) s out fps) as [[f' frames] ok] eqn:E. mred.
  assert (Hc : changes_within D A (fs w) f').
  { intros q. destruct (ffmpeg_run_within _ _ _ _ _ _ _ q E)
      as [E1|((j & ->) & Hn & E1)]; [by left|].
    right; right. split; [apply HA|]. split; [done|by eexists]. }
  destruct ok; cbn; intros [= <-]; exact Hc.
Qed.

Lemma confined_extract_frames_from_video D (A : string -> Prop) video
    output_path fps :
  (forall j, A (frame_path (py_str output_path) j)) ->
  confined (changes_within D A)
    (extract_frames_from_video video output_path fps).
Proof.
  intros HA. unfold extract_frames_from_video, probe.
  repeat first
    [ apply confined_resample; exact HA
    | progress (confined_steps (changes_within_refl D A)
                  (changes_within_trans D A))
    | match goal with
      | |- confined _ (match ?x with _ => _ end) => destruct x
      end ].
Qed.

(** X8. Whatever way a run of [build_theme] ends, the entries of the
    file system that differ afterwards are directories created where
    nothing was, at the build path or one of its intermediate directories,
    and regular files written where no directory was, at the descriptor,
    the script or an image [<build>/animation_frame_<k>.png].  So a run
    removes nothing: a regular file is still one, a directory is still
    one. *)
Theorem build_theme_confined :
  forall (configuration : dict) (w w' : world),
    final_world (build_theme configuration w) = Some w' ->
    changes_within (build_dirs configuration) (output_files configuration)
      (fs w) (fs w')
    /\ (forall q, path_isfile (fs w) q = true -> path_isfile (fs w') q = true)
    /\ (forall q, path_isdir (fs w) q = true -> path_isdir (fs w') q = true).
Proof.
  intros configuration w w' Hw.
  set (D := build_dirs configuration). set (A := output_files configuration).
  assert (Hc : confined (changes_within D A) (build_theme configuration)).
  { unfold build_theme.
    apply (confined_bind _ (changes_within_trans D A)).
    { intros w0 w0' H0. apply confined_check_input_assets in H0.
      rewrite <- H0. apply changes_within_refl. }
    intros _.
    apply (confined_bind_getitem _ (changes_within_refl D A)); intros build Hb.
    apply (confined_bind _ (changes_within_trans D A)).
    { apply confined_prepare_build_directory. intros p q -> Hq.
      by exists p. }
    intros _.
    apply (confined_bind _ (changes_within_trans D A)).
    { apply confined_write_plymouth_file. intros p Hp. by left. }
    intros _.
    apply (confined_bind_getitem _ (changes_within_refl D A)); intros source Hs.
    apply (confined_bind_getitem _ (changes_within_refl D A)); intros animation Ha.
    apply (confined_bind_getitem _ (changes_within_refl D A)); intros build' Hb'.
    apply (confined_bind_getitem _ (changes_within_refl D A)); intros fps Hf.
    apply (confined_bind _ (changes_within_trans D A)).
    { apply confined_extract_frames_from_video. intros j.
      right; right. by exists build', j. }
    intros n.
    apply confined_write_plymouth_script. intros p Hp. by right; left. }
  specialize (Hc _ _ Hw). split; [done|]. split; intros q.
  - by apply (changes_within_isfile _ _ _ _ _ Hc).
  - by apply (changes_within_isdir _ _ _ _ _ Hc).
Qed.

(** ** A failed extraction *)

Lemma bind_Uncaught_inv {A B} (m : M A) (k : A -> M B) w e w' :
  bind m k w = Uncaught e w' ->
  m w = Uncaught e w' \/ exists a w1, m w = Ok a w1 /\ k a w1 = Uncaught e w'.
Proof.
  unfold bind. destruct (m w) as [a w1|c w1|e1 w1|]; try done.
  - intros Hk. right. exists a, w1. by split.
  - intros [= -> ->]. by left.
Qed.

Lemma length_append s t :
  String.length (s +:+ t) = (String.length s + String.length t)%nat.
Proof.
  induction s as [|c s IH]; [done|].
  change (String c s +:+ t) with (String c (s +:+ t)). cbn. by rewrite IH.
Qed.

Lemma not_path_or_ancestor_longer p q :
  (String.length p < String.length q)%nat -> ~ path_or_ancestor p q.
Proof.
  intros Hlen [->|Hin]; [lia|]. apply ancestors_shorter in Hin. lia.
Qed.

Lemma not_ffmpeg_plain e : plain_error e = true -> e <> FfmpegError.
Proof. by destruct e. Qed.

(** X9. When a run of [build_theme] ends in the video tool's error (the
    probe or the conversion failed) or in the [KeyError] for the
    [duration] the probe's answer lacks, the descriptor is in place with
    its whole text and the script is what it was before the run: nothing
    is rolled back and the script is not written. *)
Theorem extraction_failure_keeps_descriptor :
  forall (configuration : dict) (w w' : world) (e : exn),
    build_theme configuration w = Uncaught e w' ->
    e = FfmpegError \/ e = KeyError "duration" ->
    exists name description td b,
      configuration !! "name" = Some name
      /\ configuration !! "description" = Some description
      /\ configuration !! "theme_directory" = Some td
      /\ configuration !! "build" = Some (VStr b)
      /\ fs w' !! (b +:+ "/" +:+ py_str name +:+ ".plymouth")
         = Some (File (Text (plymouth_file_text name description td)))
      /\ fs w' !! (b +:+ "/" +:+ py_str name +:+ ".script")
         = fs w !! (b +:+ "/" +:+ py_str name +:+ ".script").
Proof.
  intros configuration w w' e Hb He.
  set (E := fun x : exn => x <> e).
  set (C := fun _ : Z => True).
  assert (HE : forall x, plain_error x = true -> E x).
  { intros x Hx ->. by destruct He as [-> | ->]. }
  assert (HT : forall k, In k top_keys -> configuration !! k = None ->
                         E (KeyError k)).
  { intros k Hk _ <-. destruct He as [He|He]; [done|].
    injection He as ->. cbn in Hk. intuition discriminate. }
  assert (HN : forall k, In k nested_keys -> E (KeyError k)).
  { intros k Hk <-. destruct He as [He|He]; [done|].
    injection He as ->. cbn in Hk. intuition discriminate. }
  unfold build_theme in Hb.
  apply bind_Uncaught_inv in Hb as [Hb|([] & w1 & H1 & Hb)].
  { pose proof (stops_check_input_assets E C configuration I HE HT HN w) as Hs.
    rewrite Hb in Hs. by destruct Hs. }
  assert (F1 : fs w1 = fs w).
  { symmetry. apply (confined_check_input_assets configuration w w1).
    by rewrite H1. }
  apply bind_Uncaught_inv in Hb as [Hb|(build & w1' & Hg & Hb)].
  { unfold getitem in Hb. destruct (configuration !! "build"); [done|].
    injection Hb as <- _. by destruct He. }
  apply getitem_Ok_inv in Hg as [Hbuild ->].
  apply bind_Uncaught_inv in Hb as [Hb|([] & w2 & H2 & Hb)].
  { pose proof (stops_prepare_build_directory E C I HE build w1) as Hs.
    rewrite Hb in Hs. by destruct Hs. }
  destruct (prepare_build_directory_Ok_inv _ _ _ H2)
    as (b & l2 & -> & Hdir & _).
  assert (F2 : forall q, ~ path_or_ancestor b q -> fs w2 !! q = fs w1 !! q).
  { intros q Hq.
    assert (Hw : final_world (prepare_build_directory (VStr b) w1) = Some w2)
      by by rewrite H2.
    revert Hw. rewrite prepare_build_directory_runs.
    destruct (fs w1 !! b) as [[|c]|]; cbn; try by intros [= <-].
    destruct (fs_makedirs (fs w1) b) as [e0|f'] eqn:Em; cbn;
      intros [= <-]; [done|]. cbn.
    destruct (fs_makedirs_within _ _ _ Em) as [Hw' _].
    destruct (Hw' q) as [E1|(Hp & _)]; [done|by destruct Hq]. }
  apply bind_Uncaught_inv in Hb as [Hb|([] & w3 & H3 & Hb)].
  { pose proof (stops_write_plymouth_file E C configuration HE HT w2) as Hs.
    rewrite Hb in Hs. by destruct Hs. }
  destruct (write_plymouth_file_Ok_inv _ _ _ H3)
    as (name & description & td & build & Hn & Hd & Ht & Hb' & _ & ->).
  rewrite Hbuild in Hb'. injection Hb' as <-. cbn [py_str] in Hb.
  set (d := b +:+ "/" +:+ py_str name +:+ ".plymouth") in *.
  set (sp := b +:+ "/" +:+ py_str name +:+ ".script").
  set (w3 := {| fs := <[d := _]> (fs w2); trace := _ |}) in Hb.
  apply bind_Uncaught_inv in Hb as [Hb|(source & w4 & Hg & Hb)].
  { unfold getitem in Hb. destruct (configuration !! "source"); [done|].
    injection Hb as <- _. by destruct He. }
  apply getitem_Ok_inv in Hg as [Hsource ->].
  apply bind_Uncaught_inv in Hb as [Hb|(animation & w4 & Hg & Hb)].
  { unfold getitem in Hb. destruct (configuration !! "animation"); [done|].
    injection Hb as <- _. by destruct He. }
  apply getitem_Ok_inv in Hg as [Hanimation ->].
  apply bind_Uncaught_inv in Hb as [Hb|(build' & w4 & Hg & Hb)].
  { unfold getitem in Hb. destruct (configuration !! "build"); [done|].
    injection Hb as <- _. by destruct He. }
  apply getitem_Ok_inv in Hg as [Hbuild' ->].
  rewrite Hbuild in Hbuild'. injection Hbuild' as <-.
  apply bind_Uncaught_inv in Hb as [Hb|(fps & w4 & Hg & Hb)].
  { unfold getitem in Hb. destruct (configuration !! "fps"); [done|].
    injection Hb as <- _. by destruct He. }
  apply getitem_Ok_inv in Hg as [Hfps ->].
  apply bind_Uncaught_inv in Hb as [Hb|(n & w4 & H4 & Hb)]; cycle 1.
  { pose proof (stops_write_plymouth_script E C configuration HE HT n w4)
      as Hs.
    rewrite Hb in Hs. by destruct Hs. }
  assert (F4 : changes_within (fun _ => False)
                 (fun q => last_char q = Some "g"%char) (fs w3) (fs w')).
  { apply (confined_extract_frames_from_video _ _
             (py_str source +:+ "/" +:+ py_str animation) (VStr b) fps).
    - intros j. apply last_char_frame.
    - by rewrite Hb. }
  assert (F4' : forall q, last_char q <> Some "g"%char ->
                          fs w' !! q = fs w3 !! q).
  { intros q Hq. destruct (F4 q) as [E1|[([] & _)|(Hg & _)]]; done. }
  exists name, description, td, b. do 4 (split; [done|]). split.
  - rewrite F4'; [|unfold d; by rewrite last_char_descriptor].
    subst w3. cbn. by rewrite lookup_insert_eq.
  - fold sp. rewrite F4'; [|unfold sp; by rewrite last_char_script].
    subst w3. cbn. rewrite lookup_insert_ne; cycle 1.
    { intros Heq. apply (f_equal last_char) in Heq. unfold d, sp in Heq.
      by rewrite last_char_descriptor, last_char_script in Heq. }
    rewrite F2, F1; [done|].
    apply not_path_or_ancestor_longer. unfold sp.
    rewrite !length_append. cbn. lia.
Qed.

(** ** Durations at the edges *)

Lemma to_int_nonneg (x : float) (t : Z) :
  Float.is_nonneg x = true -> Float.to_int x = inr t -> 0 <= t.
Proof.
  destruct x as [| | |[] m e]; try done; cbn [Float.to_int cond_Zopp].
  - intros _ [= <-]. lia.
  - intros _ [= <-]. destruct e as [|p|p]; [lia|lia|].
    apply Z.div_pos; [lia|]. apply Z.pow_pos_nonneg; lia.
Qed.

Lemma to_int_below_one (x : float) :
  Float.is_positive x = true -> (Float.to_Q x < 1)%Q ->
  Float.to_int x = inr 0.
Proof.
  intros Hpos Hlt.
  assert (Hn : Float.is_nonneg x = true) by by destruct x as [| | |[]].
  pose proof (to_int_floor _ Hn) as Ht.
  pose proof (to_int_nonneg _ _ Hn Ht) as H0.
  rewrite Ht. f_equal.
  assert (H1 : Qfloor (Float.to_Q x) < 1).
  { rewrite Zlt_Qlt. eapply Qle_lt_trans; [apply Qfloor_le|exact Hlt]. }
  lia.
Qed.

(** X10. The count is [int(time) * fps], so a clip shorter than one
    second counts for nothing: whenever the extraction of such a clip
    returns, the count is 0 for every integer rate, and it has announced
    0 images. *)
Theorem short_clip_zero_frames :
  forall (video_path : string) (output_path : value) (fps : Z) (w w' : world)
         (s : stream) (n : value),
    fs w !! video_path = Some (File (Video s)) ->
    Float.is_positive (duration s) = true ->
    (Float.to_Q (duration s) < 1)%Q ->
    extract_frames_from_video video_path output_path (VInt fps) w = Ok n w' ->
    n = VInt 0
    /\ In (Print "The result should be 0 images") (trace w').
Proof.
  intros video_path output_path fps w w' s n Hv Hpos Hlt Hok.
  destruct (extract_frames_from_video_Ok_inv _ _ _ _ _ _ Hok)
    as (s' & sf & t & f' & frames & l & Hv' & He & Hc & Ht & Hm & Hr & _).
  rewrite Hv in Hv'. injection Hv' as <-.
  rewrite (to_int_below_one _ Hpos Hlt) in Ht. injection Ht as <-.
  cbn in Hm. injection Hm as <-. split; [done|].
  rewrite (extract_frames_from_video_Ok _ _ _ _ _ _ _ _ _ Hv He Hc Hr) in Hok.
  injection Hok as <-. cbn. rewrite in_app_iff. right. cbn. tauto.
Qed.

Lemma SFdiv_nan x : Float.div x S754_nan = S754_nan.
Proof. by destruct x. Qed.

(** X11. A probed duration that is zero ends the extraction in
    [ZeroDivisionError], one that is not a number ends it in [ValueError];
    both right after the first printed line, before the tool runs and
    with the file system untouched. *)
Theorem degenerate_duration_errors :
  forall (video_path : string) (output_path fps : value) (w : world)
         (s : stream) (x : float),
    fs w !! video_path = Some (File (Video s)) ->
    Float.of_int (nb_frames s) = inr x ->
    let started :=
      add_trace w [Print ("Generate animation frames from video '"
                          +:+ video_path +:+ "'")] in
    (Float.is_zero (duration s) = true ->
     extract_frames_from_video video_path output_path fps w
     = Uncaught ZeroDivisionError started)
    /\ (duration s = S754_nan ->
        extract_frames_from_video video_path output_path fps w
        = Uncaught ValueError started).
Proof.
  intros video_path output_path fps w s x Hv Hx started.
  unfold extract_frames_from_video, probe, Float.int_truediv. mred.
  rewrite Hv, Hx. mred. split.
  - by intros ->.
  - intros ->. cbn. by rewrite SFdiv_nan.
Qed.

(** ** Entries of the configuration that are never read *)

Lemma bind_ext {A B} (m1 m2 : M A) (k1 k2 : A -> M B) w :
  m1 w = m2 w -> (forall a w', k1 a w' = k2 a w') ->
  bind m1 k1 w = bind m2 k2 w.
Proof. intros Hm Hk. unfold bind. rewrite Hm. destruct (m2 w); auto. Qed.

Lemma agree_on_lookup keys (d1 d2 : dict) k :
  agree_on keys d1 d2 -> In k keys -> d1 !! k = d2 !! k.
Proof. intros Ha Hk. by apply (proj1 (List.Forall_forall _ _) Ha). Qed.

Lemma getitem_agree keys (d1 d2 : dict) k w :
  agree_on keys d1 d2 -> In k keys -> getitem d1 k w = getitem d2 k w.
Proof. intros Ha Hk. unfold getitem. by rewrite (agree_on_lookup _ _ _ _ Ha Hk). Qed.

Lemma subscript_agree keys v1 v2 k w :
  value_agree keys v1 v2 -> In k keys -> subscript v1 k w = subscript v2 k w.
Proof.
  intros Hv Hk.
  destruct v1, v2; cbn in Hv; try done; try (by inversion Hv; subst).
  by apply (getitem_agree keys).
Qed.

Lemma bind_getitem_agree {B} keys (c1 c2 : dict) name (k1 k2 : value -> M B) w :
  same_section keys (c1 !! name) (c2 !! name) ->
  (forall v1 v2 w', value_agree keys v1 v2 -> k1 v1 w' = k2 v2 w') ->
  bind (getitem c1 name) k1 w = bind (getitem c2 name) k2 w.
Proof.
  intros Hs Hk. unfold bind, getitem.
  destruct (c1 !! name) as [v1|], (c2 !! name) as [v2|]; try done.
  by apply Hk.
Qed.

Lemma check_input_assets_agree c1 c2 w :
  same_inputs c1 c2 -> check_input_assets c1 w = check_input_assets c2 w.
Proof.
  intros (Ht & Hd & Hp). unfold dialog_keys in Hd.
  unfold progression_keys in Hp. unfold check_input_assets.
  apply bind_ext; [apply (getitem_agree _ _ _ _ _ Ht); cbn; tauto|].
  intros source_dir w1. apply bind_ext; [done|]. intros src w2.
  apply bind_ext; [done|]. intros f w3.
  destruct (negb (path_exists f src) || path_isfile f src); [done|].
  apply bind_ext; [apply (getitem_agree _ _ _ _ _ Ht); cbn; tauto|].
  intros animation w4. apply bind_ext; [done|]. intros _ w5.
  apply (bind_getitem_agree _ _ _ _ _ _ _ Hd). intros d1 d2 w6 Hv.
  apply bind_ext; [apply (subscript_agree _ _ _ _ _ Hv); cbn; tauto|].
  intros x1 w7. apply bind_ext; [done|]. intros _ w8.
  apply bind_ext; [apply (subscript_agree _ _ _ _ _ Hv); cbn; tauto|].
  intros x2 w9. apply bind_ext; [done|]. intros _ w10.
  apply bind_ext; [apply (subscript_agree _ _ _ _ _ Hv); cbn; tauto|].
  intros x3 w11. apply bind_ext; [done|]. intros _ w12.
  apply bind_ext; [apply (subscript_agree _ _ _ _ _ Hv); cbn; tauto|].
  intros x4 w13. apply bind_ext; [done|]. intros _ w14.
  apply (bind_getitem_agree _ _ _ _ _ _ _ Hp). intros p1 p2 w15 Hv'.
  apply bind_ext; [apply (subscript_agree _ _ _ _ _ Hv'); cbn; tauto|].
  intros x5 w16. apply bind_ext; [done|]. intros _ w17.
  apply bind_ext; [apply (subscript_agree _ _ _ _ _ Hv'); cbn; tauto|].
  done.
Qed.

Lemma write_plymouth_file_agree c1 c2 w :
  same_inputs c1 c2 -> write_plymouth_file c1 w = write_plymouth_file c2 w.
Proof.
  intros (Ht & _). unfold write_plymouth_file.
  repeat first
    [ apply bind_ext;
        [first [apply (getitem_agree _ _ _ _ _ Ht); cbn; tauto|done]
        |intros ? ?]
    | done ].
Qed.

Lemma write_plymouth_script_agree c1 c2 n w :
  same_inputs c1 c2 ->
  write_plymouth_script c1 n w = write_plymouth_script c2 n w.
Proof.
  intros (Ht & _). unfold write_plymouth_script.
  repeat first
    [ apply bind_ext;
        [first [apply (getitem_agree _ _ _ _ _ Ht); cbn; tauto|done]
        |intros ? ?]
    | done ].
Qed.

Lemma build_theme_agree c1 c2 w :
  same_inputs c1 c2 -> build_theme c1 w = build_theme c2 w.
Proof.
  intros Hs. pose proof Hs as (Ht & _). unfold build_theme.
  apply bind_ext; [by apply check_input_assets_agree|]. intros _ w1.
  apply bind_ext; [apply (getitem_agree _ _ _ _ _ Ht); cbn; tauto|].
  intros build w2. apply bind_ext; [done|]. intros _ w3.
  apply bind_ext; [by apply write_plymouth_file_agree|]. intros _ w4.
  apply bind_ext; [apply (getitem_agree _ _ _ _ _ Ht); cbn; tauto|].
  intros source w5.
  apply bind_ext; [apply (getitem_agree _ _ _ _ _ Ht); cbn; tauto|].
  intros animation w6.
  apply bind_ext; [apply (getitem_agree _ _ _ _ _ Ht); cbn; tauto|].
  intros build' w7.
  apply bind_ext; [apply (getitem_agree _ _ _ _ _ Ht); cbn; tauto|].
  intros fps w8. apply bind_ext; [done|]. intros n w9.
  by apply write_plymouth_script_agree.
Qed.

Lemma agree_on_refl keys d : agree_on keys d d.
Proof. by apply Forall_forall. Qed.

Lemma agree_on_insert keys (d : dict) k v :
  ~ In k keys -> agree_on keys (<[k := v]> d) d.
Proof.
  intros Hk. apply List.Forall_forall. intros k0 Hk0.
  rewrite lookup_insert_ne; [done|]. by intros ->.
Qed.

Lemma same_section_refl keys o : same_section keys o o.
Proof. destruct o as [[]|]; cbn; try done. apply agree_on_refl. Qed.

(** X12. The program reads nine keys of the configuration, four of its
    [dialog] section and two of its [progression] section.  Any other
    entry, at the top level or in one of the two sections (the [ratio]
    entries of the built-in configuration among them), has no effect on a
    run. *)
Theorem build_theme_ignores_other_keys :
  (forall (configuration : dict) (k : string) (v : value) (w : world),
     ~ In k top_keys ->
     build_theme (<[k := v]> configuration) w = build_theme configuration w)
  /\ (forall (configuration d : dict) (k : string) (v : value) (w : world),
        configuration !! "dialog" = Some (VDict d) ->
        ~ In k dialog_keys ->
        build_theme (<["dialog" := VDict (<[k := v]> d)]> configuration) w
        = build_theme configuration w)
  /\ (forall (configuration d : dict) (k : string) (v : value) (w : world),
        configuration !! "progression" = Some (VDict d) ->
        ~ In k progression_keys ->
        build_theme (<["progression" := VDict (<[k := v]> d)]> configuration) w
        = build_theme configuration w).
Proof.
  split; [|split].
  - intros configuration k v w Hk. apply build_theme_agree.
    split; [|split].
    + apply agree_on_insert. intros Hin. apply Hk. cbn in Hin |- *. tauto.
    + rewrite lookup_insert_ne; [apply same_section_refl|].
      intros ->. apply Hk. cbn. tauto.
    + rewrite lookup_insert_ne; [apply same_section_refl|].
      intros ->. apply Hk. cbn. tauto.
  - intros configuration d k v w Hd Hk. apply build_theme_agree.
    split; [|split].
    + apply agree_on_insert. cbn. intuition discriminate.
    + rewrite lookup_insert_eq, Hd. cbn. by apply agree_on_insert.
    + rewrite lookup_insert_ne by done. apply same_section_refl.
  - intros configuration d k v w Hd Hk. apply build_theme_agree.
    split; [|split].
    + apply agree_on_insert. cbn. intuition discriminate.
    + rewrite lookup_insert_ne by done. apply same_section_refl.
    + rewrite lookup_insert_eq, Hd. cbn. by apply agree_on_insert.
Qed.

(** ** The command line *)

Lemma do_shorts_c (a : ascii) (s : string) :
  do_shorts "c:" (String a s)
  = if Ascii.eqb a "c" then
      match s with
      | EmptyString => Some ([], Some "-c")
      | _ => Some ([("-c", s)], None)
      end
    else None.
Proof.
  destruct (Ascii.eqb_spec a "c") as [->|Hne]; [done|].
  cbn. destruct (Ascii.eqb_spec a "c") as [->|_]; [done|]. cbn.
  destruct (Ascii.eqb_spec a ":") as [->|_]; done.
Qed.

Lemma getopt_option (a : ascii) (s : string) (rest : list string) :
  getopt "c:" (String "-" (String a s) :: rest)
  = if Ascii.eqb a "-" then
      match s with
      | EmptyString => Some ([], rest)
      | _ => None
      end
    else if Ascii.eqb a "c" then
      match s with
      | EmptyString =>
          match rest with
          | [] => None
          | x :: rest' => more_opts [("-c", x)] (getopt "c:" rest')
          end
      | _ => more_opts [("-c", s)] (getopt "c:" rest)
      end
    else None.
Proof.
  cbn [getopt]. destruct (Ascii.eqb a "-"); [done|].
  rewrite do_shorts_c. destruct (Ascii.eqb a "c"); [|done].
  by destruct s.
Qed.

Lemma getopt_operand (word : string) (rest : list string) :
  (forall a s, word <> String "-" (String a s)) ->
  getopt "c:" (word :: rest) = Some ([], word :: rest).
Proof.
  intros Hw. destruct word as [|a0 [|a s]]; [done| |].
  - by destruct a0 as [[] [] [] [] [] [] [] []].
  - destruct (Ascii.eqb_spec a0 "-") as [->|Hne]; [by destruct (Hw a s)|].
    by destruct a0 as [[] [] [] [] [] [] [] []].
Qed.

Lemma getopt_only_c_aux (n : nat) :
  forall args opts rest,
    (length args <= n)%nat ->
    getopt "c:" args = Some (opts, rest) ->
    Forall (fun o => fst o = "-c") opts.
Proof.
  induction n as [|n IH]; intros args opts rest Hlen.
  { destruct args; [|cbn in Hlen; lia]. by intros [= <- _]. }
  destruct args as [|word args]; [by intros [= <- _]|].
  cbn in Hlen.
  destruct word as [|a0 [|a s]];
    [by intros [= <- _]|
     rewrite getopt_operand by done; by intros [= <- _]|].
  destruct (Ascii.eqb_spec a0 "-") as [->|Hne]; cycle 1.
  { rewrite getopt_operand by congruence. by intros [= <- _]. }
  rewrite getopt_option.
  destruct (Ascii.eqb a "-"); [destruct s; [by intros [= <- _]|done]|].
  destruct (Ascii.eqb a "c"); [|done].
  destruct s as [|c s'].
  - destruct args as [|x args']; [done|].
    destruct (getopt "c:" args') as [[o r]|] eqn:E; [|done].
    cbn. intros [= <- _]. constructor; [done|].
    apply (IH args' o r); [cbn in Hlen; lia|done].
  - destruct (getopt "c:" args) as [[o r]|] eqn:E; [|done].
    cbn. intros [= <- _]. constructor; [done|].
    apply (IH args o r); [lia|done].
Qed.

Lemma scan_options_last (opts : list opt_pair) :
  Forall (fun o => fst o = "-c") opts ->
  scan_options opts
  = match last opts with
    | Some o => (true, snd o)
    | None => (false, "config.json")
    end.
Proof.
  destruct opts as [|o opts _] using rev_ind; [done|].
  intros Hall. apply Forall_app in Hall as [_ Ho].
  apply (proj1 (Forall_singleton _ _)) in Ho.
  destruct o as [name arg]. cbn in Ho. subst name. unfold scan_options. by rewrite fold_left_app, last_snoc.
Qed.

(** X13. Every option [getopt] hands to [main] is a [-c]: the test of
    line 228 never fails.  The configuration file is the argument of the
    last [-c] on the command line, and it is the default [config.json],
    not counted as the user's choice, exactly when there is no option. *)
Theorem configuration_file_choice :
  forall (args : list string) (opts : list opt_pair) (rest : list string),
    getopt "c:" args = Some (opts, rest) ->
    Forall (fun o => fst o = "-c") opts
    /\ scan_options opts
       = match last opts with
         | Some o => (true, snd o)
         | None => (false, "config.json")
         end.
Proof.
  intros args opts rest Hg.
  assert (Hall : Forall (fun o => fst o = "-c") opts)
    by by apply (getopt_only_c_aux (length args) args opts rest).
  split; [done|]. by apply scan_options_last.
Qed.

Lemma getopt_dangling (ps : list string) :
  getopt "c:" (concat (map (fun p => ["-c"; p]) ps) ++ ["-c"]) = None.
Proof.
  induction ps as [|p ps IH]; [done|].
  cbn [map concat app]. change "-c" with (String "-" (String "c" EmptyString)).
  rewrite getopt_option. cbn [Ascii.eqb Bool.eqb].
  change (String "-" (String "c" EmptyString)) with "-c".
  by rewrite IH.
Qed.

(** X14. The argument of [-c] may be attached to it ([-cPATH]) or be
    the next word: both give the same run.  A [-c] that is the last word,
    after any number of complete [-c PATH] pairs, has no argument: the
    usage line is printed and the run ends with [sys.exit(1)]. *)
Theorem option_argument_forms :
  (forall (argv0 p : string) (rest : list string) (w : world),
     p <> EmptyString ->
     main argv0 (String "-" (String "c" p) :: rest) w
     = main argv0 ("-c" :: p :: rest) w)
  /\ (forall (argv0 : string) (ps : list string) (w : world),
        main argv0 (concat (map (fun p => ["-c"; p]) ps) ++ ["-c"]) w
        = SysExit 1
            (add_trace w [Print (argv0 +:+ " -c [path_to_configfile]")])).
Proof.
  split.
  - intros argv0 p rest w Hp. unfold main.
    change "-c" with (String "-" (String "c" EmptyString)).
    rewrite !getopt_option. cbn [Ascii.eqb Bool.eqb].
    by destruct p.
  - intros argv0 ps w. unfold main. by rewrite getopt_dangling.
Qed.

(** ** The configuration [main] loads, and how [main] ends *)

Lemma fs_read_plain f p e :
  fs_read f p = inl e -> e = FileNotFoundError \/ plain_error e = true.
Proof.
  unfold fs_read. destruct (f !! p) as [[|c]|]; [by intros [= <-]; right|done|].
  destruct (parent_dir p) as [d|]; [|by intros [= <-]; left].
  destruct (f !! d) as [[|c]|]; intros [= <-]; first [by left|by right].
Qed.

Lemma load_configuration_outcomes custom path w :
  match load_configuration custom path w with
  | Ok configuration w1 =>
      fs w1 = fs w
      /\ exists user : dict, configuration = user ∪ default_configuration
  | SysExit c w1 => c = 2 /\ custom = true /\ fs w1 = fs w
  | Uncaught e w1 => plain_error e = true /\ w1 = w
  | Unmodelled => True
  end.
Proof.
  unfold load_configuration. mred.
  destruct (fs_read (fs w) path) as [e|c] eqn:Er.
  - assert (Hp : e = FileNotFoundError \/ plain_error e = true)
      by by apply (fs_read_plain (fs w) path).
    destruct e; try done; try by destruct Hp.
    destruct custom; mred; [done|]. split; [done|].
    exists ∅. by rewrite (left_id_L ∅ (∪)).
  - destruct c as [t|v|s|]; try done.
    destruct v as [| | | |s|l|d]; cbn; try done.
    + destruct s; cbn; [|done]. split; [done|].
      exists ∅. by rewrite (left_id_L ∅ (∪)).
    + destruct l; cbn; [|done]. split; [done|].
      exists ∅. by rewrite (left_id_L ∅ (∪)).
    + split; [done|]. by exists d.
Qed.

Lemma default_configuration_top_keys k :
  In k top_keys -> is_Some (default_configuration !! k).
Proof.
  intros Hk. repeat (destruct Hk as [<-|Hk]; [by eexists|]). done.
Qed.

Lemma merged_top_keys (user : dict) k :
  In k top_keys -> (user ∪ default_configuration) !! k <> None.
Proof.
  intros Hk. apply default_configuration_top_keys in Hk as [v Hv].
  intros Hn. apply lookup_union_None in Hn as [_ Hn]. congruence.
Qed.

(** X15. [dict.update] only adds and replaces: the configuration [main]
    hands to [build_theme] still binds each of the nine built-in keys,
    and loading it has left the file system alone.  With such a
    configuration the only lookups validation can fail on are those in
    the [dialog] and [progression] sections, and the two writers never
    fail on a lookup. *)
Theorem loaded_configuration_complete :
  forall (custom : bool) (path : string) (w w1 : world)
         (configuration : dict),
    load_configuration custom path w = Ok configuration w1 ->
    fs w1 = fs w
    /\ (forall k, In k top_keys -> is_Some (configuration !! k))
    /\ (forall k w2 w3,
          check_input_assets configuration w2 = Uncaught (KeyError k) w3 ->
          In k nested_keys)
    /\ (forall k w2 w3,
          write_plymouth_file configuration w2 <> Uncaught (KeyError k) w3)
    /\ (forall k n w2 w3,
          write_plymouth_script configuration n w2
          <> Uncaught (KeyError k) w3).
Proof.
  intros custom path w w1 configuration Hl.
  pose proof (load_configuration_outcomes custom path w) as Ho.
  rewrite Hl in Ho. destruct Ho as (Hfs & user & ->).
  split; [done|]. split.
  { intros k Hk. apply not_eq_None_Some. by apply merged_top_keys. }
  split; [|split].
  - intros k w2 w3 Hc.
    assert (Hs : stops_with
                   (fun e => match e with
                             | KeyError k => In k nested_keys
                             | _ => True
                             end)
                   (fun _ => True)
                   (check_input_assets (user ∪ default_configuration))).
    { apply stops_check_input_assets; try done.
      - by intros [].
      - intros k' Hin Hn. by apply merged_top_keys in Hn. }
    specialize (Hs w2). by rewrite Hc in Hs.
  - intros k w2 w3 Hc.
    assert (Hs : stops_with (fun e => plain_error e = true) (fun _ => True)
                   (write_plymouth_file (user ∪ default_configuration))).
    { apply stops_write_plymouth_file; try done.
      intros k' Hin Hn. by apply merged_top_keys in Hn. }
    specialize (Hs w2). by rewrite Hc in Hs.
  - intros k n w2 w3 Hc.
    assert (Hs : stops_with (fun e => plain_error e = true) (fun _ => True)
                   (write_plymouth_script (user ∪ default_configuration) n)).
    { apply stops_write_plymouth_script; try done.
      intros k' Hin Hn. by apply merged_top_keys in Hn. }
    specialize (Hs w2). by rewrite Hc in Hs.
Qed.

(** X16. [main] hands [sys.exit] no code but -1, 1 and 2, so the status
    of the process is 0 (it returned), 1 (usage error, or an exception
    nobody handles), 2 (the file given with [-c] does not exist) or 255
    (the -1 of validation and of the build path check). *)
Theorem main_exit_statuses :
  forall (argv0 : string) (args : list string) (w : world),
    (forall c w', main argv0 args w = SysExit c w' ->
                  c = -1 \/ c = 1 \/ c = 2)
    /\ (forall st, exit_status (main argv0 args w) = Some st ->
                   st = 0 \/ st = 1 \/ st = 2 \/ st = 255).
Proof.
  intros argv0 args w.
  assert (Hc : forall c w', main argv0 args w = SysExit c w' ->
                            c = -1 \/ c = 1 \/ c = 2).
  { intros c w'. unfold main.
    destruct (getopt "c:" args) as [[opts rest]|];
      [|by intros [= <- _]; right; left].
    destruct (scan_options opts) as [custom path]. unfold bind.
    pose proof (load_configuration_outcomes custom path w) as Hl.
    destruct (load_configuration custom path w) as [cfg w1|c1 w1|e w1|];
      try done.
    - intros Hb.
      assert (Hs : stops_with (fun _ => True) (fun c => c = -1)
                     (build_theme cfg)) by by apply stops_build_theme.
      specialize (Hs w1). rewrite Hb in Hs. by left.
    - destruct Hl as [-> _]. intros [= <- _]. by right; right. }
  split; [done|]. intros st.
  destruct (main argv0 args w) as [a w1|c w1|e w1|] eqn:Em; cbn; try done.
  - intros [= <-]. by left.
  - intros [= <-].
    destruct (Hc c w1 eq_refl) as [-> | [-> | ->]]; cbn; auto.
  - intros [= <-]. by right; left.
Qed.

(** X17. Only the absence of the configuration file is handled.  For
    the default [config.json] as for a file given with [-c]: a directory
    in its place ends the run in [IsADirectoryError], a text that is not a
    JSON document in [JSONDecodeError], a JSON null, boolean or number in
    [TypeError] and a non-empty JSON string in [ValueError], each before
    anything is printed or written; an empty JSON string or array leaves
    the built-in configuration as it is. *)
Theorem configuration_file_errors :
  forall (argv0 : string) (args : list string) (opts : list opt_pair)
         (rest : list string) (custom : bool) (path : string) (w : world),
    getopt "c:" args = Some (opts, rest) ->
    scan_options opts = (custom, path) ->
    (fs w !! path = Some Dir ->
     main argv0 args w = Uncaught IsADirectoryError w)
    /\ (forall text, fs w !! path = Some (File (Text text)) ->
                     main argv0 args w = Uncaught JSONDecodeError w)
    /\ (forall v, fs w !! path = Some (File (Json v)) ->
                  match v with
                  | VNone | VBool _ | VInt _ | VFloat _ =>
                      main argv0 args w = Uncaught TypeError w
                  | VStr (String _ _) =>
                      main argv0 args w = Uncaught ValueError w
                  | VStr EmptyString | VList [] =>
                      main argv0 args w = build_theme default_configuration w
                  | _ => True
                  end).
Proof.
  intros argv0 args opts rest custom path w Hg Hs.
  rewrite (main_eq _ _ _ _ _ _ _ Hg Hs).
  unfold load_configuration, fs_read. mred.
  split; [|split].
  - intros ->. by destruct w.
  - intros text ->. by destruct w.
  - intros v ->. destruct v as [| | | |[|a s]|[|x l]|d]; cbn; try done;
      by destruct w.
Qed.

End Coverage.

(** * The order of the stages of a run *)

Section Order.
Context `{External}.

Lemma check_input_assets_final configuration w w1 :
  final_world (check_input_assets configuration w) = Some w1 ->
  exists v, forallb is_print v = true /\ w1 = add_trace w v.
Proof.
  intros Hw.
  destruct (emits_check_input_assets configuration w w1 Hw) as (v & Hv & Hp).
  exists v. split; [by apply in_phases_one|].
  pose proof (confined_check_input_assets configuration w w1 Hw) as Hfs.
  destruct w1 as [f1 t1]. cbn in *. unfold add_trace. by subst.
Qed.

Lemma prepare_build_directory_final path w w2 :
  final_world (prepare_build_directory path w) = Some w2 ->
  exists p, forallb preparation_phase p = true /\ trace w2 = trace w ++ p.
Proof.
  intros Hw.
  destruct (emits_prepare_build_directory path w w2 Hw) as (p & Hp & Hph).
  exists p. split; [by apply in_phases_one|done].
Qed.

Lemma write_plymouth_file_final configuration w w3 :
  final_world (write_plymouth_file configuration w) = Some w3 ->
  exists d, forallb (descriptor_events configuration) d = true
            /\ trace w3 = trace w ++ d.
Proof.
  destruct (configuration !! "name") as [name|] eqn:Hn; cycle 1.
  { unfold write_plymouth_file, getitem. rewrite Hn. mred. cbn.
    intros [= <-]. exists []. by rewrite app_nil_r. }
  destruct (configuration !! "theme_directory") as [td|] eqn:Ht; cycle 1.
  { unfold write_plymouth_file, getitem. rewrite Hn, Ht. mred. cbn.
    intros [= <-]. exists []. by rewrite app_nil_r. }
  destruct (configuration !! "build") as [build|] eqn:Hb; cycle 1.
  { unfold write_plymouth_file, getitem. rewrite Hn, Ht, Hb. mred. cbn.
    intros [= <-]. exists []. by rewrite app_nil_r. }
  rewrite (write_plymouth_file_runs _ _ _ _ _ Hn Ht Hb).
  set (p := py_str build +:+ "/" +:+ py_str name +:+ ".plymouth").
  assert (Hp : descriptor_path configuration = Some p).
  { unfold descriptor_path. by rewrite Hb, Hn. }
  destruct (check_writable (fs w) p) as [e|[]]; cbn.
  { intros [= <-]. exists []. by rewrite app_nil_r. }
  destruct (configuration !! "description"); cbn; intros [= <-]; cbn;
    eexists; (split; [|reflexivity]); unfold descriptor_events;
    rewrite Hp; cbn; by rewrite String.eqb_refl.
Qed.

Lemma extract_frames_from_video_final video output_path fps w w4 :
  final_world (extract_frames_from_video video output_path fps w) = Some w4 ->
  exists x, forallb extraction_phase x = true /\ trace w4 = trace w ++ x.
Proof.
  intros Hw.
  destruct (emits_extract_frames_from_video video output_path fps w w4 Hw)
    as (x & Hx & Hph).
  exists x. split; [by apply in_phases_one|done].
Qed.

Lemma write_plymouth_script_final configuration n w w5 :
  final_world (write_plymouth_script configuration n w) = Some w5 ->
  exists s, forallb (script_phase configuration) s = true
            /\ trace w5 = trace w ++ s.
Proof.
  intros Hw.
  destruct (emits_write_plymouth_script configuration n w w5 Hw)
    as (s & Hs & Hph).
  exists s. split; [by apply in_phases_one|done].
Qed.

Lemma bind_cases {A B} (m : M A) (k : A -> M B) w :
  (exists a w1, m w = Ok a w1 /\ bind m k w = k a w1)
  \/ ((forall a w1, m w <> Ok a w1)
      /\ final_world (bind m k w) = final_world (m w)
      /\ forall b w', bind m k w <> Ok b w').
Proof.
  unfold bind. destruct (m w) as [a w1|c w1|e w1|]; [left; eauto|..];
    right; by repeat split.
Qed.

Lemma getitem_cases (d : dict) key w :
  (forall a w1, getitem d key w <> Ok a w1) ->
  final_world (getitem d key w) = Some w.
Proof.
  unfold getitem. destruct (d !! key) as [v|]; [|done].
  intros Hno. by destruct (Hno v w).
Qed.

Lemma existsb_outside (P Q : event -> bool) l :
  (forall e, P e = true -> Q e = false) ->
  forallb P l = true -> existsb Q l = false.
Proof.
  intros HPQ. induction l as [|e l IH]; [done|]. cbn.
  intros [He Hl]%andb_true_iff. by rewrite (HPQ e He), (IH Hl).
Qed.

Lemma print_no_write p e : is_print e = true -> writes_to p e = false.
Proof. by destruct e. Qed.

Lemma preparation_no_write p e :
  preparation_phase e = true -> writes_to p e = false.
Proof. by destruct e. Qed.

Lemma extraction_no_write p e :
  extraction_phase e = true -> writes_to p e = false.
Proof. by destruct e. Qed.

Lemma writes_to_other p q e :
  p <> q -> writes_to p e = true -> writes_to q e = false.
Proof.
  intros Hne. destruct e as [| | |r|r t]; cbn; try done;
    intros ->%String.eqb_eq; by apply String.eqb_neq.
Qed.

Lemma descriptor_no_script_write configuration dp sp :
  descriptor_path configuration = Some dp -> dp <> sp ->
  forall e,
    descriptor_events configuration e = true -> writes_to sp e = false.
Proof.
  unfold descriptor_events. intros -> Hne e [Hp|Hw]%orb_true_iff.
  - by apply print_no_write.
  - by apply (writes_to_other dp).
Qed.

Lemma script_no_descriptor_write configuration dp sp :
  script_path configuration = Some sp -> dp <> sp ->
  forall e, script_phase configuration e = true -> writes_to dp e = false.
Proof.
  unfold script_phase. intros -> Hne e [Hp|Hw]%orb_true_iff.
  - by apply print_no_write.
  - apply (writes_to_other sp); [congruence|done].
Qed.

Lemma print_no_ffmpeg e : is_print e = true -> is_ffmpeg e = false.
Proof. by destruct e. Qed.

Lemma preparation_no_ffmpeg e :
  preparation_phase e = true -> is_ffmpeg e = false.
Proof. by destruct e. Qed.

Lemma descriptor_no_ffmpeg configuration e :
  descriptor_events configuration e = true -> is_ffmpeg e = false.
Proof.
  unfold descriptor_events, writes_to_opt.
  destruct (descriptor_path configuration); by destruct e.
Qed.

Lemma script_no_ffmpeg configuration e :
  script_phase configuration e = true -> is_ffmpeg e = false.
Proof.
  unfold script_phase, writes_to_opt.
  destruct (script_path configuration); by destruct e.
Qed.

Lemma stretches_disjoint configuration v p d x s :
  forallb is_print v = true ->
  forallb preparation_phase p = true ->
  forallb (descriptor_events configuration) d = true ->
  forallb extraction_phase x = true ->
  forallb (script_phase configuration) s = true ->
  (forall dp sp,
      descriptor_path configuration = Some dp ->
      script_path configuration = Some sp ->
      dp <> sp
      /\ existsb (writes_to dp) (v ++ p ++ x ++ s) = false
      /\ existsb (writes_to sp) (v ++ p ++ d ++ x) = false)
  /\ existsb is_ffmpeg (v ++ p ++ d ++ s) = false.
Proof.
  intros Hv Hp Hd Hx Hs. split.
  - intros dp sp Hdp Hsp.
    pose proof (descriptor_script_differ _ _ _ Hdp Hsp) as Hne.
    split; [done|]. rewrite !existsb_app.
    rewrite (existsb_outside _ _ _ (print_no_write dp) Hv).
    rewrite (existsb_outside _ _ _ (preparation_no_write dp) Hp).
    rewrite (existsb_outside _ _ _ (extraction_no_write dp) Hx).
    rewrite (existsb_outside _ _ _
               (@script_no_descriptor_write configuration dp sp Hsp Hne)
               Hs).
    rewrite (existsb_outside _ _ _ (print_no_write sp) Hv).
    rewrite (existsb_outside _ _ _ (preparation_no_write sp) Hp).
    rewrite (existsb_outside _ _ _ (extraction_no_write sp) Hx).
    by rewrite (existsb_outside _ _ _
                  (@descriptor_no_script_write configuration dp sp Hdp Hne)
                  Hd).
  - rewrite !existsb_app.
    rewrite (existsb_outside _ _ _ print_no_ffmpeg Hv).
    rewrite (existsb_outside _ _ _ preparation_no_ffmpeg Hp).
    rewrite (existsb_outside _ _ _ (descriptor_no_ffmpeg configuration) Hd).
    by rewrite (existsb_outside _ _ _ (script_no_ffmpeg configuration) Hs).
Qed.

(** The conjunct on what each stretch leaves alone is settled first, on
    the stretches as they are given. *)
Local Ltac disjoint_first :=
  match goal with
  | |- ?T /\ ?V /\ ?P /\ ?D /\ ?X /\ ?S /\ ?J /\ ?R =>
      cut (J /\ T /\ V /\ P /\ D /\ X /\ S /\ R);
      [ intros (HJ & HT & HV & HP & HD & HX & HS & HR);
        exact (conj HT (conj HV (conj HP (conj HD (conj HX (conj HS
                 (conj HJ HR)))))))
      | split; [by apply stretches_disjoint|] ]
  end.

Local Ltac stopped_after_descriptor Hr Hnok T3 v p d b w2 w3 :=
  exists v, p, d, [], []; disjoint_first; rewrite T3; cbn;
  rewrite !app_nil_r; do 7 (split; [done|]); split;
  [ intros _; split; [done|]; exists b, w2; do 3 (split; [done|]);
    intros _; split; [done|]; exists w3; by repeat split
  | let Hok := fresh in
    intros Hok; rewrite Hr in Hok; by destruct (Hnok _ _ Hok) ].

(** C3, as the code has it. The events of any run of [build_theme],
    whatever way it ends, come in five consecutive stretches: the printing
    of the asset validation; the printing and directory creation of the
    build directory preparation; the opening and writing of the descriptor
    with its message; the printing and the run of the video tool; the
    opening and writing of the script with its message. The descriptor is
    touched in the third stretch only, the video tool runs in the fourth
    only, the script is touched in the fifth only, and the two files
    differ. An event in a stretch means every earlier stage has returned:
    the validation for the preparation to add anything, the preparation
    for the descriptor writer, the descriptor writer for the extraction,
    and the extraction, with the video tool run, for the script writer.
    So the descriptor is written after validation and preparation and
    before the extraction starts, the script only after the extraction has
    returned; a run that returns has written both and run the tool. *)
Theorem effects_order :
  forall (configuration : dict) (w w' : world),
    final_world (build_theme configuration w) = Some w' ->
    exists v p d x s,
      trace w' = trace w ++ v ++ p ++ d ++ x ++ s
      /\ forallb is_print v = true
      /\ forallb preparation_phase p = true
      /\ forallb (descriptor_events configuration) d = true
      /\ forallb extraction_phase x = true
      /\ forallb (script_phase configuration) s = true
      /\ ((forall dp sp,
             descriptor_path configuration = Some dp ->
             script_path configuration = Some sp ->
             dp <> sp
             /\ existsb (writes_to dp) (v ++ p ++ x ++ s) = false
             /\ existsb (writes_to sp) (v ++ p ++ d ++ x) = false)
          /\ existsb is_ffmpeg (v ++ p ++ d ++ s) = false)
      /\ final_world (check_input_assets configuration w)
         = Some (add_trace w v)
      /\ (p ++ d ++ x ++ s <> [] ->
          check_input_assets configuration w = Ok tt (add_trace w v)
          /\ exists b w2,
               configuration !! "build" = Some b
               /\ final_world (prepare_build_directory b (add_trace w v))
                  = Some w2
               /\ trace w2 = trace w ++ v ++ p
               /\ (d ++ x ++ s <> [] ->
                   prepare_build_directory b (add_trace w v) = Ok tt w2
                   /\ exists w3,
                        final_world (write_plymouth_file configuration w2)
                        = Some w3
                        /\ trace w3 = trace w2 ++ d
                        /\ (x ++ s <> [] ->
                            write_plymouth_file configuration w2 = Ok tt w3
                            /\ exists source animation fps w4,
                                 configuration !! "source" = Some source
                                 /\ configuration !! "animation"
                                    = Some animation
                                 /\ configuration !! "fps" = Some fps
                                 /\ final_world
                                      (extract_frames_from_video
                                         (py_str source +:+ "/"
                                          +:+ py_str animation) b fps w3)
                                    = Some w4
                                 /\ trace w4 = trace w3 ++ x
                                 /\ (s <> [] ->
                                     existsb is_ffmpeg x = true
                                     /\ exists n,
                                          extract_frames_from_video
                                            (py_str source +:+ "/"
                                             +:+ py_str animation) b fps w3
                                          = Ok n w4
                                          /\ final_world
                                               (write_plymouth_script
                                                  configuration n w4)
                                             = Some w'))))
      /\ (build_theme configuration w = Ok tt w' ->
          exists dp sp,
            descriptor_path configuration = Some dp
            /\ script_path configuration = Some sp
            /\ existsb (writes_to dp) d = true
            /\ existsb is_ffmpeg x = true
            /\ existsb (writes_to sp) s = true).
Proof.
  intros configuration w w'.
  remember (build_theme configuration w) as r eqn:Hr.
  intros Hw. unfold build_theme in Hr.
  (* validation *)
  match type of Hr with _ = bind ?m ?k ?w0 =>
    destruct (bind_cases m k w0) as [([] & w1 & H1 & Hb)|(Hno & Hf & Hnok)]
  end; cycle 1.
  { rewrite Hr, Hf in Hw.
    destruct (check_input_assets_final _ _ _ Hw) as (v & Hv & ->).
    exists v, [], [], [], []. disjoint_first. cbn. rewrite !app_nil_r.
    do 7 (split; [done|]). split; [done|]. intros Hok. rewrite Hr in Hok.
    by destruct (Hnok _ _ Hok). }
  rewrite Hb in Hr. clear Hb. cbv beta in Hr.
  destruct (check_input_assets_final configuration w w1) as (v & Hv & ->);
    [by rewrite H1|].
  assert (F1 : final_world (check_input_assets configuration w)
               = Some (add_trace w v)) by by rewrite H1.
  (* configuration["build"] *)
  match type of Hr with _ = bind ?m ?k ?w0 =>
    destruct (bind_cases m k w0) as [(b & w1 & Hg & Hb)|(Hno & Hf & Hnok)]
  end; cycle 1.
  { rewrite Hr, Hf, (getitem_cases _ _ _ Hno) in Hw. injection Hw as <-.
    exists v, [], [], [], []. disjoint_first. cbn. rewrite !app_nil_r.
    do 7 (split; [done|]). split; [done|]. intros Hok. rewrite Hr in Hok.
    by destruct (Hnok _ _ Hok). }
  rewrite Hb in Hr. clear Hb. cbv beta in Hr.
  apply getitem_Ok_inv in Hg as [Hbuild ->].
  (* preparation *)
  match type of Hr with _ = bind ?m ?k ?w0 =>
    destruct (bind_cases m k w0) as [([] & w2 & H2 & Hb)|(Hno & Hf & Hnok)]
  end; cycle 1.
  { rewrite Hr, Hf in Hw.
    destruct (prepare_build_directory_final _ _ _ Hw) as (p & Hp & Ht).
    cbn in Ht. rewrite <- app_assoc in Ht.
    exists v, p, [], [], []. disjoint_first. cbn. rewrite !app_nil_r.
    do 7 (split; [done|]). split.
    - intros _. split; [done|]. exists b, w'. by repeat split.
    - intros Hok. rewrite Hr in Hok. by destruct (Hnok _ _ Hok). }
  rewrite Hb in Hr. clear Hb. cbv beta in Hr.
  destruct (prepare_build_directory_final b (add_trace w v) w2)
    as (p & Hp & Ht2); [by rewrite H2|].
  cbn in Ht2. rewrite <- app_assoc in Ht2.
  assert (F2 : final_world (prepare_build_directory b (add_trace w v))
               = Some w2) by by rewrite H2.
  (* descriptor *)
  match type of Hr with _ = bind ?m ?k ?w0 =>
    destruct (bind_cases m k w0) as [([] & w3 & H3 & Hb)|(Hno & Hf & Hnok)]
  end; cycle 1.
  { rewrite Hr, Hf in Hw.
    destruct (write_plymouth_file_final _ _ _ Hw) as (d & Hd & Ht).
    exists v, p, d, [], []. disjoint_first. rewrite Ht, Ht2. cbn. rewrite !app_nil_r.
    rewrite <- !app_assoc.
    do 7 (split; [done|]). split.
    - intros _. split; [done|]. exists b, w2. do 3 (split; [done|]).
      intros _. split; [done|]. exists w'. rewrite Ht, Ht2.
      by rewrite <- !app_assoc.
    - intros Hok. rewrite Hr in Hok. by destruct (Hnok _ _ Hok). }
  rewrite Hb in Hr. clear Hb. cbv beta in Hr.
  destruct (write_plymouth_file_final configuration w2 w3)
    as (d & Hd & Ht3); [by rewrite H3|].
  assert (F3 : final_world (write_plymouth_file configuration w2) = Some w3)
    by by rewrite H3.
  assert (T3 : trace w3 = trace w ++ v ++ p ++ d).
  { by rewrite Ht3, Ht2, <- !app_assoc. }
  (* configuration["source"], ["animation"], ["build"], ["fps"] *)
  match type of Hr with _ = bind ?m ?k ?w0 =>
    destruct (bind_cases m k w0)
      as [(source & w1 & Hg & Hb)|(Hno & Hf & Hnok)]
  end; cycle 1.
  { rewrite Hr, Hf, (getitem_cases _ _ _ Hno) in Hw.
    injection Hw as Hw. subst w'.
    stopped_after_descriptor Hr Hnok T3 v p d b w2 w3. }
  rewrite Hb in Hr. clear Hb. cbv beta in Hr.
  apply getitem_Ok_inv in Hg as [Hsource ->].
  match type of Hr with _ = bind ?m ?k ?w0 =>
    destruct (bind_cases m k w0)
      as [(animation & w1 & Hg & Hb)|(Hno & Hf & Hnok)]
  end; cycle 1.
  { rewrite Hr, Hf, (getitem_cases _ _ _ Hno) in Hw.
    injection Hw as Hw. subst w'.
    stopped_after_descriptor Hr Hnok T3 v p d b w2 w3. }
  rewrite Hb in Hr. clear Hb. cbv beta in Hr.
  apply getitem_Ok_inv in Hg as [Hanimation ->].
  match type of Hr with _ = bind ?m ?k ?w0 =>
    destruct (bind_cases m k w0)
      as [(build & w1 & Hg & Hb)|(Hno & Hf & Hnok)]
  end; cycle 1.
  { rewrite Hr, Hf, (getitem_cases _ _ _ Hno) in Hw.
    injection Hw as Hw. subst w'.
    stopped_after_descriptor Hr Hnok T3 v p d b w2 w3. }
  rewrite Hb in Hr. clear Hb. cbv beta in Hr.
  apply getitem_Ok_inv in Hg as [Hbuild' ->].
  rewrite Hbuild in Hbuild'. injection Hbuild' as <-.
  match type of Hr with _ = bind ?m ?k ?w0 =>
    destruct (bind_cases m k w0)
      as [(fps & w1 & Hg & Hb)|(Hno & Hf & Hnok)]
  end; cycle 1.
  { rewrite Hr, Hf, (getitem_cases _ _ _ Hno) in Hw.
    injection Hw as Hw. subst w'.
    stopped_after_descriptor Hr Hnok T3 v p d b w2 w3. }
  rewrite Hb in Hr. clear Hb. cbv beta in Hr.
  apply getitem_Ok_inv in Hg as [Hfps ->].
  (* extraction *)
  match type of Hr with _ = bind ?m ?k ?w0 =>
    destruct (bind_cases m k w0) as [(n & w4 & H4 & Hb)|(Hno & Hf & Hnok)]
  end; cycle 1.
  { rewrite Hr, Hf in Hw.
    destruct (extract_frames_from_video_final _ _ _ _ _ Hw)
      as (x & Hx & Ht).
    exists v, p, d, x, []. disjoint_first. rewrite Ht, T3. cbn. rewrite !app_nil_r.
    rewrite <- !app_assoc.
    do 7 (split; [done|]). split.
    - intros _. split; [done|]. exists b, w2. do 3 (split; [done|]).
      intros _. split; [done|]. exists w3. do 2 (split; [done|]).
      intros _. split; [done|]. exists source, animation, fps, w'.
      do 4 (split; [done|]). rewrite Ht, T3. by rewrite <- !app_assoc.
    - intros Hok. rewrite Hr in Hok. by destruct (Hnok _ _ Hok). }
  rewrite Hb in Hr. clear Hb. cbv beta in Hr.
  destruct (extract_frames_from_video_final
              (py_str source +:+ "/" +:+ py_str animation) b fps w3 w4)
    as (x & Hx & Ht4); [by rewrite H4|].
  assert (F4 : final_world
                 (extract_frames_from_video
                    (py_str source +:+ "/" +:+ py_str animation) b fps w3)
               = Some w4) by by rewrite H4.
  assert (X4 : existsb is_ffmpeg x = true).
  { destruct (extract_frames_from_video_Ok_inv _ _ _ _ _ _ H4)
      as (s0 & sf & t & f' & frames & l & _ & _ & _ & _ & _ & _ & _ & _ & Ht).
    rewrite Ht4 in Ht. apply app_inv_head in Ht. rewrite Ht.
    rewrite existsb_app. cbn. by rewrite orb_true_r. }
  (* script *)
  rewrite Hr in Hw.
  destruct (write_plymouth_script_final _ _ _ _ Hw) as (s & Hs & Ht5).
  exists v, p, d, x, s. disjoint_first. rewrite Ht5, Ht4, T3. rewrite <- !app_assoc.
  do 7 (split; [done|]). split.
  - intros _. split; [done|]. exists b, w2. do 3 (split; [done|]).
    intros _. split; [done|]. exists w3. do 2 (split; [done|]).
    intros _. split; [done|]. exists source, animation, fps, w4.
    do 5 (split; [done|]). intros _. split; [done|]. by exists n.
  - intros Hok. rewrite Hr in Hok.
    destruct (write_plymouth_file_Ok_inv _ _ _ H3)
      as (name & description & td & b1 & Hname & _ & _ & Hb1 & _ & Hw3).
    rewrite Hbuild in Hb1. injection Hb1 as <-.
    destruct (write_plymouth_script_Ok_inv _ _ _ _ Hok)
      as (name2 & td2 & b2 & Hname2 & _ & Hb2 & _ & Hw5).
    rewrite Hbuild in Hb2. injection Hb2 as <-.
    rewrite Hname in Hname2. injection Hname2 as <-.
    exists (py_str b +:+ "/" +:+ py_str name +:+ ".plymouth"),
      (py_str b +:+ "/" +:+ py_str name +:+ ".script").
    split; [unfold descriptor_path; by rewrite Hbuild, Hname|].
    split; [unfold script_path; by rewrite Hbuild, Hname|].
    split.
    { rewrite Hw3 in Ht3. cbn in Ht3. apply app_inv_head in Ht3.
      rewrite <- Ht3. cbn. by rewrite String.eqb_refl. }
    split; [done|].
    rewrite Hw5 in Ht5. cbn in Ht5. apply app_inv_head in Ht5.
    rewrite <- Ht5. cbn. by rewrite String.eqb_refl.
Qed.

End Order.

Lemma effects_order_witness :
  exists v p d x s,
    trace sample_final = trace sample_world ++ v ++ p ++ d ++ x ++ s
    /\ existsb (writes_to "./build/custom.plymouth") d = true
    /\ existsb is_ffmpeg x = true
    /\ existsb (writes_to "./build/custom.script") s = true
    /\ existsb (writes_to "./build/custom.plymouth") (v ++ p ++ x ++ s)
       = false
    /\ existsb is_ffmpeg (v ++ p ++ d ++ s) = false
    /\ existsb (writes_to "./build/custom.script") (v ++ p ++ d ++ x)
       = false.
Proof.
  destruct (@effects_order sample_tools default_configuration sample_world
              sample_final)
    as (v & p & d & x & s & Ht & _ & _ & _ & _ & _ & [Hfiles Htool] & _ & _
        & Hok).
  - apply final_world_end_of. vm_compute; reflexivity.
  - destruct Hok as (dp & sp & Hdp & Hsp & Hd & Hx & Hs).
    { apply returned_end_of. vm_compute; reflexivity. }
    destruct (Hfiles dp sp Hdp Hsp) as (_ & Hd' & Hs').
    vm_compute in Hdp. injection Hdp as <-.
    vm_compute in Hsp. injection Hsp as <-.
    exists v, p, d, x, s. repeat split; assumption.
Defined.

Lemma raised_end_of (r : result unit) (e : exn) (otherwise : world) :
  raised r = Some e -> r = Uncaught e (end_of r otherwise).
Proof. destruct r; cbn; try done. by intros [= ->]. Qed.

Lemma returned_value_end_of {A} (r : result A) (otherwise : world) :
  returned r = true -> exists a, r = Ok a (end_of r otherwise).
Proof. destruct r as [a w| | |]; try done. intros _. by exists a. Qed.

Lemma returned_Ok {A} (r : result A) :
  returned r = true -> exists a w, r = Ok a w.
Proof. destruct r as [a w| | |]; try done. intros _. by exists a, w. Qed.

(** ** The properties at work on the sample data *)

(** Every asset of the sample world is in place. *)
Lemma validation_accepts_witness :
  exists w',
    @check_input_assets sample_tools default_configuration sample_world
    = Ok tt w'.
Proof.
  assert (Ha : @asset_paths sample_tools default_configuration
               = Some ("./source", snd sample_assets))
    by (vm_compute; reflexivity).
  eexists.
  apply (proj2 (@validation_accepts sample_tools default_configuration
                  "./source" (snd sample_assets) sample_world _ Ha)).
  split; [vm_compute; reflexivity|].
  split; [vm_compute; reflexivity|reflexivity].
Defined.

(** The lock image is the fifth file checked. *)
Lemma validation_reports_first_missing_witness :
  sample_build_theme default_configuration lockless_world
  = SysExit (-1)
      (add_trace lockless_world
         [Print "File './source/animation.mp4' available";
          Print "File './source/box.png' available";
          Print "File './source/entry.png' available";
          Print "File './source/bullet.png' available";
          Print "The file './source/lock.png' doesn't exists or is not a valid file"]).
Proof.
  destruct (@validation_reports_first_missing sample_tools
              default_configuration "./source"
              ["./source/animation.mp4"; "./source/box.png";
               "./source/entry.png"; "./source/bullet.png"]
              "./source/lock.png"
              ["./source/progress_box.png"; "./source/progress_bar.png"]
              lockless_world) as [_ Hrun].
  - vm_compute; reflexivity.
  - vm_compute; reflexivity.
  - vm_compute; reflexivity.
  - vm_compute; reflexivity.
  - exact Hrun.
Defined.

Lemma validation_read_only_witness :
  exists w',
    @check_input_assets sample_tools default_configuration sample_world
    = Ok tt w'
    /\ fs w' = fs sample_world.
Proof.
  destruct (returned_Ok (@check_input_assets sample_tools
                           default_configuration sample_world))
    as ([] & w' & Hrun); [vm_compute; reflexivity|].
  exists w'. split; [exact Hrun|].
  apply (@validation_read_only sample_tools default_configuration
           sample_world).
  by rewrite Hrun.
Defined.

(** A build directory two levels down, in an empty file system. *)
Lemma prepare_build_directory_creates_witness :
  exists w',
    prepare_build_directory (VStr "out/theme") empty_world = Ok tt w'
    /\ fs w' !! "out/theme" = Some Dir
    /\ fs w' !! "out" = Some Dir.
Proof.
  destruct (returned_Ok (prepare_build_directory (VStr "out/theme")
                           empty_world))
    as ([] & w' & Hrun); [vm_compute; reflexivity|].
  exists w'. split; [exact Hrun|].
  destruct (prepare_build_directory_creates "out/theme" empty_world w')
    as [_ Hdirs]; [by rewrite Hrun|].
  destruct (Hdirs Hrun) as [Hp Hd]. split; [exact Hp|].
  apply Hd; [vm_compute; reflexivity|]. vm_compute. by left.
Defined.

Lemma prepare_build_directory_twice_witness :
  exists w1 w2,
    prepare_build_directory (VStr "./build") sample_world = Ok tt w1
    /\ prepare_build_directory (VStr "./build") w1 = Ok tt w2
    /\ fs w2 = fs w1.
Proof.
  destruct (returned_Ok (prepare_build_directory (VStr "./build")
                           sample_world))
    as ([] & w1 & Hrun); [vm_compute; reflexivity|].
  destruct (prepare_build_directory_twice _ _ _ Hrun) as (p & Hp & Hagain).
  exists w1. eexists. split; [exact Hrun|].
  split; [exact Hagain|reflexivity].
Defined.

(** The built-in configuration without its description. *)
Lemma descriptor_left_empty_witness :
  exists w',
    @write_plymouth_file sample_tools undescribed_configuration built_world
    = Uncaught (KeyError "description") w'
    /\ fs w' !! "./build/custom.plymouth" = Some (File (Text EmptyString)).
Proof.
  destruct (@descriptor_left_empty sample_tools undescribed_configuration
              built_world (VStr "custom")
              (VStr "/usr/share/plymouth/themes") (VStr "./build"))
    as (w' & Hrun & Hfile & _).
  - vm_compute; reflexivity.
  - vm_compute; reflexivity.
  - vm_compute; reflexivity.
  - vm_compute; reflexivity.
  - vm_compute; reflexivity.
  - exists w'. split; [exact Hrun|exact Hfile].
Defined.

(** The built-in configuration without its theme directory. *)
Lemma script_key_errors_before_open_witness :
  @write_plymouth_script sample_tools undirected_configuration (VInt 250)
    built_world
  = Uncaught (KeyError "theme_directory") built_world.
Proof.
  destruct (@script_key_errors_before_open sample_tools
              undirected_configuration (VInt 250) built_world)
    as [Hkey Hmissing].
  destruct (Hmissing "theme_directory") as (k & Hrun).
  - cbn. tauto.
  - vm_compute; reflexivity.
  - destruct (Hkey k _ Hrun) as (_ & Hnone & [<-|[<-|[<-|[]]]]).
    + vm_compute in Hnone. discriminate Hnone.
    + exact Hrun.
    + vm_compute in Hnone. discriminate Hnone.
Defined.

(** The assets are still there after the sample run. *)
Lemma build_theme_confined_witness :
  path_isfile (fs sample_final) "./source/animation.mp4" = true
  /\ path_isdir (fs sample_final) "./source" = true.
Proof.
  destruct (@build_theme_confined sample_tools default_configuration
              sample_world sample_final) as (_ & Hfile & Hdir).
  - apply final_world_end_of. vm_compute; reflexivity.
  - split; [apply Hfile|apply Hdir]; vm_compute; reflexivity.
Defined.

(** A text file under the name of the clip: the probe fails. *)
Lemma extraction_failure_keeps_descriptor_witness :
  exists w',
    sample_build_theme default_configuration text_clip_world
    = Uncaught FfmpegError w'
    /\ fs w' !! "./build/custom.plymouth"
       = Some (File (Text (@plymouth_file_text sample_tools (VStr "custom")
                             (VStr "A custom theme for Plymouth")
                             (VStr "/usr/share/plymouth/themes"))))
    /\ fs w' !! "./build/custom.script" = None.
Proof.
  assert (Hrun : sample_build_theme default_configuration text_clip_world
                 = Uncaught FfmpegError
                     (end_of (sample_build_theme default_configuration
                                text_clip_world) text_clip_world)).
  { apply raised_end_of. vm_compute; reflexivity. }
  eexists. split; [exact Hrun|].
  destruct (@extraction_failure_keeps_descriptor sample_tools
              default_configuration text_clip_world _ _ Hrun)
    as (name & description & td & b & Hn & Hd & Ht & Hb & Hfile & Hscript);
    [by left|].
  vm_compute in Hn. injection Hn as <-.
  vm_compute in Hd. injection Hd as <-.
  vm_compute in Ht. injection Ht as <-.
  vm_compute in Hb. injection Hb as <-.
  split; [exact Hfile|]. etransitivity; [exact Hscript|].
  vm_compute; reflexivity.
Defined.

(** A still image under that name: the tool answers, and line 96 finds no
    duration.  The descriptor has been written all the same. *)
Example still_image_run :
  raised (sample_build_theme default_configuration still_image_world)
  = Some (KeyError "duration")
  /\ path_isfile
       (fs (end_of (sample_build_theme default_configuration
                      still_image_world) still_image_world))
       "./build/custom.plymouth" = true
  /\ path_exists
       (fs (end_of (sample_build_theme default_configuration
                      still_image_world) still_image_world))
       "./build/custom.script" = false.
Proof. repeat split; vm_compute; reflexivity. Qed.

(** Half a second at 25 frames per second: the tool writes thirteen
    images and the count returned is 0. *)
Lemma short_clip_zero_frames_witness :
  exists w',
    @extract_frames_from_video sample_tools "./source/animation.mp4"
      (VStr "./build") (VInt 25) short_clip_world
    = Ok (VInt 0) w'
    /\ path_isfile (fs w') (frame_path "./build" 1) = true
    /\ path_isfile (fs w') (frame_path "./build" 13) = true
    /\ path_exists (fs w') (frame_path "./build" 14) = false.
Proof.
  pose (w1 := end_of
                (@extract_frames_from_video sample_tools
                   "./source/animation.mp4" (VStr "./build") (VInt 25)
                   short_clip_world) short_clip_world).
  destruct (returned_value_end_of
              (@extract_frames_from_video sample_tools
                 "./source/animation.mp4" (VStr "./build") (VInt 25)
                 short_clip_world) short_clip_world)
    as (n & Hrun); [vm_compute; reflexivity|].
  fold w1 in Hrun. exists w1.
  split; [|repeat split; vm_compute; reflexivity].
  destruct (@short_clip_zero_frames sample_tools "./source/animation.mp4"
              (VStr "./build") 25 short_clip_world w1 short_video n)
    as [Hn _].
  - vm_compute; reflexivity.
  - vm_compute; reflexivity.
  - vm_compute; reflexivity.
  - exact Hrun.
  - by rewrite <- Hn.
Defined.

(** A clip of no duration. *)
Lemma degenerate_duration_errors_witness :
  @extract_frames_from_video sample_tools "./source/animation.mp4"
    (VStr "./build") (VInt 25) empty_clip_world
  = Uncaught ZeroDivisionError
      (add_trace empty_clip_world
         [Print "Generate animation frames from video './source/animation.mp4'"]).
Proof.
  apply (@degenerate_duration_errors sample_tools "./source/animation.mp4"
           (VStr "./build") (VInt 25) empty_clip_world empty_video
           (S754_zero false)).
  - vm_compute; reflexivity.
  - vm_compute; reflexivity.
  - vm_compute; reflexivity.
Defined.

(** A comment and another dialog ratio change nothing. *)
Lemma build_theme_ignores_other_keys_witness :
  sample_build_theme annotated_configuration sample_world
  = sample_build_theme default_configuration sample_world.
Proof.
  destruct (@build_theme_ignores_other_keys sample_tools)
    as (Htop & Hdialog & _).
  unfold annotated_configuration, sample_build_theme.
  rewrite Htop; [|cbn; intuition discriminate].
  apply (Hdialog default_configuration default_dialog).
  - vm_compute; reflexivity.
  - cbn; intuition discriminate.
Defined.

(** Two [-c] options, the second with its argument attached. *)
Lemma configuration_file_choice_witness :
  scan_options [("-c", "a.json"); ("-c", "b.json")] = (true, "b.json").
Proof.
  apply (configuration_file_choice ["-c"; "a.json"; "-cb.json"]
           [("-c", "a.json"); ("-c", "b.json")] []).
  vm_compute; reflexivity.
Defined.

Lemma option_argument_forms_witness :
  sample_main "generate.py" ["-cmy.json"] sample_world
  = sample_main "generate.py" ["-c"; "my.json"] sample_world.
Proof.
  apply (@option_argument_forms sample_tools). discriminate.
Defined.

(** A directory called [config.json]. *)
Lemma configuration_file_errors_witness :
  sample_main "generate.py" [] config_dir_world
  = Uncaught IsADirectoryError config_dir_world.
Proof.
  apply (@configuration_file_errors sample_tools "generate.py" [] [] [] false
           "config.json" config_dir_world).
  - vm_compute; reflexivity.
  - vm_compute; reflexivity.
  - vm_compute; reflexivity.
Defined.

(** The user file with a dialog section of one entry: the nine keys are
    still there. *)
Lemma loaded_configuration_complete_witness :
  exists configuration w1,
    load_configuration false "config.json" partial_dialog_world
    = Ok configuration w1
    /\ is_Some (configuration !! "description")
    /\ fs w1 = fs partial_dialog_world.
Proof.
  destruct (returned_Ok (load_configuration false "config.json"
                           partial_dialog_world))
    as (configuration & w1 & Hrun); [vm_compute; reflexivity|].
  exists configuration, w1. split; [exact Hrun|].
  destruct (@loaded_configuration_complete sample_tools false "config.json"
              partial_dialog_world w1 configuration Hrun)
    as (Hfs & Hkeys & _).
  split; [|exact Hfs]. apply Hkeys. vm_compute. tauto.
Defined.

(** An option the program does not know. *)
Lemma main_exit_statuses_witness :
  exit_status (sample_main "generate.py" ["-x"] sample_world) = Some 1
  /\ (1 = 0 \/ 1 = 1 \/ 1 = 2 \/ 1 = 255).
Proof.
  split; [vm_compute; reflexivity|].
  apply (@main_exit_statuses sample_tools "generate.py" ["-x"] sample_world).
  vm_compute; reflexivity.
Defined.
